(** * The streaming import pipeline of ts-cli (openGemini-cli)

    A shallow embedding of [ImportCommand.process], [ImportFileFSM.clearBuffer],
    [ImportFileFSM.processLineProtocol], [ImportFileFSM.processCSV] and
    [StringToInt64], together with the parts of Go's [strings], [strconv],
    [errors] and [fmt] packages that these functions rely on.

    Go strings are byte sequences: they are embedded as [string] (a list of
    8-bit [ascii]).  Go maps are embedded as [gmap]; Go's [int], [int64] and the
    response code are embedded as [Z]. *)

From Stdlib Require Import ZArith Ascii String DecimalString DecimalPos.
From stdpp Require Import gmap strings list.

Set Warnings "-register-all".
Local Open Scope string_scope.
Local Open Scope Z_scope.

(** ** Package [strings] *)

Module strings.

(** [strings.HasPrefix(s, prefix)]. *)
Definition HasPrefix (s prefix : string) : bool := String.prefix prefix s.

(** [strings.Join(elems, sep)]. *)
Definition Join (elems : list string) (sep : string) : string :=
  String.concat sep elems.

(** [strings.Split(s, sep)] for a separator of one byte, the only way the
    importer calls it.  The result is never empty: a string without the
    separator is returned as a one-element slice. *)
Fixpoint Split (s : string) (sep : ascii) : list string :=
  match s with
  | EmptyString => [EmptyString]
  | String c t =>
      if Ascii.eqb c sep then EmptyString :: Split t sep
      else match Split t sep with
           | h :: r => String c h :: r
           | [] => [String c EmptyString]
           end
  end.

(** The six ASCII bytes of [asciiSpace]: tab, newline, vertical tab, form
    feed, carriage return and blank. *)
Definition asciiSpace (c : ascii) : bool :=
  let n := N_of_ascii c in
  ((9 <=? n) && (n <=? 13) || (n =? 32))%N.

(** One step of [TrimLeftFunc(s, unicode.IsSpace)]: when [s] starts with the
    UTF-8 encoding of a rune of [unicode.White_Space], the text after that
    rune.  Go's decoder accepts shortest encodings only, so a white-space
    rune is recognised exactly by its bytes:
    U+0085 and U+00A0 (C2 85, C2 A0), U+1680 (E1 9A 80),
    U+2000..U+200A, U+2028, U+2029, U+202F (E2 80 80..8A, A8, A9, AF),
    U+205F (E2 81 9F) and U+3000 (E3 80 80). *)
Definition isSpace2 (b1 b2 : ascii) : bool :=
  let x := N_of_ascii b1 in let y := N_of_ascii b2 in
  ((x =? 194) && ((y =? 133) || (y =? 160)))%N.

Definition isSpace3 (b1 b2 b3 : ascii) : bool :=
  let x := N_of_ascii b1 in let y := N_of_ascii b2 in
  let z := N_of_ascii b3 in
  ((x =? 225) && (y =? 154) && (z =? 128)
   || (x =? 226) && (y =? 128)
      && ((128 <=? z) && (z <=? 138) || (z =? 168) || (z =? 169) || (z =? 175))
   || (x =? 226) && (y =? 129) && (z =? 159)
   || (x =? 227) && (y =? 128) && (z =? 128))%N.

(** Trimming works on the bytes, from the front of a list; the right end is
    trimmed on the reversed list, where the encodings appear reversed. *)
Fixpoint trimFront (rev_order : bool) (l : list ascii) : list ascii :=
  match l with
  | [] => []
  | b1 :: t1 =>
      if asciiSpace b1 then trimFront rev_order t1
      else match t1 with
           | [] => l
           | b2 :: t2 =>
               if (if rev_order then isSpace2 b2 b1 else isSpace2 b1 b2)
               then trimFront rev_order t2
               else match t2 with
                    | [] => l
                    | b3 :: t3 =>
                        if (if rev_order then isSpace3 b3 b2 b1
                            else isSpace3 b1 b2 b3)
                        then trimFront rev_order t3
                        else l
                    end
           end
  end.

Definition TrimLeftSpace (s : string) : string :=
  string_of_list_ascii (trimFront false (list_ascii_of_string s)).

Definition TrimRightSpace (s : string) : string :=
  string_of_list_ascii
    (rev (trimFront true (rev (list_ascii_of_string s)))).

(** [strings.TrimSpace(s)]: all leading and trailing white space removed, as
    defined by Unicode. *)
Definition TrimSpace (s : string) : string :=
  TrimRightSpace (TrimLeftSpace s).

End strings.

(** ** Package [strconv] *)

Module strconv.

Inductive NumError := ErrSyntax | ErrRange.

Definition maxUint64 : Z := 2 ^ 64 - 1.
Definition maxInt64 : Z := 2 ^ 63 - 1.
Definition minInt64 : Z := - 2 ^ 63.

(** The loop of [ParseUint(s, 10, 64)] over the bytes of [s], with the
    accumulator [n]: a byte that is no decimal digit is a syntax error; the
    first overflow ends the scan at once with [maxUint64] and a range
    error, whatever follows. *)
Fixpoint parseUintLoop (s : string) (n : Z) : Z * option NumError :=
  match s with
  | EmptyString => (n, None)
  | String c t =>
      let b := Z.of_N (N_of_ascii c) in
      if (48 <=? b) && (b <=? 57) then
        let d := b - 48 in
        if maxUint64 / 10 + 1 <=? n then (maxUint64, Some ErrRange)
        else
          let n1 := n * 10 + d in
          if maxUint64 <? n1 then (maxUint64, Some ErrRange)
          else parseUintLoop t n1
      else (0, Some ErrSyntax)
  end.

(** [strconv.ParseUint(s, 10, 64)]. *)
Definition ParseUint (s : string) : Z * option NumError :=
  match s with
  | EmptyString => (0, Some ErrSyntax)
  | _ => parseUintLoop s 0
  end.

(** [strconv.ParseInt(s, 10, 64)]: an optional sign, then [ParseUint]; a
    syntax error yields 0, a value out of range yields the bound of its
    sign together with a range error. *)
Definition ParseInt (s : string) : Z * option NumError :=
  match s with
  | EmptyString => (0, Some ErrSyntax)
  | String c t =>
      let neg := Ascii.eqb c "-" in
      let s1 := if Ascii.eqb c "+" || neg then t else s in
      match ParseUint s1 with
      | (_, Some ErrSyntax) => (0, Some ErrSyntax)
      | (un, _) =>
          let cutoff := 2 ^ 63 in
          if negb neg && (cutoff <=? un) then (cutoff - 1, Some ErrRange)
          else if neg && (cutoff <? un) then (- cutoff, Some ErrRange)
          else (if neg then - un else un, None)
      end
  end.

End strconv.

(** [StringToInt64]: the error of [ParseInt] is thrown away. *)
Definition StringToInt64 (s : string) : Z := fst (strconv.ParseInt s).

(** ** Packages [errors] and [fmt] *)

(** A Go [error] value is [option error]: [None] is [nil]. *)
Inductive error :=
| errorString (s : string)
| joinError (errs : list error)
| wrapError (msg : string) (err : error).

Definition LF : string := String (ascii_of_N 10) EmptyString.

(** The [Error()] method. *)
Fixpoint Error (e : error) : string :=
  match e with
  | errorString s => s
  | joinError errs => strings.Join (List.map Error errs) LF
  | wrapError msg _ => msg
  end.

Module errors.

Definition New (text : string) : error := errorString text.

(** [errors.Join(errs...)]: nil values are discarded, and the result is nil
    when every value is nil. *)
Definition Join (errs : list (option error)) : option error :=
  match omap id errs with
  | [] => None
  | es => Some (joinError es)
  end.

End errors.

Module fmt.

(** The verb [%d]. *)
Definition d (n : Z) : string := NilZero.string_of_int (Z.to_int n).

(** [fmt.Errorf(format, ...)] without [%w]. *)
Definition Errorf (text : string) : error := errorString text.

(** [fmt.Errorf("%w" + rest, err, ...)]: a nil operand of [%w] is printed
    as a bad verb and nothing is wrapped. *)
Definition Errorf_w (err : option error) (rest : string) : error :=
  match err with
  | None => errorString ("%!w(<nil>)" ++ rest)
  | Some e => wrapError (Error e ++ rest) e
  end.

End fmt.

(** ** Package [opengemini] and the collaborators *)

Module opengemini.

(** A value of [map[string]interface{}]: what the CSV importer stores (the
    text of a column) and what a line-protocol parser can yield. *)
Inductive any :=
| any_string (s : string)
| any_int64 (n : Z)
| any_float64 (text : string)
| any_bool (b : bool).

Record Point := {
  Measurement : string;
  Timestamp : Z;
  Tags : gmap string string;
  Fields : gmap string any
}.

Record RecordBuilder := { rb_measurement : string }.

(** The row that [rb.NewLine().AddTag(..)...AddField(..)...Build(ts)] yields;
    the tags are attached before the fields, each in the iteration order of
    its map, which the row does not keep. *)
Record RecordLine := {
  line_measurement : string;
  line_tags : gmap string string;
  line_fields : gmap string any;
  line_timestamp : Z
}.

Record WriteRequestBuilder := { wb_database : string; wb_retentionPolicy : string }.

Record WriteRequest := {
  req_database : string;
  req_retentionPolicy : string;
  req_username : string;
  req_password : string;
  req_records : list RecordLine
}.

End opengemini.

Inductive LogLevel := LevelInfo | LevelError.

Inductive LogValue := LogErr (e : option error) | LogStr (s : string).

(** What a run does to the outside world, in order: the calls to the textual
    write client, the control-command client and the structured write client,
    each with what it answered, and the log records. *)
Inductive Event :=
| HttpWrite (database retentionPolicy lines precision : string) (result : option error)
| HttpQuery (command : string) (result : option error)
| GrpcWrite (request : option opengemini.WriteRequest)
            (response : option Z) (result : option error)
| Slog (level : LogLevel) (msg : string) (attrs : list (string * LogValue)).

(** The collaborators are functions of the events so far, so that the same
    call may be answered differently each time.  A Go function returning a
    pointer or an interface together with an error is a pair of options: the
    importer decides by the error alone, and a nil first component that is
    used later is a run-time panic. *)
Record Collaborators := {
  httpClient_Write :
    list Event -> string -> string -> string -> string -> option error;
  httpClient_Query : list Event -> string -> option error;
  writeClient_Write :
    list Event -> option opengemini.WriteRequest -> option Z * option error;
  NewWriteRequestBuilder :
    string -> string -> option opengemini.WriteRequestBuilder * option error;
  NewRecordBuilder : string -> option opengemini.RecordBuilder * option error;
  builder_Build :
    opengemini.WriteRequestBuilder -> string -> string ->
    list opengemini.RecordLine -> option opengemini.WriteRequest * option error;
  parser_Parse : string -> list opengemini.Point * option error
}.

(** ** The importer's data *)

Definition ImportFormatLineProtocol : string := "line_protocol".
Definition ImportFormatCSV : string := "csv".
Definition ImportTokenDDL : string := "# DDL".
Definition ImportTokenDML : string := "# DML".
Definition ImportTokenDatabase : string := "# CONTEXT-DATABASE:".
Definition ImportTokenRetentionPolicy : string := "# CONTEXT-RETENTION-POLICY:".

Record ImportConfig := {
  Username : string;
  Password : string;
  Database : string;
  RetentionPolicy : string;
  Measurement : string;
  Precision : string;
  Path : string;
  Format : string;
  ColumnWrite : bool;
  ColumnWritePort : Z;
  BatchSize : Z;
  Tags : list string;
  Fields : list string;
  TimeField : string
}.

Inductive ImportState := ImportStateDDL | ImportStateDML.

Record FieldPos := { Name : string; Pos : Z }.

Record ImportFileFSM := {
  state : ImportState;
  database : string;
  retentionPolicy : string;
  measurement : string;
  tagMap : gmap string FieldPos;
  fieldMap : gmap string FieldPos;
  timeField : FieldPos;
  batchLPBuffer : list string;
  batchPointBuffer : list opengemini.Point
}.

(** [new(ImportFileFSM)]; a nil map reads as the empty map. *)
Definition newImportFileFSM : ImportFileFSM :=
  {| state := ImportStateDDL; database := ""; retentionPolicy := "";
     measurement := ""; tagMap := ∅; fieldMap := ∅;
     timeField := {| Name := ""; Pos := 0 |};
     batchLPBuffer := []; batchPointBuffer := [] |}.

(** Everything a run mutates: the state machine of the command, the
    package-level registry [builderEntities] and the events so far. *)
Record World := {
  fsm : ImportFileFSM;
  builderEntities : gmap string (option opengemini.WriteRequestBuilder);
  trace : list Event
}.

Inductive Outcome (A : Type) :=
| Done (a : A)
| Panic (why : string).
Arguments Done {A} a.
Arguments Panic {A} why.

(** [FSMCall]: the deferred action, run by the driver on the command that owns
    the state machine; it returns an [error] and may mutate the world. *)
Definition FSMCall : Type := World -> Outcome (option error * World).

Definition FSMCallEmpty : FSMCall := fun w => Done (None, w).

Record ImportCommand := {
  cfg : ImportConfig;
  collab : Collaborators
}.

(** *** Assignments to the fields of the state machine and of the world *)

Definition with_state (v : ImportState) (f : ImportFileFSM) : ImportFileFSM :=
  {| state := v; database := database f; retentionPolicy := retentionPolicy f;
     measurement := measurement f; tagMap := tagMap f; fieldMap := fieldMap f;
     timeField := timeField f; batchLPBuffer := batchLPBuffer f;
     batchPointBuffer := batchPointBuffer f |}.

Definition with_database (v : string) (f : ImportFileFSM) : ImportFileFSM :=
  {| state := state f; database := v; retentionPolicy := retentionPolicy f;
     measurement := measurement f; tagMap := tagMap f; fieldMap := fieldMap f;
     timeField := timeField f; batchLPBuffer := batchLPBuffer f;
     batchPointBuffer := batchPointBuffer f |}.

Definition with_retentionPolicy (v : string) (f : ImportFileFSM) : ImportFileFSM :=
  {| state := state f; database := database f; retentionPolicy := v;
     measurement := measurement f; tagMap := tagMap f; fieldMap := fieldMap f;
     timeField := timeField f; batchLPBuffer := batchLPBuffer f;
     batchPointBuffer := batchPointBuffer f |}.

Definition with_measurement (v : string) (f : ImportFileFSM) : ImportFileFSM :=
  {| state := state f; database := database f; retentionPolicy := retentionPolicy f;
     measurement := v; tagMap := tagMap f; fieldMap := fieldMap f;
     timeField := timeField f; batchLPBuffer := batchLPBuffer f;
     batchPointBuffer := batchPointBuffer f |}.

Definition with_tagMap (v : gmap string FieldPos) (f : ImportFileFSM) : ImportFileFSM :=
  {| state := state f; database := database f; retentionPolicy := retentionPolicy f;
     measurement := measurement f; tagMap := v; fieldMap := fieldMap f;
     timeField := timeField f; batchLPBuffer := batchLPBuffer f;
     batchPointBuffer := batchPointBuffer f |}.

Definition with_fieldMap (v : gmap string FieldPos) (f : ImportFileFSM) : ImportFileFSM :=
  {| state := state f; database := database f; retentionPolicy := retentionPolicy f;
     measurement := measurement f; tagMap := tagMap f; fieldMap := v;
     timeField := timeField f; batchLPBuffer := batchLPBuffer f;
     batchPointBuffer := batchPointBuffer f |}.

Definition with_timeField (v : FieldPos) (f : ImportFileFSM) : ImportFileFSM :=
  {| state := state f; database := database f; retentionPolicy := retentionPolicy f;
     measurement := measurement f; tagMap := tagMap f; fieldMap := fieldMap f;
     timeField := v; batchLPBuffer := batchLPBuffer f;
     batchPointBuffer := batchPointBuffer f |}.

Definition with_batchLPBuffer (v : list string) (f : ImportFileFSM) : ImportFileFSM :=
  {| state := state f; database := database f; retentionPolicy := retentionPolicy f;
     measurement := measurement f; tagMap := tagMap f; fieldMap := fieldMap f;
     timeField := timeField f; batchLPBuffer := v;
     batchPointBuffer := batchPointBuffer f |}.

Definition with_batchPointBuffer (v : list opengemini.Point) (f : ImportFileFSM)
  : ImportFileFSM :=
  {| state := state f; database := database f; retentionPolicy := retentionPolicy f;
     measurement := measurement f; tagMap := tagMap f; fieldMap := fieldMap f;
     timeField := timeField f; batchLPBuffer := batchLPBuffer f;
     batchPointBuffer := v |}.

Definition on_fsm (g : ImportFileFSM -> ImportFileFSM) (w : World) : World :=
  {| fsm := g (fsm w); builderEntities := builderEntities w; trace := trace w |}.

Definition register (name : string) (b : option opengemini.WriteRequestBuilder)
    (w : World) : World :=
  {| fsm := fsm w; builderEntities := <[name := b]> (builderEntities w);
     trace := trace w |}.

Definition emit (e : Event) (w : World) : World :=
  {| fsm := fsm w; builderEntities := builderEntities w; trace := trace w ++ [e] |}.

Definition slog_Error (msg : string) (attrs : list (string * LogValue)) : World -> World :=
  emit (Slog LevelError msg attrs).

Definition slog_Info (msg : string) (attrs : list (string * LogValue)) : World -> World :=
  emit (Slog LevelInfo msg attrs).

(** [l[i]] of a Go slice: out of range is a panic, here [None]. *)
Definition index {A} (l : list A) (i : Z) : option A :=
  if i <? 0 then None else l !! Z.to_nat i.

(** [m[k]] of a Go map of [FieldPos]: a missing key reads as the zero value. *)
Definition zeroFieldPos : FieldPos := {| Name := ""; Pos := 0 |}.

Definition lookupPos (m : gmap string FieldPos) (k : string) : FieldPos :=
  default zeroFieldPos (m !! k).

(** [len(l)] as an [int]. *)
Definition len {A} (l : list A) : Z := Z.of_nat (length l).

(** A deferred statement: it runs when the function returns; after a panic
    nothing of the world is observed any more. *)
Definition defer {A} (g : World -> World) (r : Outcome (A * World)) : Outcome (A * World) :=
  match r with
  | Done (a, w) => Done (a, g w)
  | Panic why => Panic why
  end.

(** ** The importer's operations *)

Section Importer.

Variable command : ImportCommand.

(** The row built from a point: [rb.NewLine()], [AddTag] for every tag,
    [AddField] for every field, [Build(point.Timestamp)]. *)
Definition NewLine (rb : opengemini.RecordBuilder) (point : opengemini.Point)
  : opengemini.RecordLine :=
  {| opengemini.line_measurement := opengemini.rb_measurement rb;
     opengemini.line_tags := opengemini.Tags point;
     opengemini.line_fields := opengemini.Fields point;
     opengemini.line_timestamp := opengemini.Timestamp point |}.

(** [switch response.Code] of the two threshold flushes. *)
Definition responseError (code : Z) : option error :=
  if code =? 0 then None
  else if code =? 1 then
    Some (fmt.Errorf ("write failed, code: " ++ fmt.d code ++ ", partial write failure"))
  else if code =? 2 then
    Some (fmt.Errorf ("write failed, code: " ++ fmt.d code ++ ", write failure"))
  else Some (fmt.Errorf ("unexpected response code: " ++ fmt.d code)).

(** The loop [for _, point := range points] of the two threshold flushes,
    with its local map [recordBuilder]: an error of [NewRecordBuilder] is
    returned. *)
Fixpoint recordLinesOf (points : list opengemini.Point)
    (recordBuilder : gmap string opengemini.RecordBuilder)
    (recordLines : list opengemini.RecordLine)
  : Outcome (option error * list opengemini.RecordLine) :=
  match points with
  | [] => Done (None, recordLines)
  | point :: rest =>
      match recordBuilder !! opengemini.Measurement point with
      | Some rb => recordLinesOf rest recordBuilder (recordLines ++ [NewLine rb point])
      | None =>
          let '(rb, err) :=
            NewRecordBuilder (collab command) (opengemini.Measurement point) in
          match err with
          | Some e => Done (Some e, recordLines)
          | None =>
              match rb with
              | None => Panic "nil RecordBuilder"
              | Some rb =>
                  recordLinesOf rest
                    (<[opengemini.Measurement point := rb]> recordBuilder)
                    (recordLines ++ [NewLine rb point])
              end
          end
      end
  end.

(** The registry lookup of the two threshold flushes: the builder of
    [database.retentionPolicy], created and registered on first use; an
    error of [NewWriteRequestBuilder] is returned. *)
Definition builderFor (w : World)
  : option error + option opengemini.WriteRequestBuilder * World :=
  let builderName := database (fsm w) ++ "." ++ retentionPolicy (fsm w) in
  match builderEntities w !! builderName with
  | Some builder => inr (builder, w)
  | None =>
      let '(builder, err) :=
        NewWriteRequestBuilder (collab command) (database (fsm w))
          (retentionPolicy (fsm w)) in
      match err with
      | Some e => inl (Some e)
      | None => inr (builder, register builderName builder w)
      end
  end.

(** The rest of a threshold flush on the structured path: rows, request,
    structured write call, and the classification of the response code.
    The source has this text twice, in [processLineProtocol] and in
    [processCSV]. *)
Definition sendRecords (builder : option opengemini.WriteRequestBuilder)
    (points : list opengemini.Point) : FSMCall := fun w =>
  match recordLinesOf points ∅ [] with
  | Panic why => Panic why
  | Done (Some e, _) => Done (Some e, w)
  | Done (None, recordLines) =>
      match builder with
      | None => Panic "nil WriteRequestBuilder"
      | Some b =>
          let '(request, err) :=
            builder_Build (collab command) b (Username (cfg command))
              (Password (cfg command)) recordLines in
          match err with
          | Some e => Done (Some e, w)
          | None =>
              let '(response, err) :=
                writeClient_Write (collab command) (trace w) request in
              let w := emit (GrpcWrite request response err) w in
              match err with
              | Some e => Done (Some e, w)
              | None =>
                  match response with
                  | None => Panic "nil response"
                  | Some code => Done (responseError code, w)
                  end
              end
          end
      end
  end.

(** *** [clearBuffer] *)

(** The loop over the buffered points in [clearBuffer]; [err] is the
    variable of the enclosing function, and the error of
    [NewRecordBuilder] only counts when [err] is already set. *)
Fixpoint clearRecordLines (err : option error) (points : list opengemini.Point)
    (recordBuilder : gmap string opengemini.RecordBuilder)
    (recordLines : list opengemini.RecordLine)
  : Outcome (option error + list opengemini.RecordLine) :=
  match points with
  | [] => Done (inr recordLines)
  | point :: rest =>
      match recordBuilder !! opengemini.Measurement point with
      | Some rb =>
          clearRecordLines err rest recordBuilder (recordLines ++ [NewLine rb point])
      | None =>
          let '(rb, recordBuilderErr) :=
            NewRecordBuilder (collab command) (opengemini.Measurement point) in
          match err with
          | Some _ => Done (inl (errors.Join [err; recordBuilderErr]))
          | None =>
              match rb with
              | None => Panic "nil RecordBuilder"
              | Some rb =>
                  clearRecordLines err rest
                    (<[opengemini.Measurement point := rb]> recordBuilder)
                    (recordLines ++ [NewLine rb point])
              end
          end
      end
  end.

(** [switch response.Code] of [clearBuffer], where the messages wrap [err]. *)
Definition clearResponseError (err : option error) (code : Z) : option error :=
  if code =? 0 then err
  else if code =? 1 then
    Some (fmt.Errorf_w err
            (LF ++ "write failed, code: " ++ fmt.d code ++ ", partial write failure"))
  else if code =? 2 then
    Some (fmt.Errorf_w err
            (LF ++ "write failed, code: " ++ fmt.d code ++ ", write failure"))
  else Some (fmt.Errorf_w err (LF ++ "unexpected response code: " ++ fmt.d code)).

(** The second block of [clearBuffer], entered when the point buffer is not
    empty.  Every test is [if err != nil], on the variable [err] of the
    enclosing function, as the source has it. *)
Definition clearPoints (err : option error) : FSMCall := fun w =>
  let builderName := database (fsm w) ++ "." ++ retentionPolicy (fsm w) in
  let rest (builder : option opengemini.WriteRequestBuilder) (w : World) :=
    match clearRecordLines err (batchPointBuffer (fsm w)) ∅ [] with
    | Panic why => Panic why
    | Done (inl e) => Done (e, w)
    | Done (inr recordLines) =>
        match builder with
        | None => Panic "nil WriteRequestBuilder"
        | Some b =>
            let '(request, buildErr) :=
              builder_Build (collab command) b (Username (cfg command))
                (Password (cfg command)) recordLines in
            match err with
            | Some _ => Done (errors.Join [err; buildErr], w)
            | None =>
                let '(response, writeErr) :=
                  writeClient_Write (collab command) (trace w) request in
                let w := emit (GrpcWrite request response writeErr) w in
                match err with
                | Some _ => Done (errors.Join [err; writeErr], w)
                | None =>
                    match response with
                    | None => Panic "nil response"
                    | Some code => Done (clearResponseError err code, w)
                    end
                end
            end
        end
    end in
  match builderEntities w !! builderName with
  | Some builder => rest builder w
  | None =>
      let '(builder, buildRequestErr) :=
        NewWriteRequestBuilder (collab command) (database (fsm w))
          (retentionPolicy (fsm w)) in
      match err with
      | Some _ => Done (errors.Join [err; buildRequestErr], w)
      | None => rest builder (register builderName builder w)
      end
  end.

(** [fsm.clearBuffer()]: the forced flush of both buffers. *)
Definition clearBuffer : FSMCall := fun w =>
  let err : option error := None in
  let '(err, w, deferred) :=
    if len (batchLPBuffer (fsm w)) =? 0 then (err, w, @id World)
    else
      let lines := strings.Join (batchLPBuffer (fsm w)) LF in
      let writeErr :=
        httpClient_Write (collab command) (trace w) (database (fsm w))
          (retentionPolicy (fsm w)) lines (Precision (cfg command)) in
      let w :=
        emit (HttpWrite (database (fsm w)) (retentionPolicy (fsm w)) lines
                (Precision (cfg command)) writeErr) w in
      let err :=
        match err with
        | Some _ => errors.Join [err; writeErr]
        | None => err
        end in
      (err, w, on_fsm (with_batchLPBuffer [])) in
  defer deferred
    (if len (batchPointBuffer (fsm w)) =? 0 then Done (err, w)
     else defer (on_fsm (with_batchPointBuffer [])) (clearPoints err w)).

(** *** [processLineProtocol] *)

(** The action of a schema line: the control command is executed at once. *)
Definition executeDDL (data : string) : FSMCall := fun w =>
  let err := httpClient_Query (collab command) (trace w) data in
  let w := emit (HttpQuery data err) w in
  match err with
  | Some e =>
      Done (Some e,
            slog_Error "execute ddl failed"
              [("reason", LogErr err); ("command", LogStr data)] w)
  | None => Done (None, slog_Info "execute ddl success" [("command", LogStr data)] w)
  end.

(** The action of a data line. *)
Definition writeLineProtocol (data : string) : FSMCall := fun w =>
  if String.eqb (database (fsm w)) "" then
    Done (Some (errors.New
                  "database is required, make sure `# CONTEXT-DATABASE:` token is exist"),
          w)
  else if len (batchLPBuffer (fsm w)) <? BatchSize (cfg command) then
    Done (None, on_fsm (with_batchLPBuffer (batchLPBuffer (fsm w) ++ [data])) w)
  else
    defer (on_fsm (with_batchLPBuffer []))
      (let lines := strings.Join (batchLPBuffer (fsm w)) LF in
       if ColumnWrite (cfg command) then
         match builderFor w with
         | inl err => Done (err, w)
         | inr (builder, w) =>
             let '(points, err) := parser_Parse (collab command) lines in
             match err with
             | Some e => Done (Some e, w)
             | None => sendRecords builder points w
             end
         end
       else
         let err :=
           httpClient_Write (collab command) (trace w) (database (fsm w))
             (retentionPolicy (fsm w)) lines (Precision (cfg command)) in
         Done (err,
               emit (HttpWrite (database (fsm w)) (retentionPolicy (fsm w)) lines
                       (Precision (cfg command)) err) w)).

(** [strings.Split(data, ":")[1]]. *)
Definition afterColon (data : string) : option string :=
  index (strings.Split data ":") 1.

(** [fsm.processLineProtocol(ctx, data)].  The state is one of the two
    constants, so the final [return FSMCallEmpty, nil] is never reached. *)
Definition processLineProtocol (data : string) (w : World)
  : Outcome (FSMCall * option error * World) :=
  if strings.HasPrefix data ImportTokenDDL then
    Done (FSMCallEmpty, None, on_fsm (with_state ImportStateDDL) w)
  else if strings.HasPrefix data ImportTokenDML then
    Done (FSMCallEmpty, None,
          on_fsm (with_retentionPolicy "autogen")
            (on_fsm (with_state ImportStateDML) w))
  else
    match state (fsm w) with
    | ImportStateDDL =>
        if String.eqb (strings.TrimSpace data) "" then Done (FSMCallEmpty, None, w)
        else Done (executeDDL (strings.TrimSpace data), None, w)
    | ImportStateDML =>
        if strings.HasPrefix data ImportTokenDatabase then
          match afterColon data with
          | None => Panic "index out of range"
          | Some text =>
              Done (FSMCallEmpty, None,
                    on_fsm (with_database (strings.TrimSpace text)) w)
          end
        else if strings.HasPrefix data ImportTokenRetentionPolicy then
          match afterColon data with
          | None => Panic "index out of range"
          | Some text =>
              Done (FSMCallEmpty, None,
                    on_fsm (with_retentionPolicy (strings.TrimSpace text)) w)
          end
        else if strings.HasPrefix data "#" then Done (FSMCallEmpty, None, w)
        else if String.eqb (strings.TrimSpace data) "" then Done (FSMCallEmpty, None, w)
        else Done (writeLineProtocol (strings.TrimSpace data), None, w)
    end.

(** *** [processCSV] *)

(** The body of [for idx, datum := range data] in the header action: the
    column is a tag, else a field, else the time column, else it is ignored. *)
Definition scanColumn (idx : Z) (datum : string) (w : World) : World :=
  match tagMap (fsm w) !! datum with
  | Some _ =>
      on_fsm (with_tagMap
                (<[datum := {| Name := datum; Pos := idx |}]> (tagMap (fsm w)))) w
  | None =>
      match fieldMap (fsm w) !! datum with
      | Some _ =>
          on_fsm (with_fieldMap
                    (<[datum := {| Name := datum; Pos := idx |}]>
                       (fieldMap (fsm w)))) w
      | None =>
          if String.eqb (TimeField (cfg command)) datum then
            on_fsm (with_timeField {| Name := datum; Pos := idx |}) w
          else slog_Info "ignore column name" [("column", LogStr datum)] w
      end
  end.

Fixpoint scanHeader (idx : Z) (data : list string) (w : World) : World :=
  match data with
  | [] => w
  | datum :: rest => scanHeader (idx + 1) rest (scanColumn idx datum w)
  end.

(** The first name of [names] whose entry of [m] has an empty [Name]. *)
Fixpoint firstUnresolved (m : gmap string FieldPos) (names : list string)
  : option string :=
  match names with
  | [] => None
  | n :: rest =>
      if String.eqb (Name (lookupPos m n)) "" then Some n
      else firstUnresolved m rest
  end.

(** [make(map[string]FieldPos)] filled with the zero value for every name. *)
Definition zeroMap (names : list string) : gmap string FieldPos :=
  foldl (fun m n => <[n := zeroFieldPos]> m) ∅ names.

(** The action of the first row: the Field Resolver. *)
Definition resolveHeader (data : list string) : FSMCall := fun w =>
  let w := on_fsm (with_database (Database (cfg command))) w in
  let w := on_fsm (with_retentionPolicy (RetentionPolicy (cfg command))) w in
  let w := on_fsm (with_measurement (Measurement (cfg command))) w in
  let w := on_fsm (with_tagMap (zeroMap (Tags (cfg command)))) w in
  let w := on_fsm (with_fieldMap (zeroMap (Fields (cfg command)))) w in
  let w := scanHeader 0 data w in
  match firstUnresolved (fieldMap (fsm w)) (Fields (cfg command)) with
  | Some field => Done (Some (errors.New ("field name not in csv header " ++ field)), w)
  | None =>
      match firstUnresolved (tagMap (fsm w)) (Tags (cfg command)) with
      | Some tag => Done (Some (errors.New ("tag name not in csv header " ++ tag)), w)
      | None =>
          if String.eqb (Name (timeField (fsm w))) "" then
            Done (Some (errors.New ("time field name not in csv header "
                                    ++ TimeField (cfg command))), w)
          else Done (None, slog_Info "parse header success" [] w)
      end
  end.

(** [for _, tag := range fsm.tagMap { point.Tags[tag.Name] = data[tag.Pos] }].
    Go visits the entries in an unspecified order, [map_fold] in a fixed
    one; the result differs only when two entries share a [Name]. *)
Definition rowTags (m : gmap string FieldPos) (data : list string)
  : option (gmap string string) :=
  map_fold (fun _ tag acc =>
              match acc, index data (Pos tag) with
              | Some tags, Some v => Some (<[Name tag := v]> tags)
              | _, _ => None
              end) (Some ∅) m.

Definition rowFields (m : gmap string FieldPos) (data : list string)
  : option (gmap string opengemini.any) :=
  map_fold (fun _ field acc =>
              match acc, index data (Pos field) with
              | Some fields, Some v =>
                  Some (<[Name field := opengemini.any_string v]> fields)
              | _, _ => None
              end) (Some ∅) m.

(** The action of a data row. *)
Definition writeCSV (data : list string) : FSMCall := fun w =>
  if String.eqb (database (fsm w)) "" then
    Done (Some (errors.New "database is required"), w)
  else
    let w :=
      if String.eqb (retentionPolicy (fsm w)) "" then
        on_fsm (with_retentionPolicy "autogen") w
      else w in
    if String.eqb (Measurement (cfg command)) "" then
      Done (Some (errors.New "measurement is required"), w)
    else if (len (Fields (cfg command)) =? 0)
            || (Z.of_nat (size (fieldMap (fsm w))) =? 0) then
      Done (Some (errors.New "--fields is required or field name not in csv header"), w)
    else if len (batchLPBuffer (fsm w)) <? BatchSize (cfg command) then
      match index data (Pos (timeField (fsm w))),
            rowTags (tagMap (fsm w)) data, rowFields (fieldMap (fsm w)) data with
      | Some time, Some tags, Some fields =>
          let point :=
            {| opengemini.Measurement := Measurement (cfg command);
               opengemini.Timestamp := StringToInt64 time;
               opengemini.Tags := tags;
               opengemini.Fields := fields |} in
          Done (None,
                on_fsm (with_batchPointBuffer (batchPointBuffer (fsm w) ++ [point])) w)
      | _, _, _ => Panic "index out of range"
      end
    else
      defer (on_fsm (with_batchPointBuffer []))
        match builderFor w with
        | inl err => Done (err, w)
        | inr (builder, w) => sendRecords builder (batchPointBuffer (fsm w)) w
        end.

(** [fsm.processCSV(ctx, data)]. *)
Definition processCSV (data : list string) (w : World)
  : Outcome (FSMCall * option error * World) :=
  if len data =? 0 then Done (FSMCallEmpty, None, w)
  else
    match state (fsm w) with
    | ImportStateDDL =>
        Done (resolveHeader data, None, on_fsm (with_state ImportStateDML) w)
    | ImportStateDML => Done (writeCSV data, None, w)
    end.

(** *** The driver, [ImportCommand.process] *)

(** What one call of the reader gave: a unit, or an error other than
    [io.EOF]; the end of the list is [io.EOF]. *)
Inductive ReadResult (A : Type) :=
| ReadOk (unit : A)
| ReadErr (e : error).
Arguments ReadOk {A} unit.
Arguments ReadErr {A} e.

(** The opened file, as the two readers deliver it before [io.EOF]: for
    [bufio.Reader.ReadBytes] the lines, each with its final newline (text
    after the last newline comes with [io.EOF] and is not processed); for
    [csv.Reader.Read] the rows, comment lines left out. *)
Record File := {
  file_lines : list (ReadResult string);
  file_rows : list (ReadResult (list string))
}.

(** The body of the line-protocol loop for a line that was read. *)
Definition lineProtocolStep (line : string) (w : World) : Outcome World :=
  match processLineProtocol line w with
  | Panic why => Panic why
  | Done (_, Some err, w) =>
      Done (slog_Error "process line protocol failed" [("reason", LogErr (Some err))] w)
  | Done (fsmCall, None, w) =>
      match fsmCall w with
      | Panic why => Panic why
      | Done (Some err, w) =>
          Done (slog_Error "call line protocol fsm function failed"
                  [("reason", LogErr (Some err))] w)
      | Done (None, w) => Done w
      end
  end.

Fixpoint lineProtocolLoop (units : list (ReadResult string)) (w : World)
  : Outcome World :=
  match units with
  | [] => Done w
  | ReadErr e :: rest =>
      lineProtocolLoop rest
        (slog_Error "read line failed" [("reason", LogErr (Some e))] w)
  | ReadOk line :: rest =>
      match lineProtocolStep line w with
      | Panic why => Panic why
      | Done w => lineProtocolLoop rest w
      end
  end.

(** The body of the CSV loop for a row that was read. *)
Definition csvStep (row : list string) (w : World) : Outcome World :=
  match processCSV row w with
  | Panic why => Panic why
  | Done (_, Some err, w) =>
      Done (slog_Error "process csv line failed" [("reason", LogErr (Some err))] w)
  | Done (fsmCall, None, w) =>
      match fsmCall w with
      | Panic why => Panic why
      | Done (Some err, w) =>
          Done (slog_Error "call csv line fsm function failed"
                  [("reason", LogErr (Some err))] w)
      | Done (None, w) => Done w
      end
  end.

Fixpoint csvLoop (units : list (ReadResult (list string))) (w : World)
  : Outcome World :=
  match units with
  | [] => Done w
  | ReadErr e :: rest =>
      csvLoop rest (slog_Error "read csv line failed" [("reason", LogErr (Some e))] w)
  | ReadOk row :: rest =>
      match csvStep row w with
      | Panic why => Panic why
      | Done w => csvLoop rest w
      end
  end.

(** The forced flush at the end of the stream and the completion message. *)
Definition finish (w : World) : Outcome (option error * World) :=
  match clearBuffer w with
  | Panic why => Panic why
  | Done (err, w) =>
      let w :=
        match err with
        | Some _ => slog_Error "clear buffer failed" [("reason", LogErr err)] w
        | None => w
        end in
      Done (None, slog_Info "process finished" [("path", LogStr (Path (cfg command)))] w)
  end.

(** [c.process()]; [opened] is what [os.Open(c.cfg.Path)] returned. *)
Definition process (opened : error + File) (w : World) : Outcome (option error * World) :=
  match opened with
  | inl err =>
      Done (Some err,
            slog_Error "open file failed"
              [("file", LogStr (Path (cfg command))); ("reason", LogErr (Some err))] w)
  | inr file =>
      if String.eqb (Format (cfg command)) ImportFormatLineProtocol then
        match lineProtocolLoop (file_lines file) w with
        | Panic why => Panic why
        | Done w => finish w
        end
      else if String.eqb (Format (cfg command)) ImportFormatCSV then
        match csvLoop (file_rows file)
                (slog_Info "tips: csv file import only support by column write protocol"
                   [] w) with
        | Panic why => Panic why
        | Done w => finish w
        end
      else
        Done (Some (fmt.Errorf ("unknown --format " ++ Format (cfg command)
                                ++ ", only support line_protocol,csv")), w)
  end.

End Importer.

Arguments ReadOk {A} unit.
Arguments ReadErr {A} e.

(** The world in which [Run] starts [process]: a new state machine, the
    registry as the package initialises it, nothing done yet. *)
Definition initialWorld : World :=
  {| fsm := newImportFileFSM; builderEntities := ∅; trace := [] |}.

(** ** A concrete setting for the examples *)

Module Demo.

(** Collaborators that always succeed; the structured write client answers
    with the given response code. *)
Definition friendly (code : Z) : Collaborators :=
  {| httpClient_Write := fun _ _ _ _ _ => None;
     httpClient_Query := fun _ _ => None;
     writeClient_Write := fun _ _ => (Some code, None);
     NewWriteRequestBuilder := fun db rp =>
       (Some {| opengemini.wb_database := db; opengemini.wb_retentionPolicy := rp |},
        None);
     NewRecordBuilder := fun m => (Some {| opengemini.rb_measurement := m |}, None);
     builder_Build := fun b user pass records =>
       (Some {| opengemini.req_database := opengemini.wb_database b;
                opengemini.req_retentionPolicy := opengemini.wb_retentionPolicy b;
                opengemini.req_username := user;
                opengemini.req_password := pass;
                opengemini.req_records := records |}, None);
     parser_Parse := fun _ => ([], None) |}.

(** As [friendly], with a textual write client that always fails. *)
Definition failingHttp (e : error) : Collaborators :=
  {| httpClient_Write := fun _ _ _ _ _ => Some e;
     httpClient_Query := httpClient_Query (friendly 0);
     writeClient_Write := writeClient_Write (friendly 0);
     NewWriteRequestBuilder := NewWriteRequestBuilder (friendly 0);
     NewRecordBuilder := NewRecordBuilder (friendly 0);
     builder_Build := builder_Build (friendly 0);
     parser_Parse := parser_Parse (friendly 0) |}.

Definition config (format : string) (columnWrite : bool) (batchSize : Z) : ImportConfig :=
  {| Username := "admin"; Password := "secret"; Database := "db0";
     RetentionPolicy := "autogen"; Measurement := "cpu"; Precision := "ns";
     Path := "data.txt"; Format := format; ColumnWrite := columnWrite;
     ColumnWritePort := 8035; BatchSize := batchSize;
     Tags := ["host"]; Fields := ["value"]; TimeField := "time" |}.

Definition lp (batchSize : Z) : ImportCommand :=
  {| cfg := config ImportFormatLineProtocol false batchSize; collab := friendly 0 |}.

Definition csv (batchSize : Z) (code : Z) : ImportCommand :=
  {| cfg := config ImportFormatCSV true batchSize; collab := friendly code |}.

Definition line (s : string) : string := s ++ LF.

(** A configuration in which [host] is both a tag and a field. *)
Definition twoRoles : ImportCommand :=
  {| cfg :=
       {| Username := "admin"; Password := "secret"; Database := "db0";
          RetentionPolicy := "autogen"; Measurement := "cpu"; Precision := "ns";
          Path := "data.csv"; Format := ImportFormatCSV; ColumnWrite := true;
          ColumnWritePort := 8035; BatchSize := 10;
          Tags := ["host"]; Fields := ["host"]; TimeField := "time" |};
     collab := friendly 0 |}.

(** Scenario 1 of the specification. *)
Definition scenario1 : File :=
  {| file_lines :=
       [ReadOk (line "# DDL"); ReadOk (line "CREATE DATABASE db0");
        ReadOk (line "# DML"); ReadOk (line "# CONTEXT-DATABASE: db0");
        ReadOk (line "cpu,host=a value=1 1")];
     file_rows := [] |}.

End Demo.

Module DemoWorlds.

(** A state machine in the Data state with the given context and buffers. *)
Definition dataWorld (db : string) (lines : list string)
    (points : list opengemini.Point) : World :=
  {| fsm :=
       {| state := ImportStateDML; database := db; retentionPolicy := "autogen";
          measurement := "cpu";
          tagMap := {["host" := {| Name := "host"; Pos := 1 |}]};
          fieldMap := {["value" := {| Name := "value"; Pos := 2 |}]};
          timeField := {| Name := "time"; Pos := 0 |};
          batchLPBuffer := lines; batchPointBuffer := points |};
     builderEntities := ∅; trace := [] |}.

Definition point (host value : string) (time : Z) : opengemini.Point :=
  {| opengemini.Measurement := "cpu"; opengemini.Timestamp := time;
     opengemini.Tags := {["host" := host]};
     opengemini.Fields := {["value" := opengemini.any_string value]} |}.

Definition refused : error := errorString "connection refused".

End DemoWorlds.

(** ** The classification of a response code, as the specification words it

    [r] is what a flush returned for the response code [code]: no error for
    0, the partial-failure message for 1, the failure message for 2, the
    unexpected-response message for any other code.  [lead] is the text in
    front of each message. *)
Definition classified (lead : string) (code : Z) (r : option error) : Prop :=
  (code = 0 -> r = None)
  /\ (code = 1 ->
      r = Some (errorString (lead ++ "write failed, code: 1, partial write failure")))
  /\ (code = 2 ->
      r = Some (errorString (lead ++ "write failed, code: 2, write failure")))
  /\ (code <> 0 -> code <> 1 -> code <> 2 ->
      r = Some (errorString (lead ++ "unexpected response code: " ++ fmt.d code))).

(** ** The text of a context directive

    [afterFirstColon s] is everything after the first colon of [s], the value
    of a directive as the specification words it; [beforeColon s] is [s] up
    to its first colon, or all of [s] when it has none. *)
Fixpoint afterFirstColon (s : string) : option string :=
  match s with
  | EmptyString => None
  | String c t => if Ascii.eqb c ":" then Some t else afterFirstColon t
  end.

Fixpoint beforeColon (s : string) : string :=
  match s with
  | EmptyString => EmptyString
  | String c t => if Ascii.eqb c ":" then EmptyString else String c (beforeColon t)
  end.

(** ** The configuration error of the Field Resolver, as the specification
    words it

    [e] is the error that names the configured column [name] of the
    configuration [c] as missing from the header. *)
Definition missingColumnError (c : ImportConfig) (name : string) (e : error) : Prop :=
  (name ∈ Fields c /\ e = errors.New ("field name not in csv header " ++ name))
  \/ (name ∈ Tags c /\ e = errors.New ("tag name not in csv header " ++ name))
  \/ (name = TimeField c /\ e = errors.New ("time field name not in csv header " ++ name)).

Definition configuredNames (c : ImportConfig) : list string :=
  (Tags c ++ Fields c ++ [TimeField c])%list.

(** No name is empty and no name has two roles. *)
Definition rolesDistinct (c : ImportConfig) : Prop :=
  ("" ∉ configuredNames c)
  /\ (forall n, n ∈ Tags c -> n ∉ Fields c)
  /\ (TimeField c ∉ Tags c)
  /\ (TimeField c ∉ Fields c).

Definition isSlog (ev : Event) : Prop :=
  match ev with
  | Slog _ _ _ => True
  | _ => False
  end.

(** [named m k]: the entry of [k] carries the name [k], that is, [k] has
    been given a position. *)
Definition named (m : gmap string FieldPos) (k : string) : Prop :=
  exists pos, m !! k = Some {| Name := k; Pos := pos |}.

(** ** The value of a decimal numeral

    [decimalValue d n] is the number read when the digits of [d] follow a
    numeral that reads [n]. *)
Fixpoint decimalValue (d : Decimal.uint) (n : Z) : Z :=
  match d with
  | Decimal.Nil => n
  | Decimal.D0 d => decimalValue d (n * 10)
  | Decimal.D1 d => decimalValue d (n * 10 + 1)
  | Decimal.D2 d => decimalValue d (n * 10 + 2)
  | Decimal.D3 d => decimalValue d (n * 10 + 3)
  | Decimal.D4 d => decimalValue d (n * 10 + 4)
  | Decimal.D5 d => decimalValue d (n * 10 + 5)
  | Decimal.D6 d => decimalValue d (n * 10 + 6)
  | Decimal.D7 d => decimalValue d (n * 10 + 7)
  | Decimal.D8 d => decimalValue d (n * 10 + 8)
  | Decimal.D9 d => decimalValue d (n * 10 + 9)
  end.

(** ** Kinds of events and of lines *)

(** The events that are no write: control commands and log records. *)
Definition isQueryOrSlog (ev : Event) : Prop :=
  match ev with
  | HttpQuery _ _ | Slog _ _ _ => True
  | _ => False
  end.

(** A line that the Data state takes as a data payload: it does not begin
    with [#] and is not blank. *)
Definition isPayloadLine (line : string) : bool :=
  negb (strings.HasPrefix line "#") && negb (String.eqb (strings.TrimSpace line) "").

(** A unit of a line-protocol file that does not begin with the data marker. *)
Definition noDataMarker (u : ReadResult string) : Prop :=
  match u with
  | ReadOk line => strings.HasPrefix line ImportTokenDML = false
  | ReadErr _ => True
  end.

(** ** Positions in a header

    [validEntry header k fp]: the entry [fp] kept for the name [k] is still
    the zero value, or it carries the name [k] and the position of a column
    of [header] with that name. *)
Definition validEntry (header : list string) (k : string) (fp : FieldPos) : Prop :=
  fp = zeroFieldPos \/ (Name fp = k /\ index header (Pos fp) = Some k).

(** The value of the column that the position map [m] gives the name [k] in
    the row [data]. *)
Definition columnOf (m : gmap string FieldPos) (data : list string) (k : string)
  : option string :=
  match m !! k with
  | Some fp => index data (Pos fp)
  | None => None
  end.

(** [resolved c header w]: every entry of the two position maps and the time
    position are valid for [header]. *)
Definition resolved (c : ImportConfig) (header : list string) (w : World) : Prop :=
  (forall k fp, tagMap (fsm w) !! k = Some fp -> validEntry header k fp)
  /\ (forall k fp, fieldMap (fsm w) !! k = Some fp -> validEntry header k fp)
  /\ validEntry header (TimeField c) (timeField (fsm w)).

(** The world in which the header's action scans the columns: the context
    taken from the configuration, every configured name at the zero value. *)
Definition contextFromConfig (c : ImportConfig) (w : World) : World :=
  on_fsm (with_fieldMap (zeroMap (Fields c)))
    (on_fsm (with_tagMap (zeroMap (Tags c)))
       (on_fsm (with_measurement (Measurement c))
          (on_fsm (with_retentionPolicy (RetentionPolicy c))
             (on_fsm (with_database (Database c)) w)))).

(** ** The part of the context that data rows leave alone *)

Definition sameResolution (f f' : ImportFileFSM) : Prop :=
  state f' = state f /\ database f' = database f /\ measurement f' = measurement f
  /\ tagMap f' = tagMap f /\ fieldMap f' = fieldMap f /\ timeField f' = timeField f
  /\ batchLPBuffer f' = batchLPBuffer f.

(** ** Connection set-up and the interactive shell

    What the set-up does to the outside world is a list of [SetupEvent]s;
    the operating system and the libraries under it are a [Platform]. *)

(** [grpc.WithTransportCredentials]: [insecure.NewCredentials()], or
    [credentials.NewTLS(tlsManager.CreateTls(insecureTls, insecureHostname))]
    for a certificate manager with the given pool and key pair. *)
Inductive TransportCredentials :=
| InsecureCredentials
| TLSCredentials (pool keyPair : option string) (insecureTls insecureHostname : bool).

Inductive CallOption :=
| MaxCallRecvMsgSize (n : Z)
| MaxCallSendMsgSize (n : Z).

Inductive DialOption :=
| WithKeepaliveParams (time timeout : Z) (permitWithoutStream : bool)
| WithConnectParams (baseDelay : Z) (multiplier jitter : string)
                    (maxDelay minConnectTimeout : Z)
| WithInitialWindowSize (n : Z)
| WithInitialConnWindowSize (n : Z)
| WithDefaultCallOptions (o : CallOption)
| WithTransportCredentials (c : TransportCredentials).

Inductive SetupEvent :=
| ReadFile (path : string)
| LoadX509KeyPair (certFile keyFile : string)
| GrpcNewClient (target : string) (options : list DialOption).

(** [proto.WriteServiceClient], by what its [Write] answers. *)
Definition WriteServiceClient : Type :=
  list Event -> option opengemini.WriteRequest -> option Z * option error.

Record Platform := {
  os_ReadFile : string -> error + string;
  AppendCertsFromPEM : string -> bool;
  tls_LoadX509KeyPair : string -> string -> error + string;
  grpc_NewClient : string -> list DialOption -> error + WriteServiceClient
}.

Definition TAB : string := String (ascii_of_N 9) EmptyString.

Module core.

(** [CommandLineConfig], with the fields that the functions of the package
    read or write. *)
Record CommandLineConfig := {
  Host : string;
  Port : Z;
  UnixSocket : string;
  Username : string;
  Password : string;
  Database : string;
  RetentionPolicy : string;
  Type_ : string;
  Precision : string;
  precision : string;
  Timeout : Z;
  EnableTls : bool;
  InsecureTls : bool;
  CACert : string;
  Cert : string;
  CertKey : string;
  InsecureHostname : bool
}.

(** [CertificateManager]: the pool made from the PEM text of the CA file, or
    nil; the loaded key pair, or the zero [tls.Certificate].  [CAContent] is
    never assigned. *)
Record CertificateManager := {
  CAPool : option string;
  Certificate : option string
}.

(** [NewCertificateManager(ca, certificate, certificateKey)]. *)
Definition NewCertificateManager (P : Platform) (ca certificate certificateKey : string)
  : (error + CertificateManager) * list SetupEvent :=
  let loadPair (pool : option string) (events : list SetupEvent) :=
    if negb (String.eqb certificate "") && negb (String.eqb certificateKey "") then
      match tls_LoadX509KeyPair P certificate certificateKey with
      | inl err => (inl err, (events ++ [LoadX509KeyPair certificate certificateKey])%list)
      | inr keyPair =>
          (inr {| CAPool := pool; Certificate := Some keyPair |},
           (events ++ [LoadX509KeyPair certificate certificateKey])%list)
      end
    else (inr {| CAPool := pool; Certificate := None |}, events) in
  if negb (String.eqb ca "") then
    match os_ReadFile P ca with
    | inl err => (inl err, [ReadFile ca])
    | inr content =>
        if AppendCertsFromPEM P content then loadPair (Some content) [ReadFile ca]
        else (inl (errors.New "failed to parse ca certificate"), [ReadFile ca])
    end
  else loadPair None [].

(** [int64] arithmetic wraps around: [time.Duration(ms) * time.Millisecond]. *)
Definition wrap64 (z : Z) : Z := (z + 2 ^ 63) mod 2 ^ 64 - 2 ^ 63.

(** [tls.Config] as [NewHttpClient] fills it; [customVerifier] says that
    [VerifyPeerCertificate] is set. *)
Record TLSClientConfig := {
  RootCAs : option string;
  Certificates : list (option string);
  InsecureSkipVerify : bool;
  customVerifier : bool
}.

(** The [http.Transport] that [NewHttpClient] builds. *)
Record Transport := {
  tlsClientConfig : option TLSClientConfig;
  DisableCompression : bool;
  dialUnixSocket : option string
}.

(** [HttpClientCreator]: the timeout of its [http.Client] in nanoseconds and
    the transport of that client, where nil stands for
    [http.DefaultTransport]. *)
Record HttpClientCreator := {
  client_Timeout : Z;
  client_Transport : option Transport
}.

Definition buildTransport (cfg : CommandLineConfig) (manager : option CertificateManager)
  : Transport :=
  {| tlsClientConfig :=
       match manager with
       | Some cm =>
           Some {| RootCAs := CAPool cm;
                   Certificates := [Certificate cm];
                   InsecureSkipVerify := InsecureTls cfg || InsecureHostname cfg;
                   customVerifier := InsecureHostname cfg |}
       | None => None
       end;
     DisableCompression := negb (String.eqb (UnixSocket cfg) "");
     dialUnixSocket :=
       if String.eqb (UnixSocket cfg) "" then None else Some (UnixSocket cfg) |}.

(** [NewHttpClient(cfg)].  The transport is built and then left aside: the
    client that is returned was made before it, with the timeout alone. *)
Definition NewHttpClient (P : Platform) (cfg : CommandLineConfig)
  : (error + HttpClientCreator) * list SetupEvent :=
  let client :=
    {| client_Timeout := wrap64 (Timeout cfg * 1000000);
       client_Transport := None |} in
  if EnableTls cfg then
    match NewCertificateManager P (CACert cfg) (Cert cfg) (CertKey cfg) with
    | (inl err, events) =>
        (inl (errors.New ("cannot load certificate: " ++ Error err)), events)
    | (inr certificateManager, events) =>
        let transport := buildTransport cfg (Some certificateManager) in
        (inr client, events)
    end
  else
    let transport := buildTransport cfg None in
    (inr client, []).

(** *** The shell *)

(** A parsed statement; [otherStatement] is any value of another type, with
    what [%s] prints for it. *)
Inductive Statement :=
| UseStatement (DB RP : string)
| PrecisionStatement (Precision : string)
| HelpStatement
| AuthStatement
| TimerStatement
| DebugStatement
| PromptStatement
| InsertStatement
| ChunkedStatement
| ChunkSizeStatement
| otherStatement (text : string).

(** What the shell does to the terminal and the process. *)
Inductive TermEvent :=
| Printed (text : string)
| Scanned
| PasswordRead
| ClockRead
| SttyReset
| OsExit (code : Z).

(** The terminal, the clock and the libraries under the shell; what is read
    is a function of what has happened so far. *)
Record Terminal := {
  Parse : string -> error + Statement;
  Scanf_s : list TermEvent -> option string;
  ReadPassword : list TermEvent -> string;
  time_Now : list TermEvent -> Z;
  Duration_String : Z -> string;
  Quote : string -> string;
  unicode_ToLower : string -> string;
  windows : bool
}.

(** [CommandLine], with [console] for what the terminal has seen. *)
Record CommandLine := {
  config : CommandLineConfig;
  executeAt : Z;
  timer : bool;
  debug : bool;
  suggest : bool;
  console : list TermEvent
}.

Definition with_config (g : CommandLineConfig -> CommandLineConfig) (cl : CommandLine)
  : CommandLine :=
  {| config := g (config cl); executeAt := executeAt cl; timer := timer cl;
     debug := debug cl; suggest := suggest cl; console := console cl |}.

Definition with_executeAt (v : Z) (cl : CommandLine) : CommandLine :=
  {| config := config cl; executeAt := v; timer := timer cl;
     debug := debug cl; suggest := suggest cl; console := console cl |}.

Definition with_timer (v : bool) (cl : CommandLine) : CommandLine :=
  {| config := config cl; executeAt := executeAt cl; timer := v;
     debug := debug cl; suggest := suggest cl; console := console cl |}.

Definition with_debug (v : bool) (cl : CommandLine) : CommandLine :=
  {| config := config cl; executeAt := executeAt cl; timer := timer cl;
     debug := v; suggest := suggest cl; console := console cl |}.

Definition with_suggest (v : bool) (cl : CommandLine) : CommandLine :=
  {| config := config cl; executeAt := executeAt cl; timer := timer cl;
     debug := debug cl; suggest := v; console := console cl |}.

Definition happen (e : TermEvent) (cl : CommandLine) : CommandLine :=
  {| config := config cl; executeAt := executeAt cl; timer := timer cl;
     debug := debug cl; suggest := suggest cl; console := (console cl ++ [e])%list |}.

Definition set_Username (v : string) (c : CommandLineConfig) : CommandLineConfig :=
  {| Host := Host c; Port := Port c; UnixSocket := UnixSocket c; Username := v;
     Password := Password c; Database := Database c;
     RetentionPolicy := RetentionPolicy c; Type_ := Type_ c; Precision := Precision c;
     precision := precision c; Timeout := Timeout c; EnableTls := EnableTls c;
     InsecureTls := InsecureTls c; CACert := CACert c; Cert := Cert c;
     CertKey := CertKey c; InsecureHostname := InsecureHostname c |}.

Definition set_Password (v : string) (c : CommandLineConfig) : CommandLineConfig :=
  {| Host := Host c; Port := Port c; UnixSocket := UnixSocket c; Username := Username c;
     Password := v; Database := Database c;
     RetentionPolicy := RetentionPolicy c; Type_ := Type_ c; Precision := Precision c;
     precision := precision c; Timeout := Timeout c; EnableTls := EnableTls c;
     InsecureTls := InsecureTls c; CACert := CACert c; Cert := Cert c;
     CertKey := CertKey c; InsecureHostname := InsecureHostname c |}.

Definition set_Database (v : string) (c : CommandLineConfig) : CommandLineConfig :=
  {| Host := Host c; Port := Port c; UnixSocket := UnixSocket c; Username := Username c;
     Password := Password c; Database := v;
     RetentionPolicy := RetentionPolicy c; Type_ := Type_ c; Precision := Precision c;
     precision := precision c; Timeout := Timeout c; EnableTls := EnableTls c;
     InsecureTls := InsecureTls c; CACert := CACert c; Cert := Cert c;
     CertKey := CertKey c; InsecureHostname := InsecureHostname c |}.

Definition set_RetentionPolicy (v : string) (c : CommandLineConfig) : CommandLineConfig :=
  {| Host := Host c; Port := Port c; UnixSocket := UnixSocket c; Username := Username c;
     Password := Password c; Database := Database c;
     RetentionPolicy := v; Type_ := Type_ c; Precision := Precision c;
     precision := precision c; Timeout := Timeout c; EnableTls := EnableTls c;
     InsecureTls := InsecureTls c; CACert := CACert c; Cert := Cert c;
     CertKey := CertKey c; InsecureHostname := InsecureHostname c |}.

Definition set_precision (v : string) (c : CommandLineConfig) : CommandLineConfig :=
  {| Host := Host c; Port := Port c; UnixSocket := UnixSocket c; Username := Username c;
     Password := Password c; Database := Database c;
     RetentionPolicy := RetentionPolicy c; Type_ := Type_ c; Precision := Precision c;
     precision := v; Timeout := Timeout c; EnableTls := EnableTls c;
     InsecureTls := InsecureTls c; CACert := CACert c; Cert := Cert c;
     CertKey := CertKey c; InsecureHostname := InsecureHostname c |}.

(** [fmt.Printf] and [fmt.Println], by the text that reaches the terminal. *)
Definition Printf (text : string) : CommandLine -> CommandLine := happen (Printed text).

(** [strings.ToLower(s)]: a string of ASCII bytes is lowered byte by byte,
    any other goes through [unicode.ToLower] rune by rune. *)
Definition isASCII (s : string) : bool :=
  forallb (fun c => (N_of_ascii c <? 128)%N) (list_ascii_of_string s).

Definition lowerByte (c : ascii) : ascii :=
  let n := N_of_ascii c in
  if ((65 <=? n) && (n <=? 90))%N then ascii_of_N (n + 32) else c.

Fixpoint mapBytes (f : ascii -> ascii) (s : string) : string :=
  match s with
  | EmptyString => EmptyString
  | String c t => String (f c) (mapBytes f t)
  end.

Definition ToLower (T : Terminal) (s : string) : string :=
  if isASCII s then mapBytes lowerByte s else unicode_ToLower T s.

(** [executeUse]: both branches on [stmt.RP] store [stmt.RP]. *)
Definition executeUse (DB RP : string) (cl : CommandLine) : option error * CommandLine :=
  let cl := with_config (set_Database DB) cl in
  let cl :=
    if String.eqb RP "" then with_config (set_RetentionPolicy "") cl
    else with_config (set_RetentionPolicy RP) cl in
  (None, Printf (RetentionPolicy (config cl) ++ " " ++ Database (config cl) ++ LF) cl).

Definition executePrecision (T : Terminal) (Precision : string) (cl : CommandLine)
  : option error * CommandLine :=
  let precision := ToLower T Precision in
  if String.eqb precision "" then (None, with_config (set_precision "ns") cl)
  else if String.eqb precision "h" || String.eqb precision "m"
          || String.eqb precision "s" || String.eqb precision "ms"
          || String.eqb precision "u" || String.eqb precision "ns"
          || String.eqb precision "rfc3339"
  then (None, with_config (set_precision precision) cl)
  else (Some (fmt.Errorf ("unknown precision " ++ Quote T precision
                          ++ ". precision must be rfc3339, h, m, s, ms, u or ns")), cl).

Definition usage : string :=
  strings.Join
    ["Usage:";
     "  exit/quit/ctrl+d        quit the openGemini shell";
     "  auth                    prompt for username and password";
     "  use <db>[.rp]           set current database and optional retention policy";
     "  precision <format>      specifies the format of the timestamp: rfc3339, h, m, s, ms, u or ns";
     "  show cluster            show cluster node status information";
     "  show users              show all existing users and their permission status";
     "  show databases          show a list of all databases on the cluster";
     "  show measurements       show measurement information on the database.retention_policy";
     "  show series             show series information";
     "  show tag keys           show tag key information";
     "  show field keys         show field key information";
     "  timer                   display execution time";
     "  debug                   display http request interaction content";
     "  prompt                  enable command line reminder and suggestion";
     "  ";
     "  A full list of openGemini commands can be found at:";
     "  https://docs.opengemini.org";
     TAB] LF.

Definition executeHelp (cl : CommandLine) : option error * CommandLine :=
  (None, Printf (usage ++ LF) cl).

(** [executeAuth]: [Scanf] stores the name it could read, if any; the error
    of [ReadPassword] is dropped and what it returned is stored. *)
Definition executeAuth (T : Terminal) (cl : CommandLine) : option error * CommandLine :=
  let cl := Printf "username: " cl in
  let scanned := Scanf_s T (console cl) in
  let cl := happen Scanned cl in
  let cl :=
    match scanned with
    | Some name => with_config (set_Username name) cl
    | None => cl
    end in
  let cl := Printf "password: " cl in
  let password := ReadPassword T (console cl) in
  let cl := happen PasswordRead cl in
  let cl := Printf LF cl in
  (None, with_config (set_Password password) cl).

Definition displayFlag (flag : bool) : string :=
  if flag then "enabled" else "disabled".

Definition executeTimer (cl : CommandLine) : option error * CommandLine :=
  let cl := with_timer (negb (timer cl)) cl in
  (None, Printf ("Timer is " ++ displayFlag (timer cl) ++ LF) cl).

Definition executeDebug (cl : CommandLine) : option error * CommandLine :=
  let cl := with_debug (negb (debug cl)) cl in
  (None, Printf ("Debug is " ++ displayFlag (debug cl) ++ LF) cl).

Definition executePrompt (cl : CommandLine) : option error * CommandLine :=
  let cl := with_suggest (negb (suggest cl)) cl in
  (None, Printf ("Prompt is " ++ displayFlag (suggest cl) ++ LF) cl).

Definition executeOnLocal (T : Terminal) (stmt : Statement) (cl : CommandLine)
  : option error * CommandLine :=
  match stmt with
  | UseStatement DB RP => executeUse DB RP cl
  | PrecisionStatement p => executePrecision T p cl
  | HelpStatement => executeHelp cl
  | AuthStatement => executeAuth T cl
  | TimerStatement => executeTimer cl
  | DebugStatement => executeDebug cl
  | PromptStatement => executePrompt cl
  | InsertStatement => (None, cl)
  | ChunkedStatement => (None, cl)
  | ChunkSizeStatement => (None, cl)
  | otherStatement text => (Some (fmt.Errorf ("unsupport stmt " ++ text)), cl)
  end.

Definition executeOnRemote (s : string) (cl : CommandLine) : option error * CommandLine :=
  (None, cl).

(** [elapse]: [time.Since(cl.executeAt)] reads the clock. *)
Definition elapse (T : Terminal) (cl : CommandLine) : CommandLine :=
  let now := time_Now T (console cl) in
  let cl := happen ClockRead cl in
  Printf ("Elapsed: " ++ Duration_String T (now - executeAt cl) ++ LF) cl.

(** An input either comes back to the prompt or ends the process. *)
Inductive Executed :=
| Returned (cl : CommandLine)
| Exited (console : list TermEvent).

(** [prompt.Destruction]: the terminal is reset, except on Windows, and the
    process exits with status 0. *)
Definition Destruction (T : Terminal) (cl : CommandLine) : Executed :=
  Exited (console cl ++ (if windows T then [] else [SttyReset]) ++ [OsExit 0])%list.

Definition executor (T : Terminal) (input : string) (cl : CommandLine) : Executed :=
  if String.eqb input "" then Returned cl
  else if String.eqb input "quit" || String.eqb input "exit" || String.eqb input "\q"
  then Destruction T cl
  else
    let ast := Parse T input in
    let now := time_Now T (console cl) in
    let cl := with_executeAt now (happen ClockRead cl) in
    let '(err, cl) :=
      match ast with
      | inr stmt => executeOnLocal T stmt cl
      | inl _ => executeOnRemote input cl
      end in
    let cl :=
      match err with
      | Some e => Printf ("error: " ++ Error e ++ LF) cl
      | None => cl
      end in
    Returned (elapse T cl).

(** The prompt hands the inputs to [executor] one after the other, until
    one of them ends the process. *)
Fixpoint session (T : Terminal) (inputs : list string) (cl : CommandLine) : Executed :=
  match inputs with
  | [] => Returned cl
  | input :: rest =>
      match executor T input cl with
      | Returned cl' => session T rest cl'
      | Exited out => Exited out
      end
  end.

End core.

(** ** Set-up of an import *)

(** [strconv.Itoa]. *)
Definition Itoa (n : Z) : string := fmt.d n.

(** The dial options that [NewColumnWriterClient] always sets; durations in
    nanoseconds. *)
Definition baseDialOptions : list DialOption :=
  [WithKeepaliveParams 10000000000 3000000000 true;
   WithConnectParams 1000000000 "1.6" "0.2" 30000000000 20000000000;
   WithInitialWindowSize (Z.shiftl 1 24);
   WithInitialConnWindowSize (Z.shiftl 1 24);
   WithDefaultCallOptions (MaxCallRecvMsgSize (64 * 1024 * 1024));
   WithDefaultCallOptions (MaxCallSendMsgSize (64 * 1024 * 1024))].

(** [NewColumnWriterClient(cfg)]; [conn] is the embedded
    [core.CommandLineConfig] of [cfg]. *)
Definition NewColumnWriterClient (P : Platform) (conn : core.CommandLineConfig)
    (config : ImportConfig) : (error + WriteServiceClient) * list SetupEvent :=
  let dial (cred : TransportCredentials) (events : list SetupEvent) :=
    let target := core.Host conn ++ ":" ++ Itoa (ColumnWritePort config) in
    let dialOptions := (baseDialOptions ++ [WithTransportCredentials cred])%list in
    match grpc_NewClient P target dialOptions with
    | inl err => (inl err, (events ++ [GrpcNewClient target dialOptions])%list)
    | inr client => (inr client, (events ++ [GrpcNewClient target dialOptions])%list)
    end in
  if core.EnableTls conn then
    match core.NewCertificateManager P (core.CACert conn) (core.Cert conn)
            (core.CertKey conn) with
    | (inl err, events) => (inl err, events)
    | (inr tlsManager, events) =>
        dial (TLSCredentials (core.CAPool tlsManager) (core.Certificate tlsManager)
                (core.InsecureTls conn) (core.InsecureHostname conn)) events
    end
  else dial InsecureCredentials [].

(** The client of the textual path, by what its [Write] and [Query] answer,
    and the library functions the importer calls. *)
Record ImportHttpClient := {
  hc_Write : list Event -> string -> string -> string -> string -> option error;
  hc_Query : list Event -> string -> option error
}.

Record Library := {
  lib_NewWriteRequestBuilder :
    string -> string -> option opengemini.WriteRequestBuilder * option error;
  lib_NewRecordBuilder : string -> option opengemini.RecordBuilder * option error;
  lib_Build :
    opengemini.WriteRequestBuilder -> string -> string ->
    list opengemini.RecordLine -> option opengemini.WriteRequest * option error;
  lib_Parse : string -> list opengemini.Point * option error
}.

Definition with_Format (v : string) (c : ImportConfig) : ImportConfig :=
  {| Username := Username c; Password := Password c; Database := Database c;
     RetentionPolicy := RetentionPolicy c; Measurement := Measurement c;
     Precision := Precision c; Path := Path c; Format := v;
     ColumnWrite := ColumnWrite c; ColumnWritePort := ColumnWritePort c;
     BatchSize := BatchSize c; Tags := Tags c; Fields := Fields c;
     TimeField := TimeField c |}.

Definition with_ColumnWritePort (v : Z) (c : ImportConfig) : ImportConfig :=
  {| Username := Username c; Password := Password c; Database := Database c;
     RetentionPolicy := RetentionPolicy c; Measurement := Measurement c;
     Precision := Precision c; Path := Path c; Format := Format c;
     ColumnWrite := ColumnWrite c; ColumnWritePort := v;
     BatchSize := BatchSize c; Tags := Tags c; Fields := Fields c;
     TimeField := TimeField c |}.

(** [ImportCommand.Run(config)].  [newHttpClient] is what
    [core.NewHttpClient(config.CommandLineConfig)] returns to the importer,
    [opened] what [os.Open] returns for the path.  The run starts on a new
    state machine; the registry and the events so far are kept. *)
Definition Run (P : Platform) (lib : Library) (newHttpClient : error + ImportHttpClient)
    (conn : core.CommandLineConfig) (config : ImportConfig) (opened : error + File)
    (w : World) : Outcome (option error * World) * list SetupEvent :=
  let config :=
    if String.eqb (Format config) "" then with_Format ImportFormatLineProtocol config
    else config in
  match newHttpClient with
  | inl err =>
      (Done (Some err,
             slog_Error "create http client failed" [("reason", LogErr (Some err))] w),
       [])
  | inr httpClient =>
      let config :=
        if ColumnWritePort config =? 0 then with_ColumnWritePort 8035 config
        else config in
      match NewColumnWriterClient P conn config with
      | (inl err, events) =>
          (Done (Some err,
                 slog_Error "create column writer client failed"
                   [("reason", LogErr (Some err))] w),
           events)
      | (inr writeClient, events) =>
          let command :=
            {| cfg := config;
               collab :=
                 {| httpClient_Write := hc_Write httpClient;
                    httpClient_Query := hc_Query httpClient;
                    writeClient_Write := writeClient;
                    NewWriteRequestBuilder := lib_NewWriteRequestBuilder lib;
                    NewRecordBuilder := lib_NewRecordBuilder lib;
                    builder_Build := lib_Build lib;
                    parser_Parse := lib_Parse lib |} |} in
          (process command opened
             {| fsm := newImportFileFSM; builderEntities := builderEntities w;
                trace := trace w |},
           events)
      end
  end.

(** [Prompt.Run] of package [prompt], for the shell of [core.CommandLine]:
    the banner, the inputs of the session one after the other, and the
    deferred [Destruction] when the input ends. *)
Definition PromptRun (T : core.Terminal) (Version : string) (inputs : list string)
    (cl : core.CommandLine) : core.Executed :=
  let cl := core.Printf ("openGemini CLI " ++ Version ++ " (rev-" ++ "revision" ++ ")" ++ LF) cl in
  let cl :=
    core.Printf ("Please use `quit`, `exit` or `Ctrl-D` to exit this program." ++ LF) cl in
  match core.session T inputs cl with
  | core.Returned cl' => core.Destruction T cl'
  | core.Exited out => core.Exited out
  end.

(** ** Notions used to state the properties of the set-up and the shell *)

(** The seven precisions of the help text. *)
Definition validPrecisions : list string := ["rfc3339"; "h"; "m"; "s"; "ms"; "u"; "ns"].

(** The inputs that end the shell. *)
Definition quitWords : list string := ["quit"; "exit"; "\q"].

(** The connection settings of a configuration: everything but the
    credentials, the database context and the precision of the shell. *)
Definition sameConnection (c c' : core.CommandLineConfig) : Prop :=
  core.Host c' = core.Host c /\ core.Port c' = core.Port c
  /\ core.UnixSocket c' = core.UnixSocket c /\ core.Type_ c' = core.Type_ c
  /\ core.Precision c' = core.Precision c /\ core.Timeout c' = core.Timeout c
  /\ core.EnableTls c' = core.EnableTls c /\ core.InsecureTls c' = core.InsecureTls c
  /\ core.CACert c' = core.CACert c /\ core.Cert c' = core.Cert c
  /\ core.CertKey c' = core.CertKey c
  /\ core.InsecureHostname c' = core.InsecureHostname c.

(** The configuration with the defaults of an import filled in. *)
Definition importDefaults (c : ImportConfig) : ImportConfig :=
  let c := if String.eqb (Format c) "" then with_Format "line_protocol" c else c in
  if ColumnWritePort c =? 0 then with_ColumnWritePort 8035 c else c.

Definition isDial (e : SetupEvent) : bool :=
  match e with GrpcNewClient _ _ => true | _ => false end.

(** The flags of the shell. *)
Definition sameFlags (cl cl' : core.CommandLine) : Prop :=
  core.timer cl' = core.timer cl /\ core.debug cl' = core.debug cl
  /\ core.suggest cl' = core.suggest cl.

(** ** A concrete setting for the set-up and the shell *)

Module DemoSetup.

(** A machine with a CA file [ca.pem] and a key pair [client.pem],
    [client.key]; every dial succeeds. *)
Definition platform : Platform :=
  {| os_ReadFile := fun path =>
       if String.eqb path "ca.pem" then inr "PEM"
       else inl (errorString ("open " ++ path ++ ": no such file or directory"));
     AppendCertsFromPEM := fun content => String.eqb content "PEM";
     tls_LoadX509KeyPair := fun certFile keyFile =>
       if String.eqb certFile "client.pem" && String.eqb keyFile "client.key"
       then inr "PAIR"
       else inl (errorString "tls: failed to find any PEM data in certificate input");
     grpc_NewClient := fun _ _ => inr (writeClient_Write (Demo.friendly 0)) |}.

Definition conn (tls : bool) (ca cert key : string) : core.CommandLineConfig :=
  {| core.Host := "localhost"; core.Port := 8086; core.UnixSocket := "/tmp/gemini.sock";
     core.Username := "admin"; core.Password := "secret"; core.Database := "db0";
     core.RetentionPolicy := "autogen"; core.Type_ := ""; core.Precision := "ns";
     core.precision := "ns"; core.Timeout := 5000; core.EnableTls := tls;
     core.InsecureTls := false; core.CACert := ca; core.Cert := cert;
     core.CertKey := key; core.InsecureHostname := true |}.

Definition library : Library :=
  {| lib_NewWriteRequestBuilder := NewWriteRequestBuilder (Demo.friendly 0);
     lib_NewRecordBuilder := NewRecordBuilder (Demo.friendly 0);
     lib_Build := builder_Build (Demo.friendly 0);
     lib_Parse := parser_Parse (Demo.friendly 0) |}.

Definition httpClient : ImportHttpClient :=
  {| hc_Write := httpClient_Write (Demo.friendly 0);
     hc_Query := httpClient_Query (Demo.friendly 0) |}.

End DemoSetup.

Module DemoShell.

Definition quoted (s : string) : string :=
  String (ascii_of_N 34) (s ++ String (ascii_of_N 34) EmptyString).

(** A terminal whose parser knows six inputs, whose user types [admin] and
    [secret], and whose clock counts the events so far. *)
Definition terminal : core.Terminal :=
  {| core.Parse := fun input =>
       if String.eqb input "timer" then inr core.TimerStatement
       else if String.eqb input "auth" then inr core.AuthStatement
       else if String.eqb input "use db1" then inr (core.UseStatement "db1" "")
       else if String.eqb input "precision MS" then inr (core.PrecisionStatement "MS")
       else if String.eqb input "precision fortnight"
       then inr (core.PrecisionStatement "fortnight")
       else if String.eqb input "insert cpu value=1" then inr core.InsertStatement
       else inl (errorString "syntax error");
     core.Scanf_s := fun _ => Some "admin";
     core.ReadPassword := fun _ => "secret";
     core.time_Now := fun events => Z.of_nat (length events);
     core.Duration_String := fun d => fmt.d d ++ "ns";
     core.Quote := quoted;
     core.unicode_ToLower := fun s => s;
     core.windows := false |}.

Definition start : core.CommandLine :=
  {| core.config := DemoSetup.conn false "" "" "";
     core.executeAt := 0; core.timer := false; core.debug := false;
     core.suggest := false; core.console := [] |}.

End DemoShell.

(** * Properties *)

(** ** The library functions on examples *)

Example TrimSpace_ascii : strings.TrimSpace (" db0 " ++ LF) = "db0".
Proof. reflexivity. Qed.

(** A no-break space (C2 A0) in front and a line separator (E2 80 A8) at the
    end are white space; a lone continuation byte (A0) is not. *)
Example TrimSpace_unicode :
  strings.TrimSpace
    (String "194" (String "160" ("x" ++ String "226" (String "128" (String "168" "")))))
  = "x"
  /\ strings.TrimSpace (String "160" "x") = String "160" "x".
Proof. split; reflexivity. Qed.

Example Split_colons :
  strings.Split "# CONTEXT-DATABASE: a:b" ":" = ["# CONTEXT-DATABASE"; " a"; "b"]
  /\ strings.Split "" ":" = [""].
Proof. split; reflexivity. Qed.

Example ParseInt_values :
  strconv.ParseInt "-42" = (-42, None)
  /\ strconv.ParseInt "+7" = (7, None)
  /\ strconv.ParseInt "" = (0, Some strconv.ErrSyntax)
  /\ strconv.ParseInt "12a" = (0, Some strconv.ErrSyntax)
  /\ strconv.ParseInt "9223372036854775807" = (9223372036854775807, None)
  /\ strconv.ParseInt "-9223372036854775808" = (-9223372036854775808, None)
  /\ strconv.ParseInt "-9223372036854775809"
     = (-9223372036854775808, Some strconv.ErrRange)
  /\ strconv.ParseInt "99999999999999999999x"
     = (9223372036854775807, Some strconv.ErrRange).
Proof. vm_compute. repeat split; reflexivity. Qed.

(** ** The scenarios of the specification *)

Example scenario1_run :
  option_map (fun r => trace (snd r))
    (match process (Demo.lp 10) (inr Demo.scenario1) initialWorld with
     | Done r => Some r | Panic _ => None end)
  = Some [HttpQuery "CREATE DATABASE db0" None;
          Slog LevelInfo "execute ddl success" [("command", LogStr "CREATE DATABASE db0")];
          HttpWrite "db0" "autogen" "cpu,host=a value=1 1" "ns" None;
          Slog LevelInfo "process finished" [("path", LogStr "data.txt")]].
Proof. vm_compute. reflexivity. Qed.

Example scenario2_run :
  match csvLoop (Demo.csv 10 0)
          [ReadOk ["time"; "host"; "value"]; ReadOk ["100"; "serverA"; "42"]]
          initialWorld with
  | Done w =>
      batchPointBuffer (fsm w)
      = [{| opengemini.Measurement := "cpu"; opengemini.Timestamp := 100;
            opengemini.Tags := {["host" := "serverA"]};
            opengemini.Fields := {["value" := opengemini.any_string "42"]} |}]
      /\ tagMap (fsm w) !! "host" = Some {| Name := "host"; Pos := 1 |}
      /\ fieldMap (fsm w) !! "value" = Some {| Name := "value"; Pos := 2 |}
      /\ timeField (fsm w) = {| Name := "time"; Pos := 0 |}
  | Panic _ => False
  end.
Proof. vm_compute. repeat split; reflexivity. Qed.

(** ** Auxiliary facts *)

Lemma defer_Done {A} (g : World -> World) (x : Outcome (A * World)) a w' :
  defer g x = Done (a, w') -> exists w0, x = Done (a, w0) /\ w' = g w0.
Proof.
  destruct x as [[a0 w0]|why]; simpl; intros H; [|discriminate].
  injection H as -> <-. eauto.
Qed.

Lemma not_hash_not_token (data token : string) :
  strings.HasPrefix data "#" = false ->
  strings.HasPrefix data (String "#" token) = false.
Proof.
  unfold strings.HasPrefix. destruct data as [|c data]; [reflexivity|].
  cbn [String.prefix]. destruct (ascii_dec "#" c); [|reflexivity].
  destruct data; discriminate.
Qed.

Lemma HasPrefix_append (token rest : string) :
  strings.HasPrefix (token ++ rest) token = true.
Proof.
  unfold strings.HasPrefix. induction token as [|c token IH].
  - destruct rest; reflexivity.
  - change (String.prefix (String c token) (String c (token ++ rest)) = true).
    cbn [String.prefix]. destruct (ascii_dec c c); [exact IH|congruence].
Qed.

Section Facts.

Variable command : ImportCommand.

Lemma builderFor_inr w b w1 :
  builderFor command w = inr (b, w1) -> fsm w1 = fsm w /\ trace w1 = trace w.
Proof.
  unfold builderFor.
  destruct (builderEntities w !! _) as [b0|].
  - intros [= <- <-]. auto.
  - destruct (NewWriteRequestBuilder _ _ _) as [b0 [e|]]; [discriminate|].
    intros [= <- <-]. auto.
Qed.

(** What a threshold flush on the structured path can return: an error
    before the call, or the call's event followed by the transport error
    or by the classification of the response code. *)
Lemma sendRecords_Done b points w r w' :
  sendRecords command b points w = Done (r, w') ->
  (w' = w /\ exists e, r = Some e)
  \/ exists request response err,
       w' = emit (GrpcWrite request response err) w
       /\ ((exists e, err = Some e /\ r = Some e)
           \/ (err = None /\ exists code, response = Some code
                              /\ r = responseError code)).
Proof.
  unfold sendRecords.
  destruct (recordLinesOf _ _ _ _) as [[[e|] recordLines]|]; [| |discriminate].
  { intros [= <- <-]. left. eauto. }
  destruct b as [b|]; [|discriminate].
  destruct (builder_Build _ _ _ _ _) as [request [e|]].
  { intros [= <- <-]. left. eauto. }
  destruct (writeClient_Write _ _ _) as [response [e|]].
  { intros [= <- <-]. right. exists request, response, (Some e). eauto. }
  destruct response as [code|]; [|discriminate].
  intros [= <- <-]. right. exists request, (Some code), None.
  split; [reflexivity|]. right. eauto.
Qed.

Lemma clearPoints_Done err w r w' :
  clearPoints command err w = Done (r, w') -> fsm w' = fsm w.
Proof.
  unfold clearPoints.
  assert (Hrest : forall b w0 r0 w0',
    match clearRecordLines command err (batchPointBuffer (fsm w0)) ∅ [] with
    | Panic why => Panic why
    | Done (inl e) => Done (e, w0)
    | Done (inr recordLines) =>
        match b with
        | None => Panic "nil WriteRequestBuilder"
        | Some b =>
            let '(request, buildErr) :=
              builder_Build (collab command) b (Username (cfg command))
                (Password (cfg command)) recordLines in
            match err with
            | Some _ => Done (errors.Join [err; buildErr], w0)
            | None =>
                let '(response, writeErr) :=
                  writeClient_Write (collab command) (trace w0) request in
                let w := emit (GrpcWrite request response writeErr) w0 in
                match err with
                | Some _ => Done (errors.Join [err; writeErr], w)
                | None =>
                    match response with
                    | None => Panic "nil response"
                    | Some code => Done (clearResponseError err code, w)
                    end
                end
            end
        end
    end = Done (r0, w0') -> fsm w0' = fsm w0).
  { intros b w0 r0 w0'.
    destruct (clearRecordLines _ _ _ _ _) as [[e|recordLines]|]; [| |discriminate].
    { intros [= <- <-]. reflexivity. }
    destruct b as [b|]; [|discriminate].
    destruct (builder_Build _ _ _ _ _) as [request buildErr].
    destruct err as [e|].
    { intros [= <- <-]. reflexivity. }
    destruct (writeClient_Write _ _ _) as [[code|] writeErr]; [|discriminate].
    intros [= <- <-]. reflexivity. }
  destruct (builderEntities w !! _) as [b|].
  - apply Hrest.
  - destruct (NewWriteRequestBuilder _ _ _) as [b buildRequestErr].
    destruct err as [e|].
    + intros [= <- <-]. reflexivity.
    + intros H. apply Hrest in H. exact H.
Qed.

Lemma clearBuffer_drains w r w' :
  clearBuffer command w = Done (r, w') ->
  batchLPBuffer (fsm w') = [] /\ batchPointBuffer (fsm w') = [].
Proof.
  unfold clearBuffer.
  destruct (len (batchLPBuffer (fsm w)) =? 0) eqn:HLP;
    destruct (len (batchPointBuffer (fsm _)) =? 0) eqn:HP; simpl in *.
  - intros [= <- <-]. unfold len in *.
    destruct (batchLPBuffer (fsm w)); [|discriminate].
    destruct (batchPointBuffer (fsm w)); [|discriminate]. auto.
  - intros H. apply defer_Done in H as (w0 & H & ->).
    apply defer_Done in H as (w1 & H & ->).
    apply clearPoints_Done in H. simpl. rewrite H.
    unfold len in HLP. destruct (batchLPBuffer (fsm w)); [auto|discriminate].
  - intros [= <- <-]. simpl. unfold len in HP.
    destruct (batchPointBuffer (fsm w)); [auto|discriminate].
  - intros H. apply defer_Done in H as (w0 & H & ->).
    apply defer_Done in H as (w1 & H & ->). auto.
Qed.

End Facts.

(** ** The claims *)

(** C8.  Whatever the state before, a line-protocol unit that begins with the
    schema marker [# DDL] sets the state to Schema, and one that begins with
    the data marker [# DML] sets the state to Data and the retention policy
    to [autogen]; nothing else of the world changes, and the action handed
    to the driver does nothing and writes nothing. *)
Theorem C8_section_markers (command : ImportCommand) (w : World) (rest : string) :
  processLineProtocol command (ImportTokenDDL ++ rest) w
  = Done (FSMCallEmpty, None,
          {| fsm :=
               {| state := ImportStateDDL; database := database (fsm w);
                  retentionPolicy := retentionPolicy (fsm w);
                  measurement := measurement (fsm w); tagMap := tagMap (fsm w);
                  fieldMap := fieldMap (fsm w); timeField := timeField (fsm w);
                  batchLPBuffer := batchLPBuffer (fsm w);
                  batchPointBuffer := batchPointBuffer (fsm w) |};
             builderEntities := builderEntities w; trace := trace w |})
  /\ processLineProtocol command (ImportTokenDML ++ rest) w
     = Done (FSMCallEmpty, None,
             {| fsm :=
                  {| state := ImportStateDML; database := database (fsm w);
                     retentionPolicy := "autogen";
                     measurement := measurement (fsm w); tagMap := tagMap (fsm w);
                     fieldMap := fieldMap (fsm w); timeField := timeField (fsm w);
                     batchLPBuffer := batchLPBuffer (fsm w);
                     batchPointBuffer := batchPointBuffer (fsm w) |};
                builderEntities := builderEntities w; trace := trace w |})
  /\ forall w', FSMCallEmpty w' = Done (None, w').
Proof.
  split; [|split].
  - unfold processLineProtocol. rewrite HasPrefix_append. reflexivity.
  - unfold processLineProtocol.
    assert (strings.HasPrefix (ImportTokenDML ++ rest) ImportTokenDDL = false) as ->
      by reflexivity.
    rewrite HasPrefix_append. reflexivity.
  - intros w'. reflexivity.
Qed.

(** C9.  A forced flush with both buffers empty calls no collaborator, leaves
    the world as it is and returns no error; and after any forced flush that
    returns, both buffers are empty, so that a second one again does nothing
    and returns no error. *)
Theorem C9_flush_on_empty (command : ImportCommand) (w : World) :
  (batchLPBuffer (fsm w) = [] -> batchPointBuffer (fsm w) = [] ->
   clearBuffer command w = Done (None, w))
  /\ (forall r w', clearBuffer command w = Done (r, w') ->
      batchLPBuffer (fsm w') = [] /\ batchPointBuffer (fsm w') = []
      /\ clearBuffer command w' = Done (None, w')).
Proof.
  assert (Hempty : forall w0, batchLPBuffer (fsm w0) = [] ->
            batchPointBuffer (fsm w0) = [] -> clearBuffer command w0 = Done (None, w0)).
  { intros w0 HLP HP. unfold clearBuffer. rewrite HLP. simpl. rewrite HP. reflexivity. }
  split; [apply Hempty|].
  intros r w' H. apply clearBuffer_drains in H as [HLP HP]. auto.
Qed.

Lemma C9_flush_on_empty_witness :
  clearBuffer (Demo.lp 10) initialWorld = Done (None, initialWorld)
  /\ let w' := emit (HttpWrite "db0" "autogen" "cpu value=1" "ns" None)
                 (DemoWorlds.dataWorld "db0" [] []) in
     batchLPBuffer (fsm w') = [] /\ batchPointBuffer (fsm w') = []
     /\ clearBuffer (Demo.lp 10) w' = Done (None, w').
Proof.
  split.
  - apply (C9_flush_on_empty (Demo.lp 10) initialWorld); reflexivity.
  - apply (proj2 (C9_flush_on_empty (Demo.lp 10)
                    (DemoWorlds.dataWorld "db0" ["cpu value=1"] [])) None).
    reflexivity.
Defined.

(** C7.  A data unit whose action runs while the database of the context is
    empty: the action returns an error and leaves the world as it is (the
    unit is neither buffered nor written), and the driver logs the error and
    goes on with the next unit.  For a line-protocol line and for a CSV row. *)
Theorem C7_database_required (command : ImportCommand) (w : World) :
  state (fsm w) = ImportStateDML ->
  database (fsm w) = "" ->
  (forall line rest,
     strings.HasPrefix line "#" = false -> strings.TrimSpace line <> "" ->
     exists e,
       processLineProtocol command line w
       = Done (writeLineProtocol command (strings.TrimSpace line), None, w)
       /\ writeLineProtocol command (strings.TrimSpace line) w = Done (Some e, w)
       /\ lineProtocolLoop command (ReadOk line :: rest) w
          = lineProtocolLoop command rest
              (slog_Error "call line protocol fsm function failed"
                 [("reason", LogErr (Some e))] w))
  /\ (forall row rest,
        row <> [] ->
        exists e,
          processCSV command row w = Done (writeCSV command row, None, w)
          /\ writeCSV command row w = Done (Some e, w)
          /\ csvLoop command (ReadOk row :: rest) w
             = csvLoop command rest
                 (slog_Error "call csv line fsm function failed"
                    [("reason", LogErr (Some e))] w)).
Proof.
  intros Hstate Hdb. split.
  - intros line rest Hhash Hblank.
    assert (Hp : processLineProtocol command line w
                 = Done (writeLineProtocol command (strings.TrimSpace line), None, w)).
    { unfold processLineProtocol, ImportTokenDDL, ImportTokenDML,
        ImportTokenDatabase, ImportTokenRetentionPolicy.
      rewrite !(not_hash_not_token line _ Hhash), Hstate.
      apply String.eqb_neq in Hblank. rewrite Hblank. reflexivity. }
    assert (Hc : writeLineProtocol command (strings.TrimSpace line) w
                 = Done (Some (errors.New
                      "database is required, make sure `# CONTEXT-DATABASE:` token is exist"),
                         w)).
    { unfold writeLineProtocol. rewrite Hdb. reflexivity. }
    eexists. split; [exact Hp|]. split; [exact Hc|].
    cbn [lineProtocolLoop]. unfold lineProtocolStep. rewrite Hp, Hc. reflexivity.
  - intros row rest Hrow.
    assert (Hp : processCSV command row w = Done (writeCSV command row, None, w)).
    { unfold processCSV. destruct row; [congruence|]. rewrite Hstate. reflexivity. }
    assert (Hc : writeCSV command row w
                 = Done (Some (errors.New "database is required"), w)).
    { unfold writeCSV. rewrite Hdb. reflexivity. }
    eexists. split; [exact Hp|]. split; [exact Hc|].
    cbn [csvLoop]. unfold csvStep. rewrite Hp, Hc. reflexivity.
Qed.

Lemma C7_database_required_witness :
  (exists e,
     writeLineProtocol (Demo.lp 10) (strings.TrimSpace (Demo.line "cpu,host=a value=1 1"))
       (DemoWorlds.dataWorld "" [] [])
     = Done (Some e, DemoWorlds.dataWorld "" [] []))
  /\ exists e,
       writeCSV (Demo.csv 10 0) ["100"; "serverA"; "42"] (DemoWorlds.dataWorld "" [] [])
       = Done (Some e, DemoWorlds.dataWorld "" [] []).
Proof.
  pose proof (C7_database_required (Demo.lp 10) (DemoWorlds.dataWorld "" [] [])
                eq_refl eq_refl) as [HLP _].
  pose proof (C7_database_required (Demo.csv 10 0) (DemoWorlds.dataWorld "" [] [])
                eq_refl eq_refl) as [_ HCSV].
  split.
  - destruct (HLP (Demo.line "cpu,host=a value=1 1") [] eq_refl) as (e & _ & H & _).
    + vm_compute. discriminate.
    + exists e. exact H.
  - destruct (HCSV ["100"; "serverA"; "42"] []) as (e & _ & H & _).
    + discriminate.
    + exists e. exact H.
Defined.

(** Whatever the textual write client answers, a forced flush of text lines
    alone returns no error. *)
Lemma clearBuffer_text_only (command : ImportCommand) (w : World) :
  batchPointBuffer (fsm w) = [] ->
  exists w', clearBuffer command w = Done (None, w').
Proof.
  intros HP. unfold clearBuffer.
  destruct (len (batchLPBuffer (fsm w)) =? 0); simpl; rewrite HP; simpl; eauto.
Qed.

(** C2.  The final flush of one buffered text line, with a textual write
    client that refuses the write: the call is made and fails, and the flush
    returns no error at all, where the join of the sub-failures is the
    refusal. *)
Theorem C2_final_flush_loses_write_error :
  clearBuffer
    {| cfg := Demo.config ImportFormatLineProtocol false 10;
       collab := Demo.failingHttp DemoWorlds.refused |}
    (DemoWorlds.dataWorld "db0" ["cpu value=1"] [])
  = Done (None,
          emit (HttpWrite "db0" "autogen" "cpu value=1" "ns" (Some DemoWorlds.refused))
            (DemoWorlds.dataWorld "db0" [] []))
  /\ errors.Join [None; Some DemoWorlds.refused]
     = Some (joinError [DemoWorlds.refused]).
Proof. split; reflexivity. Qed.

Lemma ParseInt_error (s : string) (v : Z) (e : strconv.NumError) :
  strconv.ParseInt s = (v, Some e) ->
  match e with
  | strconv.ErrSyntax => v = 0
  | strconv.ErrRange => v = strconv.maxInt64 \/ v = strconv.minInt64
  end.
Proof.
  unfold strconv.ParseInt. destruct s as [|c t]; [intros [= <- <-]; reflexivity|].
  destruct (strconv.ParseUint _) as [un [[]|]].
  - intros [= <- <-]. reflexivity.
  - destruct (negb _ && _); [intros [= <- <-]; left; reflexivity|].
    destruct (_ && _); [intros [= <- <-]; right; reflexivity|discriminate].
  - destruct (negb _ && _); [intros [= <- <-]; left; reflexivity|].
    destruct (_ && _); [intros [= <- <-]; right; reflexivity|discriminate].
Qed.




Lemma responseError_classified (code : Z) : classified "" code (responseError code).
Proof.
  unfold classified, responseError. repeat split.
  - intros ->. reflexivity.
  - intros ->. reflexivity.
  - intros ->. reflexivity.
  - intros H0 H1 H2. apply Z.eqb_neq in H0, H1, H2. rewrite H0, H1, H2. reflexivity.
Qed.

Lemma clearResponseError_classified (code : Z) :
  classified ("%!w(<nil>)" ++ LF) code (clearResponseError None code).
Proof.
  unfold classified, clearResponseError. repeat split.
  - intros ->. reflexivity.
  - intros ->. reflexivity.
  - intros ->. reflexivity.
  - intros H0 H1 H2. apply Z.eqb_neq in H0, H1, H2. rewrite H0, H1, H2. reflexivity.
Qed.

Lemma trace_no_growth (l pre : list Event) (ev : Event) : l <> ((l ++ pre) ++ [ev])%list.
Proof.
  intros H. apply (f_equal length) in H. rewrite !length_app in H. simpl in H. lia.
Qed.

Section FlushFacts.

Variable command : ImportCommand.

Lemma clearRecordLines_None points recordBuilder recordLines e :
  clearRecordLines command None points recordBuilder recordLines <> Done (inl e).
Proof.
  revert recordBuilder recordLines.
  induction points as [|point rest IH]; intros recordBuilder recordLines; simpl.
  - discriminate.
  - destruct (recordBuilder !! opengemini.Measurement point) as [rb|]; [apply IH|].
    destruct (NewRecordBuilder _ _) as [[rb|] recordBuilderErr]; [apply IH|discriminate].
Qed.

(** With [err] nil, the second block of the forced flush either panics or
    makes the structured write call and classifies the response code. *)
Lemma clearPoints_None_Done w r w' :
  clearPoints command None w = Done (r, w') ->
  exists request code writeErr,
    trace w' = (trace w ++ [GrpcWrite request (Some code) writeErr])%list
    /\ r = clearResponseError None code.
Proof.
  unfold clearPoints.
  assert (Hrest : forall b w0,
    match clearRecordLines command None (batchPointBuffer (fsm w0)) ∅ [] with
    | Panic why => Panic why
    | Done (inl e) => Done (e, w0)
    | Done (inr recordLines) =>
        match b with
        | None => Panic "nil WriteRequestBuilder"
        | Some b =>
            let '(request, buildErr) :=
              builder_Build (collab command) b (Username (cfg command))
                (Password (cfg command)) recordLines in
            let '(response, writeErr) :=
              writeClient_Write (collab command) (trace w0) request in
            let w := emit (GrpcWrite request response writeErr) w0 in
            match response with
            | None => Panic "nil response"
            | Some code => Done (clearResponseError None code, w)
            end
        end
    end = Done (r, w') ->
    exists request code writeErr,
      trace w' = (trace w0 ++ [GrpcWrite request (Some code) writeErr])%list
      /\ r = clearResponseError None code).
  { intros b w0.
    destruct (clearRecordLines _ _ _ _ _) as [[e|recordLines]|] eqn:Hlines;
      [|destruct b as [b|]; [|discriminate]|discriminate].
    { exfalso. exact (clearRecordLines_None _ _ _ _ Hlines). }
    destruct (builder_Build _ _ _ _ _) as [request buildErr].
    destruct (writeClient_Write _ _ _) as [[code|] writeErr]; [|discriminate].
    intros [= <- <-]. exists request, code, writeErr. split; reflexivity. }
  destruct (builderEntities w !! _) as [b|].
  - intros H. apply (Hrest b w). exact H.
  - destruct (NewWriteRequestBuilder _ _ _) as [b buildRequestErr].
    intros H. apply (Hrest b) in H. exact H.
Qed.

End FlushFacts.



(** ** Facts about [strings.Split] and [strings.TrimSpace] *)

Lemma Split_head (s : string) :
  exists r, strings.Split s ":" = beforeColon s :: r.
Proof.
  induction s as [|c t [r IH]]; cbn [strings.Split beforeColon].
  - eauto.
  - destruct (Ascii.eqb c ":"); [eauto|]. rewrite IH. eauto.
Qed.

(** [strings.Split(data, ":")[1]] is the text between the first colon and the
    next one. *)
Lemma afterColon_spec (s : string) :
  afterColon s = option_map beforeColon (afterFirstColon s).
Proof.
  unfold afterColon. induction s as [|c t IH]; cbn [strings.Split afterFirstColon].
  - reflexivity.
  - destruct (Ascii.eqb c ":").
    + destruct (Split_head t) as [r ->]. reflexivity.
    + rewrite <- IH. destruct (Split_head t) as [r ->]. reflexivity.
Qed.

Lemma asciiSpace_byte (c : ascii) :
  strings.asciiSpace c = true -> N_of_ascii c <> 35%N.
Proof.
  unfold strings.asciiSpace.
  rewrite orb_true_iff, andb_true_iff, !N.leb_le, N.eqb_eq. lia.
Qed.

Lemma isSpace2_bytes (b1 b2 : ascii) :
  strings.isSpace2 b1 b2 = true -> N_of_ascii b1 <> 35%N /\ N_of_ascii b2 <> 35%N.
Proof.
  unfold strings.isSpace2.
  rewrite andb_true_iff, orb_true_iff, !N.eqb_eq. lia.
Qed.

Lemma isSpace3_bytes (b1 b2 b3 : ascii) :
  strings.isSpace3 b1 b2 b3 = true ->
  N_of_ascii b1 <> 35%N /\ N_of_ascii b2 <> 35%N /\ N_of_ascii b3 <> 35%N.
Proof.
  unfold strings.isSpace3.
  rewrite !orb_true_iff, !andb_true_iff, !orb_true_iff, !andb_true_iff,
    !N.eqb_eq, !N.leb_le. lia.
Qed.

(** Text that is trimmed away entirely holds no [#]. *)
Lemma trimFront_nil (rev_order : bool) (l : list ascii) :
  strings.trimFront rev_order l = [] -> Forall (fun c => N_of_ascii c <> 35%N) l.
Proof.
  remember (length l) as n eqn:Hn. revert l Hn.
  induction n as [n IH] using lt_wf_ind. intros l Hn H.
  destruct l as [|b1 t1]; [constructor|].
  cbn [strings.trimFront] in H. simpl in Hn.
  destruct (strings.asciiSpace b1) eqn:E1.
  { constructor; [exact (asciiSpace_byte _ E1)|].
    apply (IH (length t1)); [lia|reflexivity|exact H]. }
  destruct t1 as [|b2 t2]; [discriminate|]. simpl in Hn.
  destruct (if rev_order then strings.isSpace2 b2 b1 else strings.isSpace2 b1 b2) eqn:E2.
  { assert (N_of_ascii b1 <> 35%N /\ N_of_ascii b2 <> 35%N) as [H1 H2].
    { destruct rev_order; apply isSpace2_bytes in E2; tauto. }
    repeat constructor; [exact H1|exact H2|].
    apply (IH (length t2)); [lia|reflexivity|exact H]. }
  destruct t2 as [|b3 t3]; [discriminate|]. simpl in Hn.
  destruct (if rev_order then strings.isSpace3 b3 b2 b1 else strings.isSpace3 b1 b2 b3)
    eqn:E3; [|discriminate].
  assert (N_of_ascii b1 <> 35%N /\ N_of_ascii b2 <> 35%N /\ N_of_ascii b3 <> 35%N)
    as (H1 & H2 & H3).
  { destruct rev_order; apply isSpace3_bytes in E3; tauto. }
  repeat constructor; [exact H1|exact H2|exact H3|].
  apply (IH (length t3)); [lia|reflexivity|exact H].
Qed.

Lemma trimFront_hash (l : list ascii) :
  strings.trimFront false ("#"%char :: l) = "#"%char :: l.
Proof. destruct l as [|b2 [|b3 t3]]; reflexivity. Qed.

(** A blank unit does not begin with [#]. *)
Lemma TrimSpace_blank (data : string) :
  strings.TrimSpace data = "" -> strings.HasPrefix data "#" = false.
Proof.
  intros H. destruct data as [|c t]; [reflexivity|].
  unfold strings.HasPrefix. cbn [String.prefix].
  destruct (ascii_dec "#" c) as [<-|]; [exfalso|reflexivity].
  unfold strings.TrimSpace, strings.TrimRightSpace, strings.TrimLeftSpace in H.
  rewrite list_ascii_of_string_of_list_ascii in H.
  cbn [list_ascii_of_string] in H. rewrite trimFront_hash in H.
  apply (f_equal list_ascii_of_string) in H.
  rewrite list_ascii_of_string_of_list_ascii in H. cbn [list_ascii_of_string] in H.
  apply (f_equal (@rev ascii)) in H. rewrite rev_involutive in H. cbn [rev] in H.
  apply trimFront_nil in H. rewrite List.Forall_forall in H.
  apply (H "#"%char); [|reflexivity].
  apply in_or_app. right. left. reflexivity.
Qed.

(** C6, as amended.  In the Data state: a unit that begins with
    [# CONTEXT-DATABASE:] or [# CONTEXT-RETENTION-POLICY:] sets the database,
    or the retention policy, to the text between the first colon of the unit
    and the next colon (or the end of the unit), trimmed of white space, and
    changes nothing else; any other unit that begins with [#] and with no
    section marker, and any blank unit, changes nothing; every remaining unit
    is handed to the data action, trimmed. *)
Theorem C6_data_state_units (command : ImportCommand) (w : World) :
  state (fsm w) = ImportStateDML ->
  (forall rest,
     processLineProtocol command (ImportTokenDatabase ++ rest) w
     = Done (FSMCallEmpty, None,
             {| fsm :=
                  {| state := state (fsm w);
                     database := strings.TrimSpace (beforeColon rest);
                     retentionPolicy := retentionPolicy (fsm w);
                     measurement := measurement (fsm w); tagMap := tagMap (fsm w);
                     fieldMap := fieldMap (fsm w); timeField := timeField (fsm w);
                     batchLPBuffer := batchLPBuffer (fsm w);
                     batchPointBuffer := batchPointBuffer (fsm w) |};
                builderEntities := builderEntities w; trace := trace w |}))
  /\ (forall rest,
        processLineProtocol command (ImportTokenRetentionPolicy ++ rest) w
        = Done (FSMCallEmpty, None,
                {| fsm :=
                     {| state := state (fsm w); database := database (fsm w);
                        retentionPolicy := strings.TrimSpace (beforeColon rest);
                        measurement := measurement (fsm w); tagMap := tagMap (fsm w);
                        fieldMap := fieldMap (fsm w); timeField := timeField (fsm w);
                        batchLPBuffer := batchLPBuffer (fsm w);
                        batchPointBuffer := batchPointBuffer (fsm w) |};
                   builderEntities := builderEntities w; trace := trace w |}))
  /\ (forall data,
        strings.HasPrefix data "#" = true ->
        strings.HasPrefix data ImportTokenDDL = false ->
        strings.HasPrefix data ImportTokenDML = false ->
        strings.HasPrefix data ImportTokenDatabase = false ->
        strings.HasPrefix data ImportTokenRetentionPolicy = false ->
        processLineProtocol command data w = Done (FSMCallEmpty, None, w))
  /\ (forall data,
        strings.TrimSpace data = "" ->
        processLineProtocol command data w = Done (FSMCallEmpty, None, w))
  /\ (forall data,
        strings.HasPrefix data "#" = false ->
        strings.TrimSpace data <> "" ->
        processLineProtocol command data w
        = Done (writeLineProtocol command (strings.TrimSpace data), None, w)).
Proof.
  intros Hstate.
  assert (Hplain : forall data, strings.HasPrefix data "#" = false ->
            processLineProtocol command data w
            = if String.eqb (strings.TrimSpace data) "" then Done (FSMCallEmpty, None, w)
              else Done (writeLineProtocol command (strings.TrimSpace data), None, w)).
  { intros data Hhash.
    unfold processLineProtocol, ImportTokenDDL, ImportTokenDML,
      ImportTokenDatabase, ImportTokenRetentionPolicy.
    rewrite !(not_hash_not_token data _ Hhash), Hstate. reflexivity. }
  split; [|split; [|split; [|split]]].
  - intros rest. unfold processLineProtocol.
    assert (strings.HasPrefix (ImportTokenDatabase ++ rest) ImportTokenDDL = false) as ->
      by reflexivity.
    assert (strings.HasPrefix (ImportTokenDatabase ++ rest) ImportTokenDML = false) as ->
      by reflexivity.
    rewrite Hstate at 1. rewrite HasPrefix_append, afterColon_spec.
    assert (afterFirstColon (ImportTokenDatabase ++ rest) = Some rest) as ->
      by reflexivity.
    reflexivity.
  - intros rest. unfold processLineProtocol.
    assert (strings.HasPrefix (ImportTokenRetentionPolicy ++ rest) ImportTokenDDL = false)
      as -> by reflexivity.
    assert (strings.HasPrefix (ImportTokenRetentionPolicy ++ rest) ImportTokenDML = false)
      as -> by reflexivity.
    assert (strings.HasPrefix (ImportTokenRetentionPolicy ++ rest) ImportTokenDatabase
            = false) as -> by reflexivity.
    rewrite Hstate at 1. rewrite HasPrefix_append, afterColon_spec.
    assert (afterFirstColon (ImportTokenRetentionPolicy ++ rest) = Some rest) as ->
      by reflexivity.
    reflexivity.
  - intros data Hhash HDDL HDML Hdb Hrp. unfold processLineProtocol.
    rewrite HDDL, HDML, Hstate, Hdb, Hrp, Hhash. reflexivity.
  - intros data Hblank. rewrite (Hplain data (TrimSpace_blank data Hblank)), Hblank.
    reflexivity.
  - intros data Hhash Hblank. rewrite (Hplain data Hhash).
    apply String.eqb_neq in Hblank. rewrite Hblank. reflexivity.
Qed.

Lemma C6_data_state_units_witness :
  (exists w',
     processLineProtocol (Demo.lp 10) (Demo.line "# CONTEXT-DATABASE: db0")
       (DemoWorlds.dataWorld "" [] [])
     = Done (FSMCallEmpty, None, w') /\ database (fsm w') = "db0")
  /\ processLineProtocol (Demo.lp 10) (Demo.line "# a comment")
       (DemoWorlds.dataWorld "" [] [])
     = Done (FSMCallEmpty, None, DemoWorlds.dataWorld "" [] [])
  /\ processLineProtocol (Demo.lp 10) LF (DemoWorlds.dataWorld "" [] [])
     = Done (FSMCallEmpty, None, DemoWorlds.dataWorld "" [] [])
  /\ processLineProtocol (Demo.lp 10) (Demo.line "cpu,host=a value=1 1")
       (DemoWorlds.dataWorld "" [] [])
     = Done (writeLineProtocol (Demo.lp 10) "cpu,host=a value=1 1", None,
             DemoWorlds.dataWorld "" [] []).
Proof.
  destruct (C6_data_state_units (Demo.lp 10) (DemoWorlds.dataWorld "" [] []) eq_refl)
    as (Hdb & _ & Hcomment & Hblank & Hdata).
  split; [|split; [|split]].
  - eexists. split; [exact (Hdb (Demo.line " db0"))|]. vm_compute. reflexivity.
  - apply Hcomment; reflexivity.
  - apply Hblank. vm_compute. reflexivity.
  - apply (Hdata (Demo.line "cpu,host=a value=1 1")).
    + reflexivity.
    + vm_compute. discriminate.
Defined.

Lemma C6_counterexample :
  (exists w',
     processLineProtocol (Demo.lp 10) (Demo.line "# CONTEXT-DATABASE: a:b")
       (DemoWorlds.dataWorld "" [] [])
     = Done (FSMCallEmpty, None, w')
     /\ database (fsm w') = "a"
     /\ option_map strings.TrimSpace
          (afterFirstColon (Demo.line "# CONTEXT-DATABASE: a:b")) = Some "a:b")
  /\ exists w',
       processLineProtocol (Demo.lp 10) (Demo.line "# DDL")
         (DemoWorlds.dataWorld "" [] [])
       = Done (FSMCallEmpty, None, w')
       /\ state (fsm (DemoWorlds.dataWorld "" [] [])) = ImportStateDML
       /\ state (fsm w') = ImportStateDDL.
Proof.
  split.
  - eexists. split; [reflexivity|]. split; vm_compute; reflexivity.
  - eexists. split; [reflexivity|]. split; reflexivity.
Qed.




(** C3.  With a batch threshold of 2: a CSV run of a header and three data
    rows holds all three rows in its buffer at the end of the stream and has
    written nothing; a line-protocol run has written nothing after its second
    data line, and its third data line triggers the write of the first two
    and is itself not kept. *)
Theorem C3_threshold_flush_evaluated :
  let lines := [ReadOk (Demo.line "# DML"); ReadOk (Demo.line "# CONTEXT-DATABASE: db0");
                ReadOk (Demo.line "cpu,host=a value=1 1");
                ReadOk (Demo.line "cpu,host=b value=2 2")] in
  match csvLoop (Demo.csv 2 0)
          [ReadOk ["time"; "host"; "value"]; ReadOk ["100"; "serverA"; "1"];
           ReadOk ["200"; "serverB"; "2"]; ReadOk ["300"; "serverC"; "3"]]
          initialWorld with
  | Done w =>
      batchPointBuffer (fsm w)
      = [DemoWorlds.point "serverA" "1" 100; DemoWorlds.point "serverB" "2" 200;
         DemoWorlds.point "serverC" "3" 300]
      /\ trace w = [Slog LevelInfo "parse header success" []]
  | Panic _ => False
  end
  /\ match lineProtocolLoop (Demo.lp 2) lines initialWorld with
     | Done w =>
         batchLPBuffer (fsm w) = ["cpu,host=a value=1 1"; "cpu,host=b value=2 2"]
         /\ trace w = []
     | Panic _ => False
     end
  /\ match lineProtocolLoop (Demo.lp 2)
             (lines ++ [ReadOk (Demo.line "cpu,host=c value=3 3")])%list
             initialWorld with
     | Done w =>
         batchLPBuffer (fsm w) = []
         /\ trace w
            = [HttpWrite "db0" "autogen"
                 ("cpu,host=a value=1 1" ++ LF ++ "cpu,host=b value=2 2") "ns" None]
     | Panic _ => False
     end.
Proof. vm_compute. repeat split; reflexivity. Qed.

(** ** Facts about the Field Resolver *)

Lemma zeroMap_lookup (names : list string) (k : string) :
  zeroMap names !! k = if decide (k ∈ names) then Some zeroFieldPos else None.
Proof.
  unfold zeroMap.
  assert (H : forall (m : gmap string FieldPos),
            foldl (fun m n => <[n := zeroFieldPos]> m) m names !! k
            = if decide (k ∈ names) then Some zeroFieldPos else m !! k).
  { induction names as [|n names IH]; intros m; cbn [foldl].
    - destruct (decide (k ∈ [])) as [Hin|]; [inversion Hin|reflexivity].
    - rewrite IH. destruct (decide (k ∈ names)) as [Hin|Hnin].
      + rewrite decide_True by (right; exact Hin). reflexivity.
      + destruct (decide (k = n)) as [->|Hne].
        * rewrite decide_True by left. apply lookup_insert_eq.
        * rewrite decide_False by (rewrite elem_of_cons; tauto).
          apply lookup_insert_ne. congruence. }
  rewrite H. destruct (decide (k ∈ names)); [reflexivity|apply lookup_empty].
Qed.

Lemma firstUnresolved_Some (m : gmap string FieldPos) (names : list string) (n : string) :
  firstUnresolved m names = Some n -> n ∈ names /\ Name (lookupPos m n) = "".
Proof.
  induction names as [|n0 names IH]; cbn [firstUnresolved]; [discriminate|].
  destruct (String.eqb (Name (lookupPos m n0)) "") eqn:E.
  - intros [= <-]. apply String.eqb_eq in E. split; [left|exact E].
  - intros H. apply IH in H as [Hin Hn]. split; [right; exact Hin|exact Hn].
Qed.

Lemma firstUnresolved_None (m : gmap string FieldPos) (names : list string) (n : string) :
  firstUnresolved m names = None -> n ∈ names -> Name (lookupPos m n) <> "".
Proof.
  induction names as [|n0 names IH]; cbn [firstUnresolved]; intros H Hin.
  - inversion Hin.
  - destruct (String.eqb (Name (lookupPos m n0)) "") eqn:E; [discriminate|].
    apply String.eqb_neq in E.
    apply elem_of_cons in Hin as [->|Hin]; [exact E|exact (IH H Hin)].
Qed.

Section Resolver.

Variable command : ImportCommand.

(** What the scan of one column leaves alone. *)
Lemma scanColumn_frame idx datum w :
  let w' := scanColumn command idx datum w in
  state (fsm w') = state (fsm w) /\ database (fsm w') = database (fsm w)
  /\ retentionPolicy (fsm w') = retentionPolicy (fsm w)
  /\ batchLPBuffer (fsm w') = batchLPBuffer (fsm w)
  /\ batchPointBuffer (fsm w') = batchPointBuffer (fsm w)
  /\ builderEntities w' = builderEntities w
  /\ exists logs, trace w' = (trace w ++ logs)%list /\ Forall isSlog logs.
Proof.
  unfold scanColumn.
  destruct (tagMap (fsm w) !! datum); [|destruct (fieldMap (fsm w) !! datum);
    [|destruct (String.eqb (TimeField (cfg command)) datum)]]; cbn;
    repeat (split; [reflexivity|]).
  1-3: exists []; rewrite app_nil_r; split; [reflexivity|constructor].
  eexists. split; [reflexivity|]. repeat constructor.
Qed.

Lemma scanHeader_frame data : forall idx w,
  let w' := scanHeader command idx data w in
  state (fsm w') = state (fsm w) /\ database (fsm w') = database (fsm w)
  /\ retentionPolicy (fsm w') = retentionPolicy (fsm w)
  /\ batchLPBuffer (fsm w') = batchLPBuffer (fsm w)
  /\ batchPointBuffer (fsm w') = batchPointBuffer (fsm w)
  /\ builderEntities w' = builderEntities w
  /\ exists logs, trace w' = (trace w ++ logs)%list /\ Forall isSlog logs.
Proof.
  induction data as [|datum rest IH]; intros idx w; cbn [scanHeader].
  - repeat (split; [reflexivity|]). exists []. rewrite app_nil_r. split; [reflexivity|constructor].
  - destruct (IH (idx + 1) (scanColumn command idx datum w))
      as (H1 & H2 & H3 & H4 & H5 & H6 & logs2 & H7 & H8).
    destruct (scanColumn_frame idx datum w)
      as (G1 & G2 & G3 & G4 & G5 & G6 & logs1 & G7 & G8).
    cbv zeta. rewrite H1, H2, H3, H4, H5, H6, H7, G7.
    repeat (split; [assumption|]).
    exists (logs1 ++ logs2)%list. rewrite app_assoc. split; [reflexivity|].
    apply Forall_app. split; assumption.
Qed.

(** A name that is not the column scanned keeps its entries. *)
Lemma scanColumn_other idx datum w k :
  k <> datum ->
  tagMap (fsm (scanColumn command idx datum w)) !! k = tagMap (fsm w) !! k
  /\ fieldMap (fsm (scanColumn command idx datum w)) !! k = fieldMap (fsm w) !! k.
Proof.
  intros Hne. unfold scanColumn.
  destruct (tagMap (fsm w) !! datum); [|destruct (fieldMap (fsm w) !! datum);
    [|destruct (String.eqb (TimeField (cfg command)) datum)]]; cbn;
    rewrite ?lookup_insert_ne by congruence; split; reflexivity.
Qed.

(** A tag of the configuration that is a column gets its name. *)
Lemma scanColumn_tag idx datum w :
  is_Some (tagMap (fsm w) !! datum) ->
  tagMap (fsm (scanColumn command idx datum w)) !! datum
  = Some {| Name := datum; Pos := idx |}.
Proof.
  intros [fp Hfp]. unfold scanColumn. rewrite Hfp. cbn. apply lookup_insert_eq.
Qed.

Lemma scanColumn_field idx datum w :
  tagMap (fsm w) !! datum = None ->
  is_Some (fieldMap (fsm w) !! datum) ->
  fieldMap (fsm (scanColumn command idx datum w)) !! datum
  = Some {| Name := datum; Pos := idx |}
  /\ tagMap (fsm (scanColumn command idx datum w)) !! datum = None.
Proof.
  intros Htag [fp Hfp]. unfold scanColumn. rewrite Htag, Hfp. cbn.
  split; [apply lookup_insert_eq|exact Htag].
Qed.

Lemma scanColumn_time idx datum w :
  tagMap (fsm w) !! datum = None ->
  fieldMap (fsm w) !! datum = None ->
  TimeField (cfg command) = datum ->
  timeField (fsm (scanColumn command idx datum w)) = {| Name := datum; Pos := idx |}.
Proof.
  intros Htag Hfield Htime. unfold scanColumn. rewrite Htag, Hfield.
  apply String.eqb_eq in Htime. rewrite Htime. reflexivity.
Qed.

(** The time position changes only at a column named as the time column. *)
Lemma scanColumn_time_other idx datum w :
  TimeField (cfg command) <> datum ->
  timeField (fsm (scanColumn command idx datum w)) = timeField (fsm w).
Proof.
  intros Hne. unfold scanColumn. apply String.eqb_neq in Hne. rewrite Hne.
  destruct (tagMap (fsm w) !! datum); [|destruct (fieldMap (fsm w) !! datum)];
    reflexivity.
Qed.

Lemma scanColumn_time_name idx datum w :
  Name (timeField (fsm (scanColumn command idx datum w))) = Name (timeField (fsm w))
  \/ Name (timeField (fsm (scanColumn command idx datum w))) = TimeField (cfg command).
Proof.
  unfold scanColumn.
  destruct (tagMap (fsm w) !! datum); [|destruct (fieldMap (fsm w) !! datum);
    [|destruct (String.eqb (TimeField (cfg command)) datum) eqn:E]]; cbn; auto.
  apply String.eqb_eq in E. auto.
Qed.

(** The scan neither adds a name to a map nor removes one. *)
Lemma scanColumn_dom idx datum w k :
  (tagMap (fsm (scanColumn command idx datum w)) !! k = None
   <-> tagMap (fsm w) !! k = None)
  /\ (fieldMap (fsm (scanColumn command idx datum w)) !! k = None
      <-> fieldMap (fsm w) !! k = None).
Proof.
  destruct (decide (k = datum)) as [->|Hne].
  - unfold scanColumn.
    destruct (tagMap (fsm w) !! datum) eqn:Htag;
      [|destruct (fieldMap (fsm w) !! datum) eqn:Hfield;
        [|destruct (String.eqb (TimeField (cfg command)) datum)]]; cbn;
      rewrite ?lookup_insert_eq, ?Htag, ?Hfield; split; split; congruence.
  - destruct (scanColumn_other idx datum w k Hne) as [-> ->]. tauto.
Qed.

Lemma scanColumn_named idx datum w k :
  (named (tagMap (fsm w)) k -> named (tagMap (fsm (scanColumn command idx datum w))) k)
  /\ (named (fieldMap (fsm w)) k ->
      named (fieldMap (fsm (scanColumn command idx datum w))) k).
Proof.
  destruct (decide (k = datum)) as [->|Hne].
  - unfold scanColumn, named.
    destruct (tagMap (fsm w) !! datum) eqn:Htag;
      [|destruct (fieldMap (fsm w) !! datum) eqn:Hfield;
        [|destruct (String.eqb (TimeField (cfg command)) datum)]]; cbn;
      rewrite ?lookup_insert_eq, ?Htag, ?Hfield; split; intros [pos H]; eauto;
      discriminate.
  - unfold named. destruct (scanColumn_other idx datum w k Hne) as [-> ->]. tauto.
Qed.

Lemma scanHeader_named data k : forall idx w,
  (named (tagMap (fsm w)) k -> named (tagMap (fsm (scanHeader command idx data w))) k)
  /\ (named (fieldMap (fsm w)) k ->
      named (fieldMap (fsm (scanHeader command idx data w))) k).
Proof.
  induction data as [|datum rest IH]; intros idx w; cbn [scanHeader]; [tauto|].
  destruct (IH (idx + 1) (scanColumn command idx datum w)) as [IH1 IH2].
  destruct (scanColumn_named idx datum w k) as [H1 H2]. auto.
Qed.

Lemma scanHeader_time_name data : forall idx w,
  Name (timeField (fsm w)) = TimeField (cfg command) ->
  Name (timeField (fsm (scanHeader command idx data w))) = TimeField (cfg command).
Proof.
  induction data as [|datum rest IH]; intros idx w H; cbn [scanHeader]; [exact H|].
  apply IH. destruct (scanColumn_time_name idx datum w) as [->| ->]; auto.
Qed.

(** A name that is no column of the header keeps its entries through the
    scan, and so does the time position when the time column is missing. *)
Lemma scanHeader_untouched data k : forall idx w,
  k ∉ data ->
  tagMap (fsm (scanHeader command idx data w)) !! k = tagMap (fsm w) !! k
  /\ fieldMap (fsm (scanHeader command idx data w)) !! k = fieldMap (fsm w) !! k.
Proof.
  induction data as [|datum rest IH]; intros idx w Hnin; cbn [scanHeader]; [tauto|].
  apply not_elem_of_cons in Hnin as [Hne Hnin].
  destruct (IH (idx + 1) (scanColumn command idx datum w) Hnin) as [-> ->].
  apply scanColumn_other. exact Hne.
Qed.

Lemma scanHeader_time_untouched data : forall idx w,
  TimeField (cfg command) ∉ data ->
  timeField (fsm (scanHeader command idx data w)) = timeField (fsm w).
Proof.
  induction data as [|datum rest IH]; intros idx w Hnin; cbn [scanHeader]; [reflexivity|].
  apply not_elem_of_cons in Hnin as [Hne Hnin].
  rewrite (IH _ _ Hnin). apply scanColumn_time_other. exact Hne.
Qed.

(** A configured tag that is a column of the header is given a position; so
    is a configured field that is no tag, and the time column when it is
    neither a tag nor a field. *)
Lemma scanHeader_tag data k : forall idx w,
  is_Some (tagMap (fsm w) !! k) -> k ∈ data ->
  named (tagMap (fsm (scanHeader command idx data w))) k.
Proof.
  induction data as [|datum rest IH]; intros idx w Hsome Hin; cbn [scanHeader].
  - inversion Hin.
  - destruct (decide (k = datum)) as [->|Hne].
    + apply scanHeader_named. eexists. apply scanColumn_tag. exact Hsome.
    + apply elem_of_cons in Hin as [Heq|Hin]; [contradiction|].
      apply IH; [|exact Hin].
      destruct (scanColumn_other idx datum w k Hne) as [-> _]. exact Hsome.
Qed.

Lemma scanHeader_field data k : forall idx w,
  tagMap (fsm w) !! k = None -> is_Some (fieldMap (fsm w) !! k) -> k ∈ data ->
  named (fieldMap (fsm (scanHeader command idx data w))) k.
Proof.
  induction data as [|datum rest IH]; intros idx w Htag Hsome Hin; cbn [scanHeader].
  - inversion Hin.
  - destruct (decide (k = datum)) as [->|Hne].
    + apply scanHeader_named. eexists.
      apply (scanColumn_field idx datum w Htag Hsome).
    + apply elem_of_cons in Hin as [Heq|Hin]; [contradiction|].
      destruct (scanColumn_other idx datum w k Hne) as [Ht Hf].
      apply IH; [rewrite Ht; exact Htag|rewrite Hf; exact Hsome|exact Hin].
Qed.

Lemma scanHeader_time data : forall idx w,
  tagMap (fsm w) !! TimeField (cfg command) = None ->
  fieldMap (fsm w) !! TimeField (cfg command) = None ->
  TimeField (cfg command) ∈ data ->
  Name (timeField (fsm (scanHeader command idx data w))) = TimeField (cfg command).
Proof.
  induction data as [|datum rest IH]; intros idx w Htag Hfield Hin; cbn [scanHeader].
  - inversion Hin.
  - destruct (decide (TimeField (cfg command) = datum)) as [Heq|Hne].
    + apply scanHeader_time_name.
      rewrite (scanColumn_time idx datum w); [symmetry; exact Heq| | |exact Heq];
        rewrite <- Heq; assumption.
    + apply elem_of_cons in Hin as [Heq|Hin]; [contradiction|].
      destruct (scanColumn_other idx datum w _ Hne) as [Ht Hf].
      apply IH; [rewrite Ht; exact Htag|rewrite Hf; exact Hfield|exact Hin].
Qed.

End Resolver.

Lemma named_Name (m : gmap string FieldPos) (k : string) :
  named m k -> Name (lookupPos m k) = k.
Proof. intros [pos H]. unfold lookupPos. rewrite H. reflexivity. Qed.

(** C1, as amended.  The first row of a CSV run is the header; when some
    configured tag name, field name, or the time-column name is no column of
    it, the header's action returns an error that names a configured column
    (one that is missing from the header, when no name is empty and no name
    has two roles).  Up to then nothing is buffered and no collaborator is
    called.  The driver logs the error and goes on with the next row. *)
Theorem C1_missing_column (command : ImportCommand) (w : World)
    (header : list string) (rest : list (ReadResult (list string))) (missing : string) :
  fsm w = newImportFileFSM ->
  header <> [] ->
  missing ∈ configuredNames (cfg command) ->
  missing ∉ header ->
  exists name e w',
    processCSV command header w
    = Done (resolveHeader command header, None, on_fsm (with_state ImportStateDML) w)
    /\ resolveHeader command header (on_fsm (with_state ImportStateDML) w)
       = Done (Some e, w')
    /\ missingColumnError (cfg command) name e
    /\ (rolesDistinct (cfg command) -> name ∉ header)
    /\ batchLPBuffer (fsm w') = [] /\ batchPointBuffer (fsm w') = []
    /\ builderEntities w' = builderEntities w
    /\ (exists logs, trace w' = (trace w ++ logs)%list /\ Forall isSlog logs)
    /\ csvLoop command (ReadOk header :: rest) w
       = csvLoop command rest
           (slog_Error "call csv line fsm function failed"
              [("reason", LogErr (Some e))] w').
Proof.
  intros Hfresh Hheader Hmissing Hnotin.
  assert (Hp : processCSV command header w
               = Done (resolveHeader command header, None,
                       on_fsm (with_state ImportStateDML) w)).
  { unfold processCSV. destruct header; [congruence|]. rewrite Hfresh. reflexivity. }
  set (w1 :=
         on_fsm (with_fieldMap (zeroMap (Fields (cfg command))))
           (on_fsm (with_tagMap (zeroMap (Tags (cfg command))))
              (on_fsm (with_measurement (Measurement (cfg command)))
                 (on_fsm (with_retentionPolicy (RetentionPolicy (cfg command)))
                    (on_fsm (with_database (Database (cfg command)))
                       (on_fsm (with_state ImportStateDML) w)))))).
  set (w2 := scanHeader command 0 header w1).
  destruct (scanHeader_frame command header 0 w1)
    as (_ & _ & _ & HLP & HP & HB & logs & Htr & Hlogs).
  fold w2 in HLP, HP, HB, Htr.
  assert (HLP2 : batchLPBuffer (fsm w2) = []) by (rewrite HLP; cbn; rewrite Hfresh; reflexivity).
  assert (HP2 : batchPointBuffer (fsm w2) = []) by (rewrite HP; cbn; rewrite Hfresh; reflexivity).
  assert (Htag1 : forall k, tagMap (fsm w1) !! k
                            = if decide (k ∈ Tags (cfg command)) then Some zeroFieldPos
                              else None) by (intros k; apply zeroMap_lookup).
  assert (Hfield1 : forall k, fieldMap (fsm w1) !! k
                              = if decide (k ∈ Fields (cfg command)) then Some zeroFieldPos
                                else None) by (intros k; apply zeroMap_lookup).
  assert (Htime1 : timeField (fsm w1) = zeroFieldPos) by (cbn; rewrite Hfresh; reflexivity).
  assert (Hall : forall name e,
            resolveHeader command header (on_fsm (with_state ImportStateDML) w)
            = Done (Some e, w2) ->
            missingColumnError (cfg command) name e ->
            (rolesDistinct (cfg command) -> name ∉ header) ->
            exists name e w',
              processCSV command header w
              = Done (resolveHeader command header, None,
                      on_fsm (with_state ImportStateDML) w)
              /\ resolveHeader command header (on_fsm (with_state ImportStateDML) w)
                 = Done (Some e, w')
              /\ missingColumnError (cfg command) name e
              /\ (rolesDistinct (cfg command) -> name ∉ header)
              /\ batchLPBuffer (fsm w') = [] /\ batchPointBuffer (fsm w') = []
              /\ builderEntities w' = builderEntities w
              /\ (exists logs, trace w' = (trace w ++ logs)%list /\ Forall isSlog logs)
              /\ csvLoop command (ReadOk header :: rest) w
                 = csvLoop command rest
                     (slog_Error "call csv line fsm function failed"
                        [("reason", LogErr (Some e))] w')).
  { intros name e Hres Herr Hname. exists name, e, w2.
    repeat (split; [assumption|]).
    split; [exists logs; split; [exact Htr|exact Hlogs]|].
    cbn [csvLoop]. unfold csvStep. rewrite Hp, Hres. reflexivity. }
  assert (Hres : resolveHeader command header (on_fsm (with_state ImportStateDML) w)
                 = match firstUnresolved (fieldMap (fsm w2)) (Fields (cfg command)) with
                   | Some field =>
                       Done (Some (errors.New ("field name not in csv header " ++ field)), w2)
                   | None =>
                       match firstUnresolved (tagMap (fsm w2)) (Tags (cfg command)) with
                       | Some tag =>
                           Done (Some (errors.New ("tag name not in csv header " ++ tag)), w2)
                       | None =>
                           if String.eqb (Name (timeField (fsm w2))) "" then
                             Done (Some (errors.New ("time field name not in csv header "
                                                     ++ TimeField (cfg command))), w2)
                           else Done (None, slog_Info "parse header success" [] w2)
                       end
                   end) by reflexivity.
  destruct (firstUnresolved (fieldMap (fsm w2)) (Fields (cfg command))) as [field|] eqn:Hf.
  { apply firstUnresolved_Some in Hf as [Hin Hunnamed].
    apply (Hall field _ Hres); [left; auto|].
    intros (Hempty & Hroles & _ & _) Hcol.
    assert (Hnamed : named (fieldMap (fsm w2)) field).
    { apply scanHeader_field; [| |exact Hcol].
      - rewrite Htag1. apply decide_False. intros Htag. exact (Hroles _ Htag Hin).
      - rewrite Hfield1, decide_True by exact Hin. eauto. }
    apply named_Name in Hnamed. rewrite Hunnamed in Hnamed. subst field.
    apply Hempty. unfold configuredNames. rewrite !elem_of_app. auto. }
  destruct (firstUnresolved (tagMap (fsm w2)) (Tags (cfg command))) as [tag|] eqn:Ht.
  { apply firstUnresolved_Some in Ht as [Hin Hunnamed].
    apply (Hall tag _ Hres); [right; left; auto|].
    intros (Hempty & _) Hcol.
    assert (Hnamed : named (tagMap (fsm w2)) tag).
    { apply scanHeader_tag; [|exact Hcol]. rewrite Htag1, decide_True by exact Hin. eauto. }
    apply named_Name in Hnamed. rewrite Hunnamed in Hnamed. subst tag.
    apply Hempty. unfold configuredNames. rewrite !elem_of_app. auto. }
  destruct (String.eqb (Name (timeField (fsm w2))) "") eqn:Hn.
  { apply String.eqb_eq in Hn.
    apply (Hall (TimeField (cfg command)) _ Hres); [right; right; auto|].
    intros (Hempty & _ & Htags & Hfields) Hcol.
    assert (Hnamed : Name (timeField (fsm w2)) = TimeField (cfg command)).
    { apply scanHeader_time; [| |exact Hcol].
      - rewrite Htag1. apply decide_False. exact Htags.
      - rewrite Hfield1. apply decide_False. exact Hfields. }
    rewrite Hn in Hnamed. apply Hempty. rewrite Hnamed.
    unfold configuredNames. rewrite !elem_of_app, list_elem_of_singleton. auto. }
  exfalso. apply String.eqb_neq in Hn.
  unfold configuredNames in Hmissing.
  rewrite !elem_of_app, list_elem_of_singleton in Hmissing.
  destruct (scanHeader_untouched command header missing 0 w1 Hnotin) as [Htag2 Hfield2].
  fold w2 in Htag2, Hfield2.
  destruct Hmissing as [Hin|[Hin| ->]].
  - apply (firstUnresolved_None _ _ missing Ht Hin).
    unfold lookupPos. rewrite Htag2, Htag1, decide_True by exact Hin. reflexivity.
  - apply (firstUnresolved_None _ _ missing Hf Hin).
    unfold lookupPos. rewrite Hfield2, Hfield1, decide_True by exact Hin. reflexivity.
  - apply Hn. unfold w2.
    rewrite (scanHeader_time_untouched command header 0 w1 Hnotin), Htime1. reflexivity.
Qed.

Lemma C1_missing_column_witness :
  exists name e w',
    resolveHeader (Demo.csv 10 0) ["time"; "value"]
      (on_fsm (with_state ImportStateDML) initialWorld)
    = Done (Some e, w')
    /\ missingColumnError (cfg (Demo.csv 10 0)) name e
    /\ batchPointBuffer (fsm w') = [].
Proof.
  destruct (C1_missing_column (Demo.csv 10 0) initialWorld ["time"; "value"] [] "host")
    as (name & e & w' & _ & H & Herr & _ & _ & HP & _).
  - reflexivity.
  - discriminate.
  - vm_compute. constructor.
  - apply (bool_decide_unpack _). vm_compute. exact I.
  - exists name, e, w'. auto.
Defined.

Lemma C1_counterexample :
  ("host" ∈ Tags (cfg (Demo.csv 10 0)))
  /\ ("host" ∉ ["time"; "value"])
  /\ match process (Demo.csv 10 0)
             (inr {| file_lines := [];
                     file_rows := [ReadOk ["time"; "value"]; ReadOk ["100"; "42"]] |})
             initialWorld with
     | Done (r, w) =>
         r = None
         /\ trace w
            = [Slog LevelInfo "tips: csv file import only support by column write protocol" [];
               Slog LevelError "call csv line fsm function failed"
                 [("reason", LogErr (Some (errorString "tag name not in csv header host")))];
               GrpcWrite
                 (Some {| opengemini.req_database := "db0";
                          opengemini.req_retentionPolicy := "autogen";
                          opengemini.req_username := "admin";
                          opengemini.req_password := "secret";
                          opengemini.req_records :=
                            [{| opengemini.line_measurement := "cpu";
                                opengemini.line_tags := {["" := "100"]};
                                opengemini.line_fields :=
                                  {["value" := opengemini.any_string "42"]};
                                opengemini.line_timestamp := 100 |}] |})
                 (Some 0) None;
               Slog LevelInfo "process finished" [("path", LogStr "data.txt")]]
     | Panic _ => False
     end
  /\ ("time" ∉ ["host"]) /\ ("host" ∈ ["host"])
  /\ exists w',
       resolveHeader Demo.twoRoles ["host"]
         (on_fsm (with_state ImportStateDML) initialWorld)
       = Done (Some (errors.New "field name not in csv header host"), w').
Proof.
  split; [vm_compute; constructor|].
  split; [apply (bool_decide_unpack _); vm_compute; exact I|].
  split; [vm_compute; split; reflexivity|].
  split; [apply (bool_decide_unpack _); vm_compute; exact I|].
  split; [constructor|].
  eexists. vm_compute. reflexivity.
Qed.

(** * Further properties of the code *)

(** ** [StringToInt64] *)

Lemma parseUintLoop_nonneg (s : string) : forall n,
  0 <= n -> 0 <= fst (strconv.parseUintLoop s n) <= Z.max n strconv.maxUint64.
Proof.
  change strconv.maxUint64 with 18446744073709551615.
  induction s as [|c t IH]; intros n Hn; cbn [strconv.parseUintLoop].
  - cbn [fst]. lia.
  - cbv zeta. change strconv.maxUint64 with 18446744073709551615.
    destruct (_ && _) eqn:Eb; [|cbn [fst]; lia].
    apply andb_true_iff in Eb as [Eb _]. apply Z.leb_le in Eb.
    destruct (_ <=? n); [cbn [fst]; lia|].
    destruct (_ <? _) eqn:E; [cbn [fst]; lia|].
    apply Z.ltb_ge in E.
    match goal with |- context [strconv.parseUintLoop t ?m] =>
      assert (H : 0 <= m) by lia;
      specialize (IH m H) end.
    lia.
Qed.

(** Whatever the text, [StringToInt64] yields a 64-bit signed integer. *)
Theorem StringToInt64_range (s : string) :
  strconv.minInt64 <= StringToInt64 s <= strconv.maxInt64.
Proof.
  unfold StringToInt64, strconv.ParseInt.
  change strconv.minInt64 with (-9223372036854775808).
  change strconv.maxInt64 with 9223372036854775807.
  change (2 ^ 63) with 9223372036854775808.
  destruct s as [|c t]; [cbn [fst]; lia|]. cbv zeta.
  set (s1 := if Ascii.eqb c "+" || Ascii.eqb c "-" then t else String c t).
  assert (Hun : 0 <= fst (strconv.ParseUint s1) <= 18446744073709551615).
  { unfold strconv.ParseUint. destruct s1; [cbn [fst]; lia|].
    pose proof (parseUintLoop_nonneg (String a s1) 0 ltac:(lia)) as H.
    change strconv.maxUint64 with 18446744073709551615 in H. lia. }
  assert (Hcases : forall un,
            0 <= un ->
            -9223372036854775808
            <= fst (if negb (Ascii.eqb c "-") && (9223372036854775808 <=? un)
                    then (9223372036854775808 - 1, Some strconv.ErrRange)
                    else if Ascii.eqb c "-" && (9223372036854775808 <? un)
                         then (- 9223372036854775808, Some strconv.ErrRange)
                         else (if Ascii.eqb c "-" then - un else un, None))
            <= 9223372036854775807).
  { intros un Hpos.
    destruct (Ascii.eqb c "-"); cbn [negb andb].
    - destruct (9223372036854775808 <? un) eqn:E; cbn [fst]; [lia|].
      apply Z.ltb_ge in E. lia.
    - destruct (9223372036854775808 <=? un) eqn:E; cbn [fst]; [lia|].
      apply Z.leb_gt in E. lia. }
  destruct (strconv.ParseUint s1) as [un [[]|]]; cbn [fst] in Hun;
    [cbn [fst]; lia|apply Hcases; lia|apply Hcases; lia].
Qed.

Lemma decimalValue_le (d : Decimal.uint) : forall n, 0 <= n -> n <= decimalValue d n.
Proof.
  induction d; intros n Hn; cbn [decimalValue]; [lia|..];
    match goal with |- _ <= decimalValue _ ?m => specialize (IHd m ltac:(lia)); lia end.
Qed.

Lemma parseUintLoop_digit (c : ascii) (t : string) (n k : Z) :
  Z.of_N (N_of_ascii c) = 48 + k -> 0 <= k <= 9 -> 0 <= n ->
  n * 10 + k <= strconv.maxUint64 ->
  strconv.parseUintLoop (String c t) n = strconv.parseUintLoop t (n * 10 + k).
Proof.
  intros Hc Hk Hn Hmax. cbn [strconv.parseUintLoop]. cbv zeta. rewrite Hc.
  change strconv.maxUint64 with 18446744073709551615 in *.
  change (18446744073709551615 / 10 + 1) with 1844674407370955162.
  replace (48 <=? 48 + k) with true by (symmetry; apply Z.leb_le; lia).
  replace (48 + k <=? 57) with true by (symmetry; apply Z.leb_le; lia).
  replace (1844674407370955162 <=? n) with false by (symmetry; apply Z.leb_gt; lia).
  replace (48 + k - 48) with k by lia.
  replace (18446744073709551615 <? n * 10 + k) with false
    by (symmetry; apply Z.ltb_ge; lia).
  reflexivity.
Qed.

Lemma parseUintLoop_decimal (d : Decimal.uint) : forall n,
  0 <= n -> decimalValue d n <= strconv.maxUint64 ->
  strconv.parseUintLoop (NilEmpty.string_of_uint d) n = (decimalValue d n, None).
Proof.
  induction d; intros n Hn Hmax; cbn [NilEmpty.string_of_uint decimalValue] in *;
    [reflexivity|..].
  1: rewrite (parseUintLoop_digit _ _ n 0), Z.add_0_r;
       [apply IHd; lia|reflexivity|lia|lia|
        pose proof (decimalValue_le d (n * 10) ltac:(lia)); lia].
  all: match type of Hmax with
       | decimalValue _ (_ + ?k) <= _ =>
           rewrite (parseUintLoop_digit _ _ n k);
             [apply IHd; lia|reflexivity|lia|lia|
              pose proof (decimalValue_le d (n * 10 + k) ltac:(lia)); lia]
       end.
Qed.

Lemma of_uint_acc_decimalValue (d : Decimal.uint) : forall acc,
  Z.pos (Pos.of_uint_acc d acc) = decimalValue d (Z.pos acc).
Proof.
  induction d; intros acc; cbn [Pos.of_uint_acc decimalValue]; [reflexivity|..];
    rewrite IHd; f_equal; lia.
Qed.

Lemma of_uint_decimalValue (d : Decimal.uint) :
  Z.of_N (Pos.of_uint d) = decimalValue d 0.
Proof.
  induction d; cbn [Pos.of_uint decimalValue]; [reflexivity|exact IHd|..];
    cbn [Z.of_N]; rewrite of_uint_acc_decimalValue; reflexivity.
Qed.

Lemma decimalValue_to_uint (p : positive) : decimalValue (Pos.to_uint p) 0 = Z.pos p.
Proof.
  rewrite <- of_uint_decimalValue, DecimalPos.Unsigned.of_to. reflexivity.
Qed.

(** The digits of a positive number, read by [ParseUint]. *)
Lemma ParseUint_to_uint (p : positive) :
  Z.pos p <= strconv.maxUint64 ->
  exists c t,
    NilEmpty.string_of_uint (Pos.to_uint p) = String c t
    /\ Ascii.eqb c "+" = false /\ Ascii.eqb c "-" = false
    /\ strconv.ParseUint (String c t) = (Z.pos p, None).
Proof.
  intros Hmax.
  pose proof (parseUintLoop_decimal (Pos.to_uint p) 0 ltac:(lia)) as Hloop.
  rewrite decimalValue_to_uint in Hloop. specialize (Hloop Hmax).
  pose proof (DecimalPos.Unsigned.to_uint_nonnil p) as Hnil.
  destruct (Pos.to_uint p); [congruence|..];
    cbn [NilEmpty.string_of_uint] in *; eexists _, _;
    (split; [reflexivity|]); (split; [reflexivity|]); (split; [reflexivity|]);
    exact Hloop.
Qed.

(** [StringToInt64] reads the decimal rendering of every 64-bit signed
    integer back to that integer. *)
Theorem StringToInt64_decimal (z : Z) :
  strconv.minInt64 <= z <= strconv.maxInt64 ->
  StringToInt64 (fmt.d z) = z.
Proof.
  change strconv.minInt64 with (-9223372036854775808).
  change strconv.maxInt64 with 9223372036854775807.
  intros Hz. unfold StringToInt64, fmt.d.
  destruct z as [|p|p]; [reflexivity| |].
  - cbn [Z.to_int NilZero.string_of_int].
    destruct (ParseUint_to_uint p) as (c & t & Hs & Hplus & Hminus & Hparse).
    { change strconv.maxUint64 with 18446744073709551615. lia. }
    assert (Hstr : NilZero.string_of_uint (Pos.to_uint p) = String c t).
    { rewrite <- Hs. pose proof (DecimalPos.Unsigned.to_uint_nonnil p).
      destruct (Pos.to_uint p); [congruence|reflexivity..]. }
    rewrite Hstr. unfold strconv.ParseInt. cbv zeta. rewrite Hplus, Hminus.
    cbn [orb negb andb]. rewrite Hparse.
    change (2 ^ 63) with 9223372036854775808.
    replace (9223372036854775808 <=? Z.pos p) with false
      by (symmetry; apply Z.leb_gt; lia).
    reflexivity.
  - cbn [Z.to_int NilZero.string_of_int].
    destruct (ParseUint_to_uint p) as (c & t & Hs & Hplus & Hminus & Hparse).
    { change strconv.maxUint64 with 18446744073709551615. lia. }
    assert (Hstr : NilZero.string_of_uint (Pos.to_uint p) = String c t).
    { rewrite <- Hs. pose proof (DecimalPos.Unsigned.to_uint_nonnil p).
      destruct (Pos.to_uint p); [congruence|reflexivity..]. }
    rewrite Hstr. unfold strconv.ParseInt. cbv zeta.
    assert (Ascii.eqb "-" "-" = true) as -> by reflexivity.
    rewrite orb_true_r. cbn [negb andb]. rewrite Hparse.
    change (2 ^ 63) with 9223372036854775808.
    replace (9223372036854775808 <? Z.pos p) with false
      by (symmetry; apply Z.ltb_ge; lia).
    reflexivity.
Qed.

Lemma HasPrefix_inv (token : string) : forall data,
  strings.HasPrefix data token = true -> exists rest, data = token ++ rest.
Proof.
  unfold strings.HasPrefix.
  induction token as [|c token IH]; intros data H.
  - exists data. reflexivity.
  - destruct data as [|c' data]; [discriminate|]. cbn [String.prefix] in H.
    destruct (ascii_dec c c') as [<-|]; [|discriminate].
    destruct (IH data H) as [rest ->]. exists rest. reflexivity.
Qed.

Section LineProtocolFacts.

Variable command : ImportCommand.

(** The three things [processLineProtocol] can hand back: the empty action,
    having changed at most the state, the database and the retention policy;
    in the Schema state, the command action of the trimmed line; in the Data
    state, the data action of the trimmed line. *)
Lemma processLineProtocol_cases (line : string) (w : World) :
  (exists w1,
     processLineProtocol command line w = Done (FSMCallEmpty, None, w1)
     /\ batchLPBuffer (fsm w1) = batchLPBuffer (fsm w)
     /\ batchPointBuffer (fsm w1) = batchPointBuffer (fsm w)
     /\ builderEntities w1 = builderEntities w /\ trace w1 = trace w)
  \/ (state (fsm w) = ImportStateDDL
      /\ processLineProtocol command line w
         = Done (executeDDL command (strings.TrimSpace line), None, w))
  \/ (state (fsm w) = ImportStateDML
      /\ processLineProtocol command line w
         = Done (writeLineProtocol command (strings.TrimSpace line), None, w)).
Proof.
  unfold processLineProtocol.
  destruct (strings.HasPrefix line ImportTokenDDL); [left; eexists; repeat split|].
  destruct (strings.HasPrefix line ImportTokenDML); [left; eexists; repeat split|].
  destruct (state (fsm w)) eqn:Hstate.
  - destruct (String.eqb (strings.TrimSpace line) "");
      [left; eexists; repeat split|right; left; split; reflexivity].
  - destruct (strings.HasPrefix line ImportTokenDatabase) eqn:Hdb.
    { apply HasPrefix_inv in Hdb as [rest ->]. rewrite afterColon_spec.
      assert (afterFirstColon (ImportTokenDatabase ++ rest) = Some rest) as ->
        by reflexivity.
      left. eexists. repeat split. }
    destruct (strings.HasPrefix line ImportTokenRetentionPolicy) eqn:Hrp.
    { apply HasPrefix_inv in Hrp as [rest ->]. rewrite afterColon_spec.
      assert (afterFirstColon (ImportTokenRetentionPolicy ++ rest) = Some rest) as ->
        by reflexivity.
      left. eexists. repeat split. }
    destruct (strings.HasPrefix line "#"); [left; eexists; repeat split|].
    destruct (String.eqb (strings.TrimSpace line) "");
      [left; eexists; repeat split|right; right; split; reflexivity].
Qed.

(** [processLineProtocol] returns for every line and every world: it never
    panics on its index into the split directive and never returns an error;
    and it touches neither the buffers, nor the registry, nor the outside
    world. *)
Theorem processLineProtocol_total (line : string) (w : World) :
  exists fsmCall w1,
    processLineProtocol command line w = Done (fsmCall, None, w1)
    /\ batchLPBuffer (fsm w1) = batchLPBuffer (fsm w)
    /\ batchPointBuffer (fsm w1) = batchPointBuffer (fsm w)
    /\ builderEntities w1 = builderEntities w /\ trace w1 = trace w.
Proof.
  destruct (processLineProtocol_cases line w)
    as [(w1 & H & H1 & H2 & H3 & H4)|[(_ & H)|(_ & H)]]; rewrite H; eauto 10.
Qed.

Lemma executeDDL_Done (data : string) (w : World) :
  exists r w',
    executeDDL command data w = Done (r, w') /\ fsm w' = fsm w
    /\ builderEntities w' = builderEntities w
    /\ exists level msg attrs,
         trace w' = (trace w ++ [HttpQuery data r; Slog level msg attrs])%list.
Proof.
  unfold executeDDL.
  destruct (httpClient_Query (collab command) (trace w) data) as [e|];
    eexists _, _; (split; [reflexivity|]); cbn; repeat split;
    eexists _, _, _; rewrite <- app_assoc; reflexivity.
Qed.

Lemma sendRecords_fsm b points w r w' :
  sendRecords command b points w = Done (r, w') -> fsm w' = fsm w.
Proof.
  intros H. apply sendRecords_Done in H as [[-> _]|(rq & rs & e & -> & _)]; reflexivity.
Qed.

(** What the data action does to the state machine: it appends the line when
    fewer than [BatchSize] lines are buffered, empties the buffer otherwise,
    or leaves everything when the database is not set. *)
Lemma writeLineProtocol_fsm (data : string) (w : World) r w' :
  writeLineProtocol command data w = Done (r, w') ->
  fsm w' = fsm w
  \/ (len (batchLPBuffer (fsm w)) < BatchSize (cfg command)
      /\ fsm w' = with_batchLPBuffer (batchLPBuffer (fsm w) ++ [data]) (fsm w))
  \/ fsm w' = with_batchLPBuffer [] (fsm w).
Proof.
  unfold writeLineProtocol.
  destruct (String.eqb (database (fsm w)) ""); [intros [= <- <-]; auto|].
  destruct (len (batchLPBuffer (fsm w)) <? BatchSize (cfg command)) eqn:E.
  { intros [= <- <-]. apply Z.ltb_lt in E. right. left. auto. }
  intros H. apply defer_Done in H as (w0 & H & ->). right. right.
  cbn. f_equal.
  destruct (ColumnWrite (cfg command)).
  - destruct (builderFor command w) as [err|[b w1]] eqn:Hb; [congruence|].
    apply builderFor_inr in Hb as [Hfsm _].
    destruct (parser_Parse _ _) as [points [e|]]; [congruence|].
    apply sendRecords_fsm in H. congruence.
  - injection H as <- <-. reflexivity.
Qed.


(** One pass of the line-protocol loop does one of three things to the
    buffers: nothing; or it appends the trimmed line to fewer than
    [BatchSize] buffered lines; or it empties the line buffer.  The point
    buffer is never touched. *)
Lemma lineProtocolStep_buffers (line : string) (w w' : World) :
  lineProtocolStep command line w = Done w' ->
  batchPointBuffer (fsm w') = batchPointBuffer (fsm w)
  /\ (batchLPBuffer (fsm w') = batchLPBuffer (fsm w)
      \/ (len (batchLPBuffer (fsm w)) < BatchSize (cfg command)
          /\ batchLPBuffer (fsm w')
             = (batchLPBuffer (fsm w) ++ [strings.TrimSpace line])%list)
      \/ batchLPBuffer (fsm w') = []).
Proof.
  unfold lineProtocolStep.
  destruct (processLineProtocol_cases line w)
    as [(w1 & -> & HLP & HP & _)|[(_ & ->)|(_ & ->)]].
  - intros [= <-]. auto.
  - destruct (executeDDL_Done (strings.TrimSpace line) w) as (r & w2 & -> & Hfsm & _).
    destruct r; intros [= <-]; cbn; rewrite Hfsm; auto.
  - destruct (writeLineProtocol command (strings.TrimSpace line) w)
      as [[r w2]|] eqn:Hcall; [|discriminate].
    apply writeLineProtocol_fsm in Hcall.
    assert (Hgoal : batchPointBuffer (fsm w2) = batchPointBuffer (fsm w)
                    /\ (batchLPBuffer (fsm w2) = batchLPBuffer (fsm w)
                        \/ (len (batchLPBuffer (fsm w)) < BatchSize (cfg command)
                            /\ batchLPBuffer (fsm w2)
                               = (batchLPBuffer (fsm w) ++ [strings.TrimSpace line])%list)
                        \/ batchLPBuffer (fsm w2) = [])).
    { destruct Hcall as [->|[[Hlt ->]| ->]]; cbn; auto. }
    destruct r; intros [= <-]; exact Hgoal.
Qed.

(** The line buffer never holds more than [BatchSize] lines: a run of
    the line-protocol loop that starts within the bound ends within it, and
    it never touches the point buffer. *)
Theorem lineProtocolLoop_buffer_bound (units : list (ReadResult string)) :
  forall w w',
    len (batchLPBuffer (fsm w)) <= Z.max 0 (BatchSize (cfg command)) ->
    lineProtocolLoop command units w = Done w' ->
    len (batchLPBuffer (fsm w')) <= Z.max 0 (BatchSize (cfg command))
    /\ batchPointBuffer (fsm w') = batchPointBuffer (fsm w).
Proof.
  induction units as [|[line|e] rest IH]; intros w w' Hbound; cbn [lineProtocolLoop].
  - intros [= <-]. auto.
  - destruct (lineProtocolStep command line w) as [w1|] eqn:Hstep; [|discriminate].
    apply lineProtocolStep_buffers in Hstep as [HP Hcases].
    intros H. apply IH in H as [H1 H2]; [split; [exact H1|congruence]|].
    destruct Hcases as [->|[[Hlt ->]| ->]]; [exact Hbound| |unfold len; cbn [length]; lia].
    unfold len in *. rewrite length_app. cbn [length]. lia.
  - intros H. apply IH in H; [exact H|exact Hbound].
Qed.


Lemma with_state_same (f : ImportFileFSM) : with_state (state f) f = f.
Proof. destruct f. reflexivity. Qed.

(** A line-protocol file without the data marker [# DML] imports
    nothing: from the Schema state the loop runs to the end, leaves the state
    machine and the registry as they were, and does nothing but execute
    control commands and log. *)
Theorem lineProtocolLoop_schema_only (units : list (ReadResult string)) :
  forall w,
    state (fsm w) = ImportStateDDL ->
    Forall noDataMarker units ->
    exists w' events,
      lineProtocolLoop command units w = Done w'
      /\ fsm w' = fsm w /\ builderEntities w' = builderEntities w
      /\ trace w' = (trace w ++ events)%list /\ Forall isQueryOrSlog events.
Proof.
  induction units as [|u rest IH]; intros w Hstate Hunits; cbn [lineProtocolLoop].
  - exists w, []. rewrite app_nil_r. repeat split. constructor.
  - apply Forall_cons in Hunits as [Hu Hrest].
    assert (Hnext : forall w1 events1,
              fsm w1 = fsm w -> builderEntities w1 = builderEntities w ->
              trace w1 = (trace w ++ events1)%list -> Forall isQueryOrSlog events1 ->
              exists w' events,
                lineProtocolLoop command rest w1 = Done w'
                /\ fsm w' = fsm w /\ builderEntities w' = builderEntities w
                /\ trace w' = (trace w ++ events)%list /\ Forall isQueryOrSlog events).
    { intros w1 events1 Hfsm Hb Htr Hev.
      destruct (IH w1) as (w' & events & Hloop & Hfsm' & Hb' & Htr' & Hev');
        [rewrite Hfsm; exact Hstate|exact Hrest|].
      exists w', (events1 ++ events)%list.
      split; [exact Hloop|]. split; [congruence|]. split; [congruence|].
      split; [rewrite Htr', Htr, app_assoc; reflexivity|].
      apply Forall_app. auto. }
    destruct u as [line|e].
    + cbn in Hu. unfold lineProtocolStep, processLineProtocol. rewrite Hu, Hstate.
      destruct (strings.HasPrefix line ImportTokenDDL).
      { cbn. apply (Hnext _ []); cbn; rewrite ?app_nil_r; try reflexivity;
          [|constructor].
        rewrite <- Hstate. apply with_state_same. }
      destruct (String.eqb (strings.TrimSpace line) "").
      { cbn. apply (Hnext _ []); cbn; rewrite ?app_nil_r; try reflexivity. constructor. }
      destruct (executeDDL_Done (strings.TrimSpace line) w)
        as (r & w2 & -> & Hfsm & Hb & level & msg & attrs & Htr).
      destruct r as [e|].
      * apply (Hnext _ [HttpQuery (strings.TrimSpace line) (Some e); Slog level msg attrs;
                        Slog LevelError "call line protocol fsm function failed"
                          [("reason", LogErr (Some e))]]); cbn;
          [exact Hfsm|exact Hb|rewrite Htr, <- app_assoc; reflexivity|].
        repeat constructor.
      * apply (Hnext _ [HttpQuery (strings.TrimSpace line) None; Slog level msg attrs]);
          [exact Hfsm|exact Hb|exact Htr|]. repeat constructor.
    + apply (Hnext _ [Slog LevelError "read line failed" [("reason", LogErr (Some e))]]);
        cbn; try reflexivity. repeat constructor.
Qed.

Lemma processLineProtocol_payload (line : string) (w : World) :
  state (fsm w) = ImportStateDML ->
  isPayloadLine line = true ->
  processLineProtocol command line w
  = Done (writeLineProtocol command (strings.TrimSpace line), None, w).
Proof.
  intros Hstate Hline.
  unfold isPayloadLine in Hline. apply andb_true_iff in Hline as [Hhash Hblank].
  apply negb_true_iff in Hhash, Hblank.
  unfold processLineProtocol, ImportTokenDDL, ImportTokenDML,
    ImportTokenDatabase, ImportTokenRetentionPolicy.
  rewrite !(not_hash_not_token line _ Hhash), Hstate, Hblank. reflexivity.
Qed.

(** Data lines that fit into the batch are all kept, in order: from the
    Data state with a database set, payload lines that together with the
    buffered ones number at most [BatchSize] are appended, trimmed, to the
    buffer, and nothing is written or logged. *)
Lemma lineProtocolLoop_buffers_all (lines : list string) :
  forall w,
    state (fsm w) = ImportStateDML ->
    database (fsm w) <> "" ->
    Forall (fun line => isPayloadLine line = true) lines ->
    len (batchLPBuffer (fsm w)) + len lines <= BatchSize (cfg command) ->
    lineProtocolLoop command (map ReadOk lines) w
    = Done (on_fsm (with_batchLPBuffer
                      (batchLPBuffer (fsm w) ++ map strings.TrimSpace lines)) w).
Proof.
  induction lines as [|line rest IH]; intros w Hstate Hdb Hlines Hfit.
  - cbn. rewrite app_nil_r. destruct w as [f b t]. destruct f. reflexivity.
  - apply Forall_cons in Hlines as [Hline Hrest].
    cbn [map lineProtocolLoop]. unfold lineProtocolStep.
    rewrite (processLineProtocol_payload line w Hstate Hline).
    unfold writeLineProtocol at 1.
    apply String.eqb_neq in Hdb. rewrite Hdb.
    replace (len (batchLPBuffer (fsm w)) <? BatchSize (cfg command)) with true
      by (symmetry; apply Z.ltb_lt; unfold len in *; cbn [length] in Hfit; lia).
    rewrite IH; cbn; [|exact Hstate|apply String.eqb_neq; exact Hdb|exact Hrest|].
    + rewrite <- app_assoc. reflexivity.
    + unfold len in *. rewrite length_app. cbn [length] in *. lia.
Qed.

(** A line-protocol section that fits into one batch is written once, at
    the end of the stream, as its trimmed lines joined by newlines, in input
    order; the run then finishes without an error. *)
Theorem short_section_written_once (lines : list string) (w : World) :
  state (fsm w) = ImportStateDML ->
  database (fsm w) <> "" ->
  batchLPBuffer (fsm w) = [] ->
  batchPointBuffer (fsm w) = [] ->
  lines <> [] ->
  Forall (fun line => isPayloadLine line = true) lines ->
  len lines <= BatchSize (cfg command) ->
  exists w1 w2 result,
    lineProtocolLoop command (map ReadOk lines) w = Done w1
    /\ trace w1 = trace w
    /\ finish command w1 = Done (None, w2)
    /\ trace w2
       = (trace w
          ++ [HttpWrite (database (fsm w)) (retentionPolicy (fsm w))
                (strings.Join (map strings.TrimSpace lines) LF)
                (Precision (cfg command)) result;
              Slog LevelInfo "process finished"
                [("path", LogStr (Path (cfg command)))]])%list
    /\ batchLPBuffer (fsm w2) = [].
Proof.
  intros Hstate Hdb HLP HP Hne Hlines Hfit.
  eexists _, _, _. split.
  { apply lineProtocolLoop_buffers_all; [exact Hstate|exact Hdb|exact Hlines|].
    rewrite HLP. unfold len in *. cbn [length]. lia. }
  rewrite HLP. cbn [app]. split; [reflexivity|].
  unfold finish, clearBuffer. cbn [fsm on_fsm batchLPBuffer with_batchLPBuffer].
  assert ((len (map strings.TrimSpace lines) =? 0) = false) as ->.
  { unfold len. rewrite length_map. destruct lines; [congruence|reflexivity]. }
  cbn. rewrite HP. cbn. split; [reflexivity|]. split; [|reflexivity].
  unfold slog_Info, emit, on_fsm. cbn [trace]. rewrite <- app_assoc. reflexivity.
Qed.

End LineProtocolFacts.

Lemma index_nat {A} (l : list A) (j : nat) : index l (Z.of_nat j) = l !! j.
Proof.
  unfold index. replace (Z.of_nat j <? 0) with false by (symmetry; apply Z.ltb_ge; lia).
  rewrite Nat2Z.id. reflexivity.
Qed.

Section ResolverSound.

Variable command : ImportCommand.
Variable header : list string.

Lemma scanColumn_resolved idx datum w :
  index header idx = Some datum -> resolved (cfg command) header w ->
  resolved (cfg command) header (scanColumn command idx datum w).
Proof.
  intros Hidx (Htag & Hfield & Htime). unfold scanColumn.
  destruct (tagMap (fsm w) !! datum) eqn:Et;
    [|destruct (fieldMap (fsm w) !! datum) eqn:Ef;
      [|destruct (String.eqb (TimeField (cfg command)) datum) eqn:E]];
    (split; [|split]); cbn; try assumption.
  - intros k fp. destruct (decide (k = datum)) as [->|Hne].
    + rewrite lookup_insert_eq. intros [= <-]. right. auto.
    + rewrite lookup_insert_ne by congruence. apply Htag.
  - intros k fp. destruct (decide (k = datum)) as [->|Hne].
    + rewrite lookup_insert_eq. intros [= <-]. right. auto.
    + rewrite lookup_insert_ne by congruence. apply Hfield.
  - apply String.eqb_eq in E. subst datum. right. auto.
Qed.

Lemma scanHeader_resolved data : forall idx w,
  (forall j d, data !! j = Some d -> index header (idx + Z.of_nat j) = Some d) ->
  resolved (cfg command) header w ->
  resolved (cfg command) header (scanHeader command idx data w).
Proof.
  induction data as [|datum rest IH]; intros idx w Hcols Hres; cbn [scanHeader];
    [exact Hres|].
  apply IH.
  - intros j d Hj. specialize (Hcols (S j) d Hj).
    replace (idx + 1 + Z.of_nat j) with (idx + Z.of_nat (S j)) by lia. exact Hcols.
  - apply scanColumn_resolved; [|exact Hres].
    specialize (Hcols 0%nat datum eq_refl). rewrite Z.add_0_r in Hcols. exact Hcols.
Qed.


Lemma scanHeader_measurement data : forall idx w,
  measurement (fsm (scanHeader command idx data w)) = measurement (fsm w).
Proof.
  induction data as [|datum rest IH]; intros idx w; cbn [scanHeader]; [reflexivity|].
  rewrite IH. unfold scanColumn.
  destruct (tagMap (fsm w) !! datum); [|destruct (fieldMap (fsm w) !! datum);
    [|destruct (String.eqb (TimeField (cfg command)) datum)]]; reflexivity.
Qed.

Lemma resolveHeader_eq (w : World) :
  resolveHeader command header w
  = let w2 := scanHeader command 0 header (contextFromConfig (cfg command) w) in
    match firstUnresolved (fieldMap (fsm w2)) (Fields (cfg command)) with
    | Some field =>
        Done (Some (errors.New ("field name not in csv header " ++ field)), w2)
    | None =>
        match firstUnresolved (tagMap (fsm w2)) (Tags (cfg command)) with
        | Some tag => Done (Some (errors.New ("tag name not in csv header " ++ tag)), w2)
        | None =>
            if String.eqb (Name (timeField (fsm w2))) "" then
              Done (Some (errors.New ("time field name not in csv header "
                                      ++ TimeField (cfg command))), w2)
            else Done (None, slog_Info "parse header success" [] w2)
        end
    end.
Proof. reflexivity. Qed.

Lemma validEntry_named (k : string) (fp : FieldPos) :
  validEntry header k fp -> Name fp <> "" ->
  fp = {| Name := k; Pos := Pos fp |} /\ index header (Pos fp) = Some k.
Proof.
  intros [->|[Hname Hidx]] Hne; [contradiction Hne; reflexivity|].
  split; [destruct fp; cbn in *; congruence|exact Hidx].
Qed.

Lemma contextFromConfig_resolved (w : World) :
  timeField (fsm w) = zeroFieldPos ->
  resolved (cfg command) header (contextFromConfig (cfg command) w).
Proof.
  intros Htime. split; [|split]; cbn.
  - intros k fp. rewrite zeroMap_lookup. destruct (decide _); [|discriminate].
    intros [= <-]. left. reflexivity.
  - intros k fp. rewrite zeroMap_lookup. destruct (decide _); [|discriminate].
    intros [= <-]. left. reflexivity.
  - left. exact Htime.
Qed.

Lemma resolveHeader_positions (w w' : World) :
  timeField (fsm w) = zeroFieldPos ->
  resolveHeader command header w = Done (None, w') ->
  (forall tag, tag ∈ Tags (cfg command) ->
     exists pos, tagMap (fsm w') !! tag = Some {| Name := tag; Pos := pos |}
                 /\ index header pos = Some tag)
  /\ (forall field, field ∈ Fields (cfg command) ->
        exists pos, fieldMap (fsm w') !! field = Some {| Name := field; Pos := pos |}
                    /\ index header pos = Some field)
  /\ (exists pos, timeField (fsm w') = {| Name := TimeField (cfg command); Pos := pos |}
                  /\ index header pos = Some (TimeField (cfg command)))
  /\ database (fsm w') = Database (cfg command)
  /\ retentionPolicy (fsm w') = RetentionPolicy (cfg command)
  /\ measurement (fsm w') = Measurement (cfg command).
Proof.
  intros Htime. rewrite resolveHeader_eq. cbv zeta.
  set (w2 := scanHeader command 0 header (contextFromConfig (cfg command) w)).
  assert (Hres : resolved (cfg command) header w2).
  { apply scanHeader_resolved; [|apply contextFromConfig_resolved; exact Htime].
    intros j d Hj. rewrite Z.add_0_l, index_nat. exact Hj. }
  destruct Hres as (Htag & Hfield & Htm).
  destruct (scanHeader_frame command header 0 (contextFromConfig (cfg command) w))
    as (_ & Hdb & Hrp & _).
  fold w2 in Hdb, Hrp.
  assert (Hmeas : measurement (fsm w2) = Measurement (cfg command)).
  { unfold w2. rewrite scanHeader_measurement. reflexivity. }
  destruct (firstUnresolved (fieldMap (fsm w2)) (Fields (cfg command))) eqn:Hf;
    [discriminate|].
  destruct (firstUnresolved (tagMap (fsm w2)) (Tags (cfg command))) eqn:Ht;
    [discriminate|].
  destruct (String.eqb (Name (timeField (fsm w2))) "") eqn:Hn; [discriminate|].
  intros [= <-]. cbn [fsm slog_Info emit].
  apply String.eqb_neq in Hn.
  assert (Hnamed : forall (m : gmap string FieldPos) (names : list string) (n : string),
            (forall k fp, m !! k = Some fp -> validEntry header k fp) ->
            firstUnresolved m names = None -> n ∈ names ->
            exists pos, m !! n = Some {| Name := n; Pos := pos |}
                        /\ index header pos = Some n).
  { intros m names n Hvalid Hnone Hin.
    pose proof (firstUnresolved_None m names n Hnone Hin) as Hne.
    unfold lookupPos in Hne. destruct (m !! n) as [fp|] eqn:Hm;
      [|contradiction Hne; reflexivity].
    destruct (validEntry_named n fp (Hvalid n fp Hm) Hne) as [Hfp Hidx].
    exists (Pos fp). rewrite <- Hfp. auto. }
  split; [intros tag Hin; exact (Hnamed _ _ tag Htag Ht Hin)|].
  split; [intros field Hin; exact (Hnamed _ _ field Hfield Hf Hin)|].
  split.
  { destruct (validEntry_named _ _ Htm Hn) as [Hfp Hidx]. exists (Pos (timeField (fsm w2))).
    auto. }
  rewrite Hdb, Hrp. cbn. auto.
Qed.


Lemma firstUnresolved_all (m : gmap string FieldPos) (names : list string) :
  (forall n, n ∈ names -> Name (lookupPos m n) <> "") -> firstUnresolved m names = None.
Proof.
  induction names as [|n names IH]; intros H; cbn [firstUnresolved]; [reflexivity|].
  pose proof (H n ltac:(left)) as Hn. apply String.eqb_neq in Hn. rewrite Hn.
  apply IH. intros n' Hin. apply H. right. exact Hin.
Qed.

Lemma resolveHeader_succeeds (w : World) :
  rolesDistinct (cfg command) ->
  (forall n, n ∈ configuredNames (cfg command) -> n ∈ header) ->
  exists w',
    resolveHeader command header w
    = Done (None, slog_Info "parse header success" [] w')
    /\ w' = scanHeader command 0 header (contextFromConfig (cfg command) w).
Proof.
  intros (Hempty & Hroles & Htt & Htf) Hall.
  unfold configuredNames in *.
  rewrite resolveHeader_eq. cbv zeta.
  set (w1 := contextFromConfig (cfg command) w).
  assert (Htag1 : forall k, tagMap (fsm w1) !! k
                            = if decide (k ∈ Tags (cfg command)) then Some zeroFieldPos
                              else None) by (intros k; apply zeroMap_lookup).
  assert (Hfield1 : forall k, fieldMap (fsm w1) !! k
                              = if decide (k ∈ Fields (cfg command)) then Some zeroFieldPos
                                else None) by (intros k; apply zeroMap_lookup).
  rewrite firstUnresolved_all.
  2:{ intros f Hin.
      rewrite (named_Name _ f).
      - intros ->. apply Hempty. rewrite !elem_of_app. auto.
      - apply scanHeader_field.
        + rewrite Htag1. apply decide_False. intros Ht. exact (Hroles _ Ht Hin).
        + rewrite Hfield1, decide_True by exact Hin. eauto.
        + apply Hall. rewrite !elem_of_app. auto. }
  rewrite firstUnresolved_all.
  2:{ intros t Hin.
      rewrite (named_Name _ t).
      - intros ->. apply Hempty. rewrite !elem_of_app. auto.
      - apply scanHeader_tag.
        + rewrite Htag1, decide_True by exact Hin. eauto.
        + apply Hall. rewrite !elem_of_app. auto. }
  rewrite (scanHeader_time command header 0 w1).
  - assert (TimeField (cfg command) <> "") as Hne.
    { intros Heq. apply Hempty. rewrite !elem_of_app, list_elem_of_singleton. auto. }
    apply String.eqb_neq in Hne. rewrite Hne. eauto.
  - rewrite Htag1. apply decide_False. exact Htt.
  - rewrite Hfield1. apply decide_False. exact Htf.
  - apply Hall. rewrite !elem_of_app, list_elem_of_singleton. auto.
Qed.

(** When the Field Resolver succeeds on a header, starting with no time
    position, every configured tag, every configured field and the time
    column has the position of a header column of its own name, and the
    context is the one of the configuration. *)
Theorem resolveHeader_sound (w w' : World) :
  timeField (fsm w) = zeroFieldPos ->
  resolveHeader command header w = Done (None, w') ->
  (forall tag, tag ∈ Tags (cfg command) ->
     exists pos, tagMap (fsm w') !! tag = Some {| Name := tag; Pos := pos |}
                 /\ index header pos = Some tag)
  /\ (forall field, field ∈ Fields (cfg command) ->
        exists pos, fieldMap (fsm w') !! field = Some {| Name := field; Pos := pos |}
                    /\ index header pos = Some field)
  /\ (exists pos, timeField (fsm w') = {| Name := TimeField (cfg command); Pos := pos |}
                  /\ index header pos = Some (TimeField (cfg command)))
  /\ database (fsm w') = Database (cfg command)
  /\ retentionPolicy (fsm w') = RetentionPolicy (cfg command)
  /\ measurement (fsm w') = Measurement (cfg command).
Proof. exact (resolveHeader_positions w w'). Qed.

(** When every configured name is a column of the header, no name is empty
    and no name has two roles, the Field Resolver succeeds, whatever the
    positions held before: it returns no error and its last act is to log
    the success. *)
Theorem resolveHeader_complete (w : World) :
  rolesDistinct (cfg command) ->
  (forall n, n ∈ configuredNames (cfg command) -> n ∈ header) ->
  exists w' earlier,
    resolveHeader command header w = Done (None, w')
    /\ trace w' = (earlier ++ [Slog LevelInfo "parse header success" []])%list.
Proof.
  intros Hroles Hall.
  destruct (resolveHeader_succeeds w Hroles Hall) as (w' & H & _).
  eexists _, _. split; [exact H|reflexivity].
Qed.

End ResolverSound.

(** The tags of a row: one for each entry of the position map, holding the
    row's value at the entry's position. *)
Lemma rowTags_columns (m : gmap string FieldPos) (data : list string) :
  (forall k fp, m !! k = Some fp -> Name fp = k /\ is_Some (index data (Pos fp))) ->
  exists tags, rowTags m data = Some tags /\ forall k, tags !! k = columnOf m data k.
Proof.
  unfold rowTags.
  apply (map_fold_weak_ind
           (fun r m =>
              (forall k fp, m !! k = Some fp -> Name fp = k /\ is_Some (index data (Pos fp))) ->
              exists tags, r = Some tags /\ forall k, tags !! k = columnOf m data k)).
  - intros _. exists ∅. split; [reflexivity|]. intros k. unfold columnOf.
    rewrite !lookup_empty. reflexivity.
  - intros i x m0 r Hnone IH H.
    destruct IH as (tags & -> & Htags).
    { intros k fp Hk. apply H. rewrite lookup_insert_ne; [exact Hk|]. congruence. }
    destruct (H i x (lookup_insert_eq _ _ _)) as [Hname [v Hv]].
    rewrite Hv, Hname. eexists. split; [reflexivity|].
    intros k. unfold columnOf. destruct (decide (k = i)) as [->|Hne].
    + rewrite !lookup_insert_eq. symmetry. exact Hv.
    + rewrite !lookup_insert_ne by congruence. apply Htags.
Qed.

Lemma rowFields_columns (m : gmap string FieldPos) (data : list string) :
  (forall k fp, m !! k = Some fp -> Name fp = k /\ is_Some (index data (Pos fp))) ->
  exists fields,
    rowFields m data = Some fields
    /\ forall k, fields !! k = option_map opengemini.any_string (columnOf m data k).
Proof.
  unfold rowFields.
  apply (map_fold_weak_ind
           (fun r m =>
              (forall k fp, m !! k = Some fp -> Name fp = k /\ is_Some (index data (Pos fp))) ->
              exists fields,
                r = Some fields
                /\ forall k, fields !! k
                             = option_map opengemini.any_string (columnOf m data k))).
  - intros _. exists ∅. split; [reflexivity|]. intros k. unfold columnOf.
    rewrite !lookup_empty. reflexivity.
  - intros i x m0 r Hnone IH H.
    destruct IH as (fields & -> & Hfields).
    { intros k fp Hk. apply H. rewrite lookup_insert_ne; [exact Hk|]. congruence. }
    destruct (H i x (lookup_insert_eq _ _ _)) as [Hname [v Hv]].
    rewrite Hv, Hname. eexists. split; [reflexivity|].
    intros k. unfold columnOf. destruct (decide (k = i)) as [->|Hne].
    + rewrite !lookup_insert_eq, Hv. reflexivity.
    + rewrite !lookup_insert_ne by congruence. apply Hfields.
Qed.

Lemma index_same_length {A B} (l : list A) (l' : list B) (i : Z) (x : A) :
  length l' = length l -> index l i = Some x -> is_Some (index l' i).
Proof.
  unfold index. intros Hlen. destruct (i <? 0); [discriminate|].
  intros H. apply lookup_lt_Some in H. apply lookup_lt_is_Some. lia.
Qed.

Section CsvRows.

Variable command : ImportCommand.

Lemma scanHeader_dom data k : forall idx w,
  (tagMap (fsm (scanHeader command idx data w)) !! k = None
   <-> tagMap (fsm w) !! k = None)
  /\ (fieldMap (fsm (scanHeader command idx data w)) !! k = None
      <-> fieldMap (fsm w) !! k = None).
Proof.
  induction data as [|datum rest IH]; intros idx w; cbn [scanHeader]; [tauto|].
  destruct (IH (idx + 1) (scanColumn command idx datum w)) as [IH1 IH2].
  destruct (scanColumn_dom command idx datum w k) as [H1 H2].
  rewrite IH1, IH2. tauto.
Qed.

Lemma csvStep_header (header : list string) (w : World) :
  state (fsm w) = ImportStateDDL -> header <> [] ->
  csvStep command header w
  = match resolveHeader command header (on_fsm (with_state ImportStateDML) w) with
    | Panic why => Panic why
    | Done (Some err, w) =>
        Done (slog_Error "call csv line fsm function failed"
                [("reason", LogErr (Some err))] w)
    | Done (None, w) => Done w
    end.
Proof.
  intros Hstate Hne. unfold csvStep, processCSV.
  destruct header; [congruence|]. rewrite Hstate. reflexivity.
Qed.

Lemma csvStep_row (row : list string) (w : World) :
  state (fsm w) = ImportStateDML -> row <> [] ->
  csvStep command row w
  = match writeCSV command row w with
    | Panic why => Panic why
    | Done (Some err, w) =>
        Done (slog_Error "call csv line fsm function failed"
                [("reason", LogErr (Some err))] w)
    | Done (None, w) => Done w
    end.
Proof.
  intros Hstate Hne. unfold csvStep, processCSV.
  destruct row; [congruence|]. rewrite Hstate. reflexivity.
Qed.

(** The point built from a row whose positions are all named and in range. *)
Lemma writeCSV_point_aux (data : list string) (w : World) :
  database (fsm w) <> "" ->
  Measurement (cfg command) <> "" ->
  Fields (cfg command) <> [] ->
  fieldMap (fsm w) <> ∅ ->
  len (batchLPBuffer (fsm w)) < BatchSize (cfg command) ->
  (forall k fp, tagMap (fsm w) !! k = Some fp ->
     Name fp = k /\ is_Some (index data (Pos fp))) ->
  (forall k fp, fieldMap (fsm w) !! k = Some fp ->
     Name fp = k /\ is_Some (index data (Pos fp))) ->
  is_Some (index data (Pos (timeField (fsm w)))) ->
  exists point w',
    writeCSV command data w = Done (None, w')
    /\ batchPointBuffer (fsm w') = (batchPointBuffer (fsm w) ++ [point])%list
    /\ batchLPBuffer (fsm w') = batchLPBuffer (fsm w)
    /\ trace w' = trace w
    /\ opengemini.Measurement point = Measurement (cfg command)
    /\ (forall k, opengemini.Tags point !! k = columnOf (tagMap (fsm w)) data k)
    /\ (forall k, opengemini.Fields point !! k
                  = option_map opengemini.any_string (columnOf (fieldMap (fsm w)) data k))
    /\ Some (opengemini.Timestamp point)
       = option_map StringToInt64 (index data (Pos (timeField (fsm w)))).
Proof.
  intros Hdb Hm Hf Hfm Hlen Htags Hfields [time Htime].
  destruct (rowTags_columns _ data Htags) as (tags & Hrt & Htagsv).
  destruct (rowFields_columns _ data Hfields) as (fields & Hrf & Hfieldsv).
  unfold writeCSV.
  apply String.eqb_neq in Hdb, Hm. rewrite Hdb.
  set (w1 := if String.eqb (retentionPolicy (fsm w)) "" then _ else w).
  assert (Hw1 : tagMap (fsm w1) = tagMap (fsm w) /\ fieldMap (fsm w1) = fieldMap (fsm w)
                /\ timeField (fsm w1) = timeField (fsm w)
                /\ batchLPBuffer (fsm w1) = batchLPBuffer (fsm w)
                /\ batchPointBuffer (fsm w1) = batchPointBuffer (fsm w)
                /\ trace w1 = trace w).
  { subst w1. destruct (String.eqb (retentionPolicy (fsm w)) "");
      repeat (split; try reflexivity). }
  destruct Hw1 as (-> & -> & -> & HLP & HP & Htr). rewrite HLP, Hm.
  assert ((len (Fields (cfg command)) =? 0) = false) as ->.
  { unfold len. destruct (Fields (cfg command)); [congruence|reflexivity]. }
  assert ((Z.of_nat (size (fieldMap (fsm w))) =? 0) = false) as ->.
  { apply Z.eqb_neq. intros H. apply Hfm, map_size_empty_iff. lia. }
  apply Z.ltb_lt in Hlen. rewrite Hlen. cbn [orb].
  rewrite Htime, Hrt, Hrf.
  eexists _, _. split; [reflexivity|]. cbn. rewrite HP, HLP, Htr. auto 10.
Qed.



(** A header that holds every configured name, followed by a row of the
    same length: the row becomes one buffered point of the configured
    measurement; each configured tag and field has the row's value in a
    column that the header gives its name, no other key is present, and the
    timestamp is read from a column named as the time column.  Nothing is
    written yet. *)
Theorem csv_header_then_row (w : World) (header row : list string) :
  fsm w = newImportFileFSM ->
  header <> [] ->
  length row = length header ->
  rolesDistinct (cfg command) ->
  (forall n, n ∈ configuredNames (cfg command) -> n ∈ header) ->
  Database (cfg command) <> "" ->
  Measurement (cfg command) <> "" ->
  Fields (cfg command) <> [] ->
  0 < BatchSize (cfg command) ->
  exists w' point logs,
    csvLoop command [ReadOk header; ReadOk row] w = Done w'
    /\ batchPointBuffer (fsm w') = [point]
    /\ trace w' = (trace w ++ logs)%list /\ Forall isSlog logs
    /\ opengemini.Measurement point = Measurement (cfg command)
    /\ (forall tag, tag ∈ Tags (cfg command) ->
          exists pos, index header pos = Some tag
                      /\ opengemini.Tags point !! tag = index row pos)
    /\ (forall k, k ∉ Tags (cfg command) -> opengemini.Tags point !! k = None)
    /\ (forall field, field ∈ Fields (cfg command) ->
          exists pos, index header pos = Some field
                      /\ opengemini.Fields point !! field
                         = option_map opengemini.any_string (index row pos))
    /\ (forall k, k ∉ Fields (cfg command) -> opengemini.Fields point !! k = None)
    /\ (exists pos time,
          index header pos = Some (TimeField (cfg command))
          /\ index row pos = Some time
          /\ opengemini.Timestamp point = StringToInt64 time).
Proof.
  intros Hfresh Hheader Hlen Hroles Hall Hdb Hm Hf Hbatch.
  set (w0 := on_fsm (with_state ImportStateDML) w).
  set (w2 := scanHeader command 0 header (contextFromConfig (cfg command) w0)).
  set (w3 := slog_Info "parse header success" [] w2).
  assert (Htime0 : timeField (fsm w0) = zeroFieldPos) by (cbn; rewrite Hfresh; reflexivity).
  destruct (resolveHeader_succeeds command header w0 Hroles Hall) as (w2' & Hres & ->).
  fold w2 w3 in Hres.
  destruct (resolveHeader_positions command header w0 w3 Htime0 Hres)
    as (Htags & Hfields & (tpos & Htf & Htidx) & Hdb3 & Hrp3 & Hm3).
  destruct (scanHeader_frame command header 0 (contextFromConfig (cfg command) w0))
    as (Hst & _ & _ & HLP & HP & _ & logs & Htr & Hlogs).
  fold w2 in Hst, HLP, HP, Htr.
  assert (Hdom : forall k,
            (tagMap (fsm w3) !! k = None <-> k ∉ Tags (cfg command))
            /\ (fieldMap (fsm w3) !! k = None <-> k ∉ Fields (cfg command))).
  { intros k.
    destruct (scanHeader_dom header k 0 (contextFromConfig (cfg command) w0)) as [H1 H2].
    fold w2 in H1, H2. change (fsm w3) with (fsm w2). rewrite H1, H2. cbn.
    rewrite !zeroMap_lookup.
    split; split; destruct (decide _); try tauto; try discriminate. }
  assert (Hnamed_t : forall k fp, tagMap (fsm w3) !! k = Some fp ->
            Name fp = k /\ is_Some (index row (Pos fp))).
  { intros k fp Hk.
    destruct (decide (k ∈ Tags (cfg command))) as [Hin|Hnin].
    - destruct (Htags k Hin) as (pos & Hpos & Hidx). rewrite Hpos in Hk.
      injection Hk as <-. split; [reflexivity|].
      exact (index_same_length _ _ _ _ Hlen Hidx).
    - apply (proj1 (Hdom k)) in Hnin. congruence. }
  assert (Hnamed_f : forall k fp, fieldMap (fsm w3) !! k = Some fp ->
            Name fp = k /\ is_Some (index row (Pos fp))).
  { intros k fp Hk.
    destruct (decide (k ∈ Fields (cfg command))) as [Hin|Hnin].
    - destruct (Hfields k Hin) as (pos & Hpos & Hidx). rewrite Hpos in Hk.
      injection Hk as <-. split; [reflexivity|].
      exact (index_same_length _ _ _ _ Hlen Hidx).
    - apply (proj2 (Hdom k)) in Hnin. congruence. }
  destruct (writeCSV_point_aux row w3) as (point & w4 & Hcall & HP4 & _ & Htr4 & Hpm & Hpt & Hpf & Hpts).
  { rewrite Hdb3. exact Hdb. }
  { exact Hm. }
  { exact Hf. }
  { destruct (Fields (cfg command)) as [|f fs] eqn:Ef; [congruence|].
    destruct (Hfields f ltac:(left)) as (pos & Hpos & _).
    intros Hemp. rewrite Hemp, lookup_empty in Hpos. discriminate. }
  { change (fsm w3) with (fsm w2). rewrite HLP. cbn. rewrite Hfresh. cbn. exact Hbatch. }
  { exact Hnamed_t. }
  { exact Hnamed_f. }
  { rewrite Htf. cbn. exact (index_same_length _ _ _ _ Hlen Htidx). }
  assert (Hlogs3 : trace w3
                   = (trace w ++ (logs ++ [Slog LevelInfo "parse header success" []]))%list).
  { unfold w3, slog_Info, emit. cbn [trace]. rewrite Htr, <- app_assoc. reflexivity. }
  exists w4, point, (logs ++ [Slog LevelInfo "parse header success" []])%list.
  split.
  { cbn [csvLoop].
    rewrite (csvStep_header header w) by (rewrite ?Hfresh; auto).
    fold w0. rewrite Hres.
    rewrite (csvStep_row row w3), Hcall; [reflexivity| |].
    - change (fsm w3) with (fsm w2). rewrite Hst. reflexivity.
    - intros ->. destruct header; [congruence|discriminate]. }
  split.
  { rewrite HP4. change (fsm w3) with (fsm w2). rewrite HP. cbn. rewrite Hfresh. reflexivity. }
  split; [rewrite Htr4; exact Hlogs3|].
  split; [apply Forall_app; split; [exact Hlogs|repeat constructor]|].
  split; [exact Hpm|].
  split.
  { intros tag Hin. destruct (Htags tag Hin) as (pos & Hpos & Hidx).
    exists pos. split; [exact Hidx|]. rewrite Hpt. unfold columnOf. rewrite Hpos. reflexivity. }
  split.
  { intros k Hnin. rewrite Hpt. unfold columnOf.
    rewrite (proj2 (proj1 (Hdom k)) Hnin). reflexivity. }
  split.
  { intros field Hin. destruct (Hfields field Hin) as (pos & Hpos & Hidx).
    exists pos. split; [exact Hidx|]. rewrite Hpf. unfold columnOf. rewrite Hpos. reflexivity. }
  split.
  { intros k Hnin. rewrite Hpf. unfold columnOf.
    rewrite (proj2 (proj2 (Hdom k)) Hnin). reflexivity. }
  rewrite Htf in Hpts. cbn [Pos] in Hpts.
  destruct (index row tpos) as [time|] eqn:Hrow; [|discriminate].
  exists tpos, time. injection Hpts as ->. auto.
Qed.

End CsvRows.

Section FlushMore.

Variable command : ImportCommand.

Lemma recordLinesOf_rows (points : list opengemini.Point) :
  forall recordBuilder recordLines lines,
    (forall k rb, recordBuilder !! k = Some rb ->
       NewRecordBuilder (collab command) k = (Some rb, None)) ->
    recordLinesOf command points recordBuilder recordLines = Done (None, lines) ->
    exists rows,
      lines = (recordLines ++ rows)%list
      /\ Forall2 (fun point row =>
                    exists rb,
                      NewRecordBuilder (collab command) (opengemini.Measurement point)
                      = (Some rb, None)
                      /\ row = NewLine rb point) points rows.
Proof.
  induction points as [|point rest IH]; intros recordBuilder recordLines lines Hmap;
    cbn [recordLinesOf].
  - intros [= <-]. exists []. rewrite app_nil_r. split; [reflexivity|constructor].
  - destruct (recordBuilder !! opengemini.Measurement point) as [rb|] eqn:Hrb.
    + intros H. apply IH in H as (rows & -> & Hrows); [|exact Hmap].
      exists (NewLine rb point :: rows). rewrite <- app_assoc. split; [reflexivity|].
      constructor; [|exact Hrows]. exists rb. split; [apply Hmap; exact Hrb|reflexivity].
    + destruct (NewRecordBuilder (collab command) (opengemini.Measurement point))
        as [[rb|] [e|]] eqn:Hnew; try discriminate.
      intros H. apply IH in H as (rows & -> & Hrows).
      * exists (NewLine rb point :: rows). rewrite <- app_assoc. split; [reflexivity|].
        constructor; [|exact Hrows]. exists rb. split; [exact Hnew|reflexivity].
      * intros k rb' Hk. destruct (decide (k = opengemini.Measurement point)) as [->|Hne].
        -- rewrite lookup_insert_eq in Hk. injection Hk as <-. exact Hnew.
        -- rewrite lookup_insert_ne in Hk by congruence. apply Hmap. exact Hk.
Qed.

(** The rows of a threshold flush: when the loop over the points ends
    without an error, it has built one row per point, in the order of the
    points, each with the tags, the fields and the timestamp of its point
    and made by the record builder of the point's measurement. *)
Theorem recordLinesOf_one_row_per_point (points : list opengemini.Point)
    (lines : list opengemini.RecordLine) :
  recordLinesOf command points ∅ [] = Done (None, lines) ->
  Forall2 (fun point row =>
             opengemini.line_tags row = opengemini.Tags point
             /\ opengemini.line_fields row = opengemini.Fields point
             /\ opengemini.line_timestamp row = opengemini.Timestamp point
             /\ exists rb,
                  NewRecordBuilder (collab command) (opengemini.Measurement point)
                  = (Some rb, None)
                  /\ opengemini.line_measurement row = opengemini.rb_measurement rb)
    points lines.
Proof.
  intros H. apply recordLinesOf_rows in H as (rows & -> & Hrows).
  - cbn [app]. induction Hrows as [|point row points rows (rb & Hnew & ->) _ IH];
      constructor; [|exact IH].
    cbn. repeat split. exists rb. auto.
  - intros k rb. rewrite lookup_empty. discriminate.
Qed.

(** The registry of request builders: the builder found or created for
    the current [database.retentionPolicy] is registered under that name,
    every other name keeps its builder, and asking again returns the same
    builder and changes nothing. *)
Theorem builderFor_registers (w w1 : World) (b : option opengemini.WriteRequestBuilder) :
  builderFor command w = inr (b, w1) ->
  builderEntities w1 !! (database (fsm w) ++ "." ++ retentionPolicy (fsm w)) = Some b
  /\ (forall name,
        name <> database (fsm w) ++ "." ++ retentionPolicy (fsm w) ->
        builderEntities w1 !! name = builderEntities w !! name)
  /\ builderFor command w1 = inr (b, w1).
Proof.
  unfold builderFor.
  destruct (builderEntities w !! _) as [b0|] eqn:Hb.
  - intros [= <- <-]. rewrite Hb. auto.
  - destruct (NewWriteRequestBuilder _ _ _) as [b0 [e|]]; [discriminate|].
    intros [= <- <-]. cbn. rewrite lookup_insert_eq.
    split; [reflexivity|]. split; [|reflexivity].
    intros name Hne. apply lookup_insert_ne. congruence.
Qed.

Lemma finish_Done (w : World) (r : option error) (w' : World) :
  finish command w = Done (r, w') ->
  r = None
  /\ exists earlier,
       trace w' = (earlier ++ [Slog LevelInfo "process finished"
                                 [("path", LogStr (Path (cfg command)))]])%list.
Proof.
  unfold finish. destruct (clearBuffer command w) as [[err w1]|]; [|discriminate].
  intros [= <- <-]. split; [reflexivity|]. eexists. reflexivity.
Qed.

(** The driver returns an error in two cases only: the file could not
    be opened, or the format is neither [line_protocol] nor [csv]; in both
    nothing is read or written.  Otherwise a run that ends returns no error,
    whatever happened to its units, and its last act is to log that the
    process finished. *)
Theorem process_errors (opened : error + File) (w w' : World) (r : option error) :
  process command opened w = Done (r, w') ->
  (exists e,
     opened = inl e /\ r = Some e
     /\ w' = slog_Error "open file failed"
               [("file", LogStr (Path (cfg command))); ("reason", LogErr (Some e))] w)
  \/ (Format (cfg command) <> ImportFormatLineProtocol
      /\ Format (cfg command) <> ImportFormatCSV
      /\ r = Some (errorString ("unknown --format " ++ Format (cfg command)
                                ++ ", only support line_protocol,csv"))
      /\ w' = w)
  \/ ((Format (cfg command) = ImportFormatLineProtocol
       \/ Format (cfg command) = ImportFormatCSV)
      /\ r = None
      /\ exists earlier,
           trace w' = (earlier ++ [Slog LevelInfo "process finished"
                                     [("path", LogStr (Path (cfg command)))]])%list).
Proof.
  unfold process. destruct opened as [e|file].
  - intros [= <- <-]. left. eauto.
  - destruct (String.eqb (Format (cfg command)) ImportFormatLineProtocol) eqn:ELP.
    { apply String.eqb_eq in ELP.
      destruct (lineProtocolLoop _ _ _); [|discriminate].
      intros H. apply finish_Done in H as [-> Hlast]. right. right. auto. }
    destruct (String.eqb (Format (cfg command)) ImportFormatCSV) eqn:ECSV.
    { apply String.eqb_eq in ECSV.
      destruct (csvLoop _ _ _); [|discriminate].
      intros H. apply finish_Done in H as [-> Hlast]. right. right. auto. }
    apply String.eqb_neq in ELP, ECSV.
    intros [= <- <-]. right. left. auto.
Qed.

End FlushMore.

Section CsvContext.

Variable command : ImportCommand.

Lemma writeCSV_context (data : list string) (w w' : World) (r : option error) :
  writeCSV command data w = Done (r, w') -> sameResolution (fsm w) (fsm w').
Proof.
  unfold writeCSV, sameResolution.
  destruct (String.eqb (database (fsm w)) ""); [intros [= <- <-]; auto 10|].
  set (w1 := if String.eqb (retentionPolicy (fsm w)) "" then _ else w).
  assert (Hw1 : sameResolution (fsm w) (fsm w1)).
  { subst w1. unfold sameResolution.
    destruct (String.eqb (retentionPolicy (fsm w)) ""); cbn; auto 10. }
  unfold sameResolution in Hw1.
  destruct (String.eqb (Measurement (cfg command)) ""); [intros [= <- <-]; exact Hw1|].
  destruct (_ || _); [intros [= <- <-]; exact Hw1|].
  destruct (len (batchLPBuffer (fsm w1)) <? BatchSize (cfg command)).
  { destruct (index _ _); [|discriminate].
    destruct (rowTags _ _); [|discriminate].
    destruct (rowFields _ _); [|discriminate].
    intros [= <- <-]. exact Hw1. }
  intros H. apply defer_Done in H as (w0 & H & ->).
  assert (fsm w0 = fsm w1) as Hfsm.
  { destruct (builderFor command w1) as [err|[b w2]] eqn:Hb; [congruence|].
    apply builderFor_inr in Hb as [Hfsm _].
    apply sendRecords_fsm in H. congruence. }
  cbn. rewrite Hfsm. exact Hw1.
Qed.

(** After the header, the data rows of a CSV run never change what the
    header resolved: through any number of rows the state stays Data, and
    the database, the measurement, the two position maps, the time position
    and the line buffer are what they were. *)
Theorem csvLoop_keeps_resolution (units : list (ReadResult (list string))) :
  forall w w',
    state (fsm w) = ImportStateDML ->
    csvLoop command units w = Done w' ->
    sameResolution (fsm w) (fsm w').
Proof.
  induction units as [|[row|e] rest IH]; intros w w' Hstate; cbn [csvLoop].
  - intros [= <-]. unfold sameResolution. auto 10.
  - destruct (csvStep command row w) as [w1|] eqn:Hstep; [|discriminate].
    assert (Hsame : sameResolution (fsm w) (fsm w1)).
    { unfold csvStep, processCSV in Hstep.
      destruct (len row =? 0).
      { injection Hstep as <-. unfold sameResolution. auto 10. }
      rewrite Hstate in Hstep.
      destruct (writeCSV command row w) as [[r w2]|] eqn:Hcall; [|discriminate].
      apply writeCSV_context in Hcall.
      destruct r; injection Hstep as <-; exact Hcall. }
    intros H. apply IH in H.
    + unfold sameResolution in *. intuition congruence.
    + unfold sameResolution in Hsame. destruct Hsame as (Hs & _). congruence.
  - intros H. apply IH in H; [exact H|exact Hstate].
Qed.

End CsvContext.

(** ** The further properties on concrete inputs *)

Lemma Demo_rolesDistinct (format : string) (columnWrite : bool) (batchSize : Z) :
  rolesDistinct (Demo.config format columnWrite batchSize).
Proof.
  unfold rolesDistinct, configuredNames. cbn [Tags Fields TimeField Demo.config app].
  split; [apply (bool_decide_unpack _); vm_compute; exact I|].
  split.
  { intros n Hn. apply list_elem_of_singleton in Hn as ->.
    apply (bool_decide_unpack _). vm_compute. exact I. }
  split; apply (bool_decide_unpack _); vm_compute; exact I.
Qed.

Lemma Demo_names_in_header (format : string) (columnWrite : bool) (batchSize : Z) :
  forall n,
    n ∈ configuredNames (Demo.config format columnWrite batchSize) ->
    n ∈ ["time"; "host"; "value"].
Proof.
  intros n Hn. unfold configuredNames in Hn.
  cbn [Tags Fields TimeField Demo.config app] in Hn.
  repeat (apply elem_of_cons in Hn as [->|Hn];
          [apply (bool_decide_unpack _); vm_compute; exact I|]).
  inversion Hn.
Qed.

Lemma StringToInt64_decimal_witness : StringToInt64 (fmt.d (-42)) = -42.
Proof. apply (StringToInt64_decimal (-42)). vm_compute. split; discriminate. Defined.

Lemma lineProtocolLoop_buffer_bound_witness :
  match lineProtocolLoop (Demo.lp 2)
          [ReadOk (Demo.line "cpu,host=a value=1 1");
           ReadOk (Demo.line "cpu,host=b value=2 2");
           ReadOk (Demo.line "cpu,host=c value=3 3");
           ReadOk (Demo.line "cpu,host=d value=4 4")]
          (DemoWorlds.dataWorld "db0" [] []) with
  | Done w' => len (batchLPBuffer (fsm w')) <= 2 /\ batchPointBuffer (fsm w') = []
  | Panic _ => True
  end.
Proof.
  destruct (lineProtocolLoop _ _ _) as [w'|] eqn:H; [|exact I].
  apply (lineProtocolLoop_buffer_bound (Demo.lp 2) _ _ w') in H; [exact H|].
  vm_compute. discriminate.
Defined.

Lemma lineProtocolLoop_schema_only_witness :
  exists w' events,
    lineProtocolLoop (Demo.lp 10)
      [ReadOk (Demo.line "CREATE DATABASE db0");
       ReadOk (Demo.line "cpu,host=a value=1 1")] initialWorld
    = Done w'
    /\ fsm w' = newImportFileFSM /\ Forall isQueryOrSlog events
    /\ trace w' = events.
Proof.
  destruct (lineProtocolLoop_schema_only (Demo.lp 10)
              [ReadOk (Demo.line "CREATE DATABASE db0");
               ReadOk (Demo.line "cpu,host=a value=1 1")] initialWorld)
    as (w' & events & H & Hfsm & _ & Htr & Hev).
  - reflexivity.
  - repeat constructor.
  - exists w', events. auto.
Defined.

Lemma short_section_written_once_witness :
  exists w1 w2 result,
    lineProtocolLoop (Demo.lp 10)
      (map ReadOk [Demo.line "cpu,host=a value=1 1"; Demo.line "cpu,host=b value=2 2"])
      (DemoWorlds.dataWorld "db0" [] [])
    = Done w1
    /\ finish (Demo.lp 10) w1 = Done (None, w2)
    /\ trace w2
       = [HttpWrite "db0" "autogen"
            ("cpu,host=a value=1 1" ++ LF ++ "cpu,host=b value=2 2") "ns" result;
          Slog LevelInfo "process finished" [("path", LogStr "data.txt")]].
Proof.
  destruct (short_section_written_once (Demo.lp 10)
              [Demo.line "cpu,host=a value=1 1"; Demo.line "cpu,host=b value=2 2"]
              (DemoWorlds.dataWorld "db0" [] []))
    as (w1 & w2 & result & H1 & _ & H2 & H3 & _).
  - reflexivity.
  - discriminate.
  - reflexivity.
  - reflexivity.
  - discriminate.
  - repeat constructor.
  - vm_compute. discriminate.
  - exists w1, w2, result. auto.
Defined.

Lemma resolveHeader_sound_witness :
  match resolveHeader (Demo.csv 10 0) ["time"; "host"; "value"]
          (on_fsm (with_state ImportStateDML) initialWorld) with
  | Done (None, w') =>
      exists pos,
        tagMap (fsm w') !! "host" = Some {| Name := "host"; Pos := pos |}
        /\ index ["time"; "host"; "value"] pos = Some "host"
  | _ => False
  end.
Proof.
  destruct (resolveHeader _ _ _) as [[[e|] w']|] eqn:H;
    [vm_compute in H; discriminate H| |vm_compute in H; discriminate H].
  destruct (resolveHeader_sound (Demo.csv 10 0) ["time"; "host"; "value"]
              (on_fsm (with_state ImportStateDML) initialWorld) w' eq_refl H)
    as (Htags & _).
  apply Htags. left.
Defined.

Lemma resolveHeader_complete_witness :
  exists w' earlier,
    resolveHeader (Demo.csv 10 0) ["time"; "host"; "value"] initialWorld = Done (None, w')
    /\ trace w' = (earlier ++ [Slog LevelInfo "parse header success" []])%list.
Proof.
  apply (resolveHeader_complete (Demo.csv 10 0) ["time"; "host"; "value"] initialWorld).
  - apply Demo_rolesDistinct.
  - apply Demo_names_in_header.
Defined.


Lemma csv_header_then_row_witness :
  exists w' point,
    csvLoop (Demo.csv 10 0)
      [ReadOk ["time"; "host"; "value"]; ReadOk ["100"; "serverA"; "42"]] initialWorld
    = Done w'
    /\ batchPointBuffer (fsm w') = [point]
    /\ opengemini.Measurement point = "cpu".
Proof.
  destruct (csv_header_then_row (Demo.csv 10 0) initialWorld
              ["time"; "host"; "value"] ["100"; "serverA"; "42"])
    as (w' & point & logs & H & HP & _ & _ & Hm & _).
  - reflexivity.
  - discriminate.
  - reflexivity.
  - apply Demo_rolesDistinct.
  - apply Demo_names_in_header.
  - discriminate.
  - discriminate.
  - discriminate.
  - reflexivity.
  - exists w', point. auto.
Defined.

Lemma recordLinesOf_one_row_per_point_witness :
  exists lines,
    recordLinesOf (Demo.csv 10 0)
      [DemoWorlds.point "serverA" "1" 100; DemoWorlds.point "serverB" "2" 200] ∅ []
    = Done (None, lines)
    /\ length lines = 2%nat.
Proof.
  eexists. split; [reflexivity|].
  pose proof (recordLinesOf_one_row_per_point (Demo.csv 10 0)
                [DemoWorlds.point "serverA" "1" 100; DemoWorlds.point "serverB" "2" 200]
                _ eq_refl) as H.
  apply Forall2_length in H. symmetry. exact H.
Defined.

Lemma builderFor_registers_witness :
  exists b w1,
    builderFor (Demo.csv 10 0) (DemoWorlds.dataWorld "db0" [] []) = inr (b, w1)
    /\ builderEntities w1 !! "db0.autogen" = Some b
    /\ builderFor (Demo.csv 10 0) w1 = inr (b, w1).
Proof.
  eexists _, _. split; [reflexivity|].
  destruct (builderFor_registers (Demo.csv 10 0) (DemoWorlds.dataWorld "db0" [] [])
              _ _ eq_refl) as (H1 & _ & H2).
  split; [exact H1|exact H2].
Defined.

Lemma process_errors_witness :
  match process (Demo.lp 10) (inr Demo.scenario1) initialWorld with
  | Done (r, w') =>
      r = None
      /\ exists earlier,
           trace w' = (earlier ++ [Slog LevelInfo "process finished"
                                     [("path", LogStr "data.txt")]])%list
  | Panic _ => True
  end.
Proof.
  destruct (process _ _ _) as [[r w']|] eqn:H; [|exact I].
  destruct (process_errors (Demo.lp 10) _ _ _ _ H)
    as [(e & He & _)|[(Hf & _)|(_ & Hr & Hlast)]].
  - discriminate He.
  - contradiction Hf. reflexivity.
  - split; [exact Hr|exact Hlast].
Defined.

Lemma csvLoop_keeps_resolution_witness :
  match csvLoop (Demo.csv 10 0)
          [ReadOk ["100"; "serverA"; "42"]; ReadOk ["200"; "serverB"; "43"]]
          (DemoWorlds.dataWorld "db0" [] []) with
  | Done w' =>
      tagMap (fsm w') = {["host" := {| Name := "host"; Pos := 1 |}]}
      /\ batchLPBuffer (fsm w') = []
  | Panic _ => True
  end.
Proof.
  destruct (csvLoop _ _ _) as [w'|] eqn:H; [|exact I].
  apply (csvLoop_keeps_resolution (Demo.csv 10 0)) in H; [|reflexivity].
  destruct H as (_ & _ & _ & Ht & _ & _ & HLP). split; [exact Ht|exact HLP].
Defined.

(** * Properties of the set-up *)

(** A certificate manager that could be made has a pool exactly when a CA
    file was named, made from the text of that file, and a key pair exactly
    when both the certificate and the key were named; a certificate named
    without its key, or a key without its certificate, is passed over
    without an error.  Only the files that were named are read, the CA file
    first. *)
Theorem NewCertificateManager_made (P : Platform) (ca certificate certificateKey : string)
    (cm : core.CertificateManager) (events : list SetupEvent) :
  core.NewCertificateManager P ca certificate certificateKey = (inr cm, events) ->
  (core.CAPool cm = None <-> ca = "")
  /\ (forall content, core.CAPool cm = Some content ->
        os_ReadFile P ca = inr content /\ AppendCertsFromPEM P content = true)
  /\ (core.Certificate cm = None <-> certificate = "" \/ certificateKey = "")
  /\ (forall keyPair, core.Certificate cm = Some keyPair ->
        tls_LoadX509KeyPair P certificate certificateKey = inr keyPair)
  /\ events
     = ((if String.eqb ca "" then [] else [ReadFile ca])
        ++ (if String.eqb certificate "" || String.eqb certificateKey "" then []
            else [LoadX509KeyPair certificate certificateKey]))%list.
Proof.
  unfold core.NewCertificateManager.
  destruct (String.eqb ca "") eqn:Eca; cbn [negb];
    [apply String.eqb_eq in Eca|apply String.eqb_neq in Eca].
  - destruct (String.eqb certificate "") eqn:Ec; cbn [negb andb orb];
      [apply String.eqb_eq in Ec|apply String.eqb_neq in Ec].
    + intros [= <- <-]. cbn. repeat split; auto; try discriminate.
    + destruct (String.eqb certificateKey "") eqn:Ek; cbn [negb andb orb];
        [apply String.eqb_eq in Ek|apply String.eqb_neq in Ek].
      * intros [= <- <-]. cbn. repeat split; auto; try discriminate.
      * destruct (tls_LoadX509KeyPair P certificate certificateKey) eqn:EL; [discriminate|].
        intros [= <- <-]. cbn. repeat split; auto; try discriminate.
        -- intros [?|?]; contradiction.
        -- intros kp [= <-]. reflexivity.
  - destruct (os_ReadFile P ca) as [e|content] eqn:ER; [discriminate|].
    destruct (AppendCertsFromPEM P content) eqn:EA; [|discriminate].
    destruct (String.eqb certificate "") eqn:Ec; cbn [negb andb orb];
      [apply String.eqb_eq in Ec|apply String.eqb_neq in Ec].
    + intros [= <- <-]. cbn. repeat split; auto; try discriminate; try congruence.
    + destruct (String.eqb certificateKey "") eqn:Ek; cbn [negb andb orb];
        [apply String.eqb_eq in Ek|apply String.eqb_neq in Ek].
      * intros [= <- <-]. cbn. repeat split; auto; try discriminate; try congruence.
      * destruct (tls_LoadX509KeyPair P certificate certificateKey) eqn:EL; [discriminate|].
        intros [= <- <-]. cbn. repeat split; auto; try discriminate; try congruence.
        intros [?|?]; contradiction.
Qed.

(** A certificate manager fails in three ways only: the CA file cannot be
    read, its text holds no certificate, or the key pair cannot be loaded.
    The CA file comes first: when it fails the key pair is not touched. *)
Theorem NewCertificateManager_failure (P : Platform) (ca certificate certificateKey : string)
    (err : error) (events : list SetupEvent) :
  core.NewCertificateManager P ca certificate certificateKey = (inl err, events) ->
  (ca <> "" /\ events = [ReadFile ca]
   /\ (os_ReadFile P ca = inl err
       \/ exists content,
            os_ReadFile P ca = inr content /\ AppendCertsFromPEM P content = false
            /\ err = errorString "failed to parse ca certificate"))
  \/ (certificate <> "" /\ certificateKey <> ""
      /\ tls_LoadX509KeyPair P certificate certificateKey = inl err
      /\ (ca = "" \/ exists content,
            os_ReadFile P ca = inr content /\ AppendCertsFromPEM P content = true)
      /\ events
         = ((if String.eqb ca "" then [] else [ReadFile ca])
            ++ [LoadX509KeyPair certificate certificateKey])%list).
Proof.
  unfold core.NewCertificateManager.
  destruct (String.eqb ca "") eqn:Eca; cbn [negb];
    [apply String.eqb_eq in Eca|apply String.eqb_neq in Eca].
  - destruct (String.eqb certificate "") eqn:Ec; cbn [negb andb]; [discriminate|].
    destruct (String.eqb certificateKey "") eqn:Ek; cbn [negb andb]; [discriminate|].
    apply String.eqb_neq in Ec, Ek.
    destruct (tls_LoadX509KeyPair P certificate certificateKey) eqn:EL; [|discriminate].
    intros [= <- <-]. right. repeat split; auto.
  - destruct (os_ReadFile P ca) as [e|content] eqn:ER.
    { intros [= <- <-]. left. auto. }
    destruct (AppendCertsFromPEM P content) eqn:EA.
    2:{ intros [= <- <-]. left. repeat split; auto. right. exists content. auto. }
    destruct (String.eqb certificate "") eqn:Ec; cbn [negb andb]; [discriminate|].
    destruct (String.eqb certificateKey "") eqn:Ek; cbn [negb andb]; [discriminate|].
    apply String.eqb_neq in Ec, Ek.
    destruct (tls_LoadX509KeyPair P certificate certificateKey) eqn:EL; [|discriminate].
    intros [= <- <-]. right. repeat split; auto. right. exists content. auto.
Qed.

Lemma wrap64_small (z : Z) : - 2 ^ 63 <= z < 2 ^ 63 -> core.wrap64 z = z.
Proof.
  intros H. unfold core.wrap64.
  change (2 ^ 63) with 9223372036854775808 in *.
  change (2 ^ 64) with 18446744073709551616.
  rewrite Z.mod_small by lia. lia.
Qed.

(** The client that [NewHttpClient] returns carries the timeout and nothing
    else: no transport is attached to it, so the TLS settings, the
    certificates that were loaded and the unix socket have no effect on it.
    A timeout of up to 9223372036854 milliseconds is kept exactly. *)
Theorem NewHttpClient_client (P : Platform) (cfg : core.CommandLineConfig)
    (client : core.HttpClientCreator) (events : list SetupEvent) :
  core.NewHttpClient P cfg = (inr client, events) ->
  - 9223372036854 <= core.Timeout cfg <= 9223372036854 ->
  client = {| core.client_Timeout := core.Timeout cfg * 1000000;
              core.client_Transport := None |}.
Proof.
  intros H Hrange. unfold core.NewHttpClient in H.
  assert (Hw : core.wrap64 (core.Timeout cfg * 1000000) = core.Timeout cfg * 1000000).
  { apply wrap64_small. change (2 ^ 63) with 9223372036854775808. lia. }
  rewrite Hw in H.
  destruct (core.EnableTls cfg).
  - destruct (core.NewCertificateManager _ _ _ _) as [[e|cm] ev]; [discriminate|].
    injection H as <- _. reflexivity.
  - injection H as <- _. reflexivity.
Qed.

(** [NewHttpClient] fails exactly when TLS is enabled and the certificate
    manager cannot be made; its error then reads [cannot load certificate: ]
    followed by the text of the cause.  Without TLS no file is touched. *)
Theorem NewHttpClient_failure (P : Platform) (cfg : core.CommandLineConfig) :
  ((exists err, fst (core.NewHttpClient P cfg) = inl err)
   <-> core.EnableTls cfg = true
       /\ exists cause,
            fst (core.NewCertificateManager P (core.CACert cfg) (core.Cert cfg)
                   (core.CertKey cfg)) = inl cause)
  /\ (forall err, fst (core.NewHttpClient P cfg) = inl err ->
        exists cause,
          fst (core.NewCertificateManager P (core.CACert cfg) (core.Cert cfg)
                 (core.CertKey cfg)) = inl cause
          /\ Error err = "cannot load certificate: " ++ Error cause)
  /\ (core.EnableTls cfg = false -> snd (core.NewHttpClient P cfg) = []).
Proof.
  unfold core.NewHttpClient.
  destruct (core.EnableTls cfg).
  - destruct (core.NewCertificateManager _ _ _ _) as [[e|cm] ev]; cbn [fst snd].
    + split; [|split].
      * split; [intros _; split; [reflexivity|eauto]|eauto].
      * intros err [= <-]. exists e. split; reflexivity.
      * discriminate.
    + split; [|split].
      * split; [intros [? [=]]|intros [_ [? [=]]]].
      * intros err [=].
      * discriminate.
  - cbn [fst snd]. split; [|split].
    + split; [intros [? [=]]|intros [[=] _]].
    + intros err [=].
    + reflexivity.
Qed.

Lemma dial_events (P : Platform) (conn : core.CommandLineConfig) (config : ImportConfig)
    (r : error + WriteServiceClient) (events : list SetupEvent) :
  NewColumnWriterClient P conn config = (r, events) ->
  let target := core.Host conn ++ ":" ++ Itoa (ColumnWritePort config) in
  if core.EnableTls conn then
    match core.NewCertificateManager P (core.CACert conn) (core.Cert conn)
            (core.CertKey conn) with
    | (inl err, ev) => r = inl err /\ events = ev
    | (inr cm, ev) =>
        let options :=
          (baseDialOptions
             ++ [WithTransportCredentials
                   (TLSCredentials (core.CAPool cm) (core.Certificate cm)
                      (core.InsecureTls conn) (core.InsecureHostname conn))])%list in
        r = grpc_NewClient P target options
        /\ events = (ev ++ [GrpcNewClient target options])%list
    end
  else
    let options := (baseDialOptions ++ [WithTransportCredentials InsecureCredentials])%list in
    r = grpc_NewClient P target options /\ events = [GrpcNewClient target options].
Proof.
  unfold NewColumnWriterClient. intros H. cbv zeta.
  destruct (core.EnableTls conn).
  - destruct (core.NewCertificateManager _ _ _ _) as [[e|cm] ev].
    + injection H as <- <-. auto.
    + destruct (grpc_NewClient P _ _) eqn:EG; injection H as <- <-; auto.
  - destruct (grpc_NewClient P _ _) eqn:EG; injection H as <- <-; auto.
Qed.

Lemma NewCertificateManager_no_dial (P : Platform) (ca certificate certificateKey : string) :
  forallb (fun e => negb (isDial e))
    (snd (core.NewCertificateManager P ca certificate certificateKey)) = true.
Proof.
  unfold core.NewCertificateManager.
  destruct (negb (String.eqb ca "")).
  - destruct (os_ReadFile P ca); [reflexivity|].
    destruct (AppendCertsFromPEM P _); [|reflexivity].
    destruct (negb _ && negb _); [|reflexivity].
    destruct (tls_LoadX509KeyPair P _ _); reflexivity.
  - destruct (negb _ && negb _); [|reflexivity].
    destruct (tls_LoadX509KeyPair P _ _); reflexivity.
Qed.


Lemma importDefaults_Format (config : ImportConfig) :
  Format (importDefaults config)
  = if String.eqb (Format config) "" then "line_protocol" else Format config.
Proof.
  unfold importDefaults.
  destruct (String.eqb (Format config) "");
    destruct (ColumnWritePort _ =? 0); reflexivity.
Qed.

Lemma importDefaults_ColumnWritePort (config : ImportConfig) :
  ColumnWritePort (importDefaults config)
  = if ColumnWritePort config =? 0 then 8035 else ColumnWritePort config.
Proof.
  unfold importDefaults.
  destruct (String.eqb (Format config) ""); cbn [with_Format ColumnWritePort];
    destruct (ColumnWritePort config =? 0); reflexivity.
Qed.

Lemma Run_unfold (P : Platform) (lib : Library) (newHttpClient : error + ImportHttpClient)
    (conn : core.CommandLineConfig) (config : ImportConfig) (opened : error + File)
    (w : World) :
  Run P lib newHttpClient conn config opened w
  = match newHttpClient with
    | inl err =>
        (Done (Some err,
               slog_Error "create http client failed" [("reason", LogErr (Some err))] w),
         [])
    | inr httpClient =>
        match NewColumnWriterClient P conn (importDefaults config) with
        | (inl err, events) =>
            (Done (Some err,
                   slog_Error "create column writer client failed"
                     [("reason", LogErr (Some err))] w),
             events)
        | (inr writeClient, events) =>
            (process
               {| cfg := importDefaults config;
                  collab :=
                    {| httpClient_Write := hc_Write httpClient;
                       httpClient_Query := hc_Query httpClient;
                       writeClient_Write := writeClient;
                       NewWriteRequestBuilder := lib_NewWriteRequestBuilder lib;
                       NewRecordBuilder := lib_NewRecordBuilder lib;
                       builder_Build := lib_Build lib;
                       parser_Parse := lib_Parse lib |} |}
               opened
               {| fsm := newImportFileFSM; builderEntities := builderEntities w;
                  trace := trace w |},
             events)
        end
    end.
Proof. reflexivity. Qed.

(** An empty format stands for [line_protocol] and a structured-write port
    of 0 for 8035: [Run] does the same on a configuration that leaves one of
    them out as on the one that spells it out. *)
Theorem Run_defaults (P : Platform) (lib : Library)
    (newHttpClient : error + ImportHttpClient) (conn : core.CommandLineConfig)
    (config : ImportConfig) (opened : error + File) (w : World) :
  (Format config = "" ->
   Run P lib newHttpClient conn config opened w
   = Run P lib newHttpClient conn (with_Format "line_protocol" config) opened w)
  /\ (ColumnWritePort config = 0 ->
      Run P lib newHttpClient conn config opened w
      = Run P lib newHttpClient conn (with_ColumnWritePort 8035 config) opened w).
Proof.
  split; intros H; rewrite !Run_unfold.
  - assert (Hd : importDefaults (with_Format "line_protocol" config) = importDefaults config).
    { unfold importDefaults. cbn [with_Format Format ColumnWritePort]. rewrite H.
      reflexivity. }
    rewrite Hd. reflexivity.
  - assert (Hd : importDefaults (with_ColumnWritePort 8035 config) = importDefaults config).
    { unfold importDefaults. cbn [with_ColumnWritePort Format ColumnWritePort].
      destruct (String.eqb (Format config) "");
        cbn [with_Format with_ColumnWritePort Format ColumnWritePort];
        rewrite H; reflexivity. }
    rewrite Hd. reflexivity.
Qed.

(** [Run] returns an error in four cases only: the HTTP client or the
    structured write client could not be made, the file could not be
    opened, or the format is neither empty nor [line_protocol] nor [csv].
    When a client could not be made the failure is logged and nothing else
    happens: the file is not opened and the state machine is not replaced. *)
Theorem Run_errors (P : Platform) (lib : Library)
    (newHttpClient : error + ImportHttpClient) (conn : core.CommandLineConfig)
    (config : ImportConfig) (opened : error + File) (w w' : World) (e : error)
    (events : list SetupEvent) :
  Run P lib newHttpClient conn config opened w = (Done (Some e, w'), events) ->
  (newHttpClient = inl e /\ events = []
   /\ w' = slog_Error "create http client failed" [("reason", LogErr (Some e))] w)
  \/ (NewColumnWriterClient P conn (importDefaults config) = (inl e, events)
      /\ w' = slog_Error "create column writer client failed"
                [("reason", LogErr (Some e))] w)
  \/ (opened = inl e
      /\ w' = slog_Error "open file failed"
                [("file", LogStr (Path config)); ("reason", LogErr (Some e))]
                {| fsm := newImportFileFSM; builderEntities := builderEntities w;
                   trace := trace w |})
  \/ (Format config <> "" /\ Format config <> "line_protocol" /\ Format config <> "csv"
      /\ e = errorString ("unknown --format " ++ Format config
                          ++ ", only support line_protocol,csv")
      /\ w' = {| fsm := newImportFileFSM; builderEntities := builderEntities w;
                 trace := trace w |}).
Proof.
  rewrite Run_unfold. destruct newHttpClient as [err|httpClient].
  { intros [= <- <- <-]. left. auto. }
  destruct (NewColumnWriterClient P conn (importDefaults config)) as [[err|wc] ev] eqn:EC.
  { intros [= <- <- <-]. right. left. auto. }
  intros [= H <-]. right. right. revert H.
  assert (HPath : Path (importDefaults config) = Path config).
  { unfold importDefaults. destruct (String.eqb (Format config) "");
      destruct (ColumnWritePort _ =? 0); reflexivity. }
  unfold process. cbn [cfg]. destruct opened as [oe|file].
  { intros [= <- <-]. left. rewrite HPath. auto. }
  rewrite importDefaults_Format.
  destruct (String.eqb (Format config) "") eqn:EF.
  { cbn [String.eqb]. change (String.eqb "line_protocol" ImportFormatLineProtocol) with true.
    cbv iota. destruct (lineProtocolLoop _ _ _); [|discriminate].
    intros H. apply finish_Done in H as [[=] _]. }
  destruct (String.eqb (Format config) ImportFormatLineProtocol) eqn:ELP.
  { destruct (lineProtocolLoop _ _ _); [|discriminate].
    intros H. apply finish_Done in H as [[=] _]. }
  destruct (String.eqb (Format config) ImportFormatCSV) eqn:ECSV.
  { destruct (csvLoop _ _ _); [|discriminate].
    intros H. apply finish_Done in H as [[=] _]. }
  apply String.eqb_neq in EF, ELP, ECSV.
  intros [= <- <-]. right. repeat split; auto.
Qed.

(** Whatever [Run] dials, it dials the host of the configuration at the
    structured-write port, and at 8035 when that port is 0: port 0 is never
    dialled.  When the HTTP client could not be made nothing is dialled and
    no certificate is read for the write client. *)
Theorem Run_dial_target (P : Platform) (lib : Library)
    (newHttpClient : error + ImportHttpClient) (conn : core.CommandLineConfig)
    (config : ImportConfig) (opened : error + File) (w : World)
    (target : string) (options : list DialOption) :
  GrpcNewClient target options
    ∈ snd (Run P lib newHttpClient conn config opened w) ->
  (exists httpClient, newHttpClient = inr httpClient)
  /\ (ColumnWritePort config = 0 -> target = core.Host conn ++ ":8035")
  /\ (ColumnWritePort config <> 0 ->
      target = core.Host conn ++ ":" ++ Itoa (ColumnWritePort config)).
Proof.
  rewrite Run_unfold. destruct newHttpClient as [err|httpClient].
  { cbn [snd]. intros H%elem_of_nil. contradiction. }
  intros H. split; [eauto|].
  assert (Ht : target = core.Host conn ++ ":" ++ Itoa (ColumnWritePort (importDefaults config))).
  { destruct (NewColumnWriterClient P conn (importDefaults config)) as [r ev] eqn:EC.
    assert (Hev : GrpcNewClient target options ∈ ev).
    { destruct r; exact H. }
    clear H. apply dial_events in EC. cbv zeta in EC.
    pose proof (NewCertificateManager_no_dial P (core.CACert conn) (core.Cert conn)
                  (core.CertKey conn)) as Hnd.
    assert (Hnotin : forall ev0 : list SetupEvent,
               forallb (fun e => negb (isDial e)) ev0 = true ->
               GrpcNewClient target options ∈ ev0 -> False).
    { intros ev0 Hev0 Hin. rewrite forallb_forall in Hev0.
      apply list_elem_of_In in Hin. specialize (Hev0 _ Hin). discriminate. }
    destruct (core.EnableTls conn).
    - destruct (core.NewCertificateManager _ _ _ _) as [[e|cm] ev0]; cbn [snd] in Hnd.
      + destruct EC as [_ ->]. exfalso; eauto.
      + destruct EC as [_ ->].
        apply elem_of_app in Hev as [Hin|Hin%list_elem_of_singleton].
        * exfalso; eauto.
        * injection Hin as -> _. reflexivity.
    - destruct EC as [_ ->]. apply list_elem_of_singleton in Hev.
      injection Hev as -> _. reflexivity. }
  rewrite importDefaults_ColumnWritePort in Ht. split.
  - intros H0. rewrite H0 in Ht. exact Ht.
  - intros H0%Z.eqb_neq. rewrite H0 in Ht. exact Ht.
Qed.

(** * Properties of the shell *)

Lemma accepted_precision (p : string) :
  String.eqb p "h" || String.eqb p "m" || String.eqb p "s" || String.eqb p "ms"
  || String.eqb p "u" || String.eqb p "ns" || String.eqb p "rfc3339" = true
  <-> p ∈ validPrecisions.
Proof.
  unfold validPrecisions. rewrite !orb_true_iff, !String.eqb_eq.
  rewrite !elem_of_cons, elem_of_nil. tauto.
Qed.

(** A precision is accepted exactly when, in lower case, it is empty or one
    of the seven of the help text; the precision stored is then one of the
    seven, [ns] for the empty one.  Any other is refused with an error and
    the shell is left as it was. *)
Theorem executePrecision_accepts (T : core.Terminal) (p : string) (cl : core.CommandLine) :
  let lower := core.ToLower T p in
  (lower = "" \/ lower ∈ validPrecisions ->
   core.executePrecision T p cl
   = (None, core.with_config
              (core.set_precision (if String.eqb lower "" then "ns" else lower)) cl)
   /\ (if String.eqb lower "" then "ns" else lower) ∈ validPrecisions)
  /\ (lower <> "" -> lower ∉ validPrecisions ->
      core.executePrecision T p cl
      = (Some (errorString ("unknown precision " ++ core.Quote T lower
                            ++ ". precision must be rfc3339, h, m, s, ms, u or ns")),
         cl)).
Proof.
  cbv zeta. unfold core.executePrecision.
  destruct (String.eqb (core.ToLower T p) "") eqn:E0.
  - apply String.eqb_eq in E0. split.
    + intros _. split; [reflexivity|].
      unfold validPrecisions. rewrite !elem_of_cons. tauto.
    + intros H. contradiction.
  - apply String.eqb_neq in E0.
    destruct (_ || _) eqn:Eacc.
    + apply accepted_precision in Eacc. split.
      * intros _. split; [reflexivity|exact Eacc].
      * intros _ H. contradiction.
    + split.
      * intros [H|H]; [contradiction|].
        apply accepted_precision in H. congruence.
      * intros _ _. reflexivity.
Qed.

Lemma sameConnection_refl (c : core.CommandLineConfig) : sameConnection c c.
Proof. unfold sameConnection. repeat split. Qed.

Lemma sameConnection_trans (c1 c2 c3 : core.CommandLineConfig) :
  sameConnection c1 c2 -> sameConnection c2 c3 -> sameConnection c1 c3.
Proof. unfold sameConnection. intuition congruence. Qed.

Lemma executeOnLocal_keeps (T : core.Terminal) (stmt : core.Statement)
    (cl cl' : core.CommandLine) (err : option error) :
  core.executeOnLocal T stmt cl = (err, cl') ->
  sameConnection (core.config cl) (core.config cl')
  /\ (core.precision (core.config cl) ∈ validPrecisions ->
      core.precision (core.config cl') ∈ validPrecisions).
Proof.
  destruct stmt as [DB RP|p| | | | | | | | |text]; cbn [core.executeOnLocal].
  - unfold core.executeUse. destruct (String.eqb RP ""); intros [= <- <-];
      split; [repeat split|auto|repeat split|auto].
  - unfold core.executePrecision.
    destruct (String.eqb (core.ToLower T p) "").
    + intros [= <- <-]. split; [repeat split|]. intros _. cbn.
      unfold validPrecisions. rewrite !elem_of_cons. tauto.
    + destruct (_ || _) eqn:Eacc.
      * apply accepted_precision in Eacc.
        intros [= <- <-]. split; [repeat split|]. intros _. exact Eacc.
      * intros [= <- <-]. split; [apply sameConnection_refl|auto].
  - intros [= <- <-]. split; [repeat split|auto].
  - unfold core.executeAuth.
    destruct (core.Scanf_s T _); intros [= <- <-]; split; [repeat split|auto|repeat split|auto].
  - intros [= <- <-]. split; [repeat split|auto].
  - intros [= <- <-]. split; [repeat split|auto].
  - intros [= <- <-]. split; [repeat split|auto].
  - intros [= <- <-]. split; [repeat split|auto].
  - intros [= <- <-]. split; [repeat split|auto].
  - intros [= <- <-]. split; [repeat split|auto].
  - intros [= <- <-]. split; [repeat split|auto].
Qed.

Lemma executor_keeps (T : core.Terminal) (input : string) (cl cl' : core.CommandLine) :
  core.executor T input cl = core.Returned cl' ->
  sameConnection (core.config cl) (core.config cl')
  /\ (core.precision (core.config cl) ∈ validPrecisions ->
      core.precision (core.config cl') ∈ validPrecisions).
Proof.
  unfold core.executor.
  destruct (String.eqb input "").
  { intros [= <-]. split; [apply sameConnection_refl|auto]. }
  destruct (_ || _); [discriminate|].
  destruct (core.Parse T input) as [pe|stmt].
  - cbn. intros [= <-]. split; [repeat split|auto].
  - destruct (core.executeOnLocal T stmt _) as [err cl1] eqn:EL.
    apply executeOnLocal_keeps in EL as [Hc Hp].
    intros [= <-]. destruct err; cbn in *; auto.
Qed.

(** The precision of the shell stays one of the seven of the help text
    through any session: no input can store another one. *)
Theorem session_precision_valid (T : core.Terminal) (inputs : list string)
    (cl cl' : core.CommandLine) :
  core.precision (core.config cl) ∈ validPrecisions ->
  core.session T inputs cl = core.Returned cl' ->
  core.precision (core.config cl') ∈ validPrecisions.
Proof.
  revert cl. induction inputs as [|input rest IH]; intros cl Hv; cbn [core.session].
  - intros [= <-]. exact Hv.
  - destruct (core.executor T input cl) as [cl1|out] eqn:E; [|discriminate].
    apply executor_keeps in E as [_ Hp]. intros H.
    apply (IH cl1); [apply Hp, Hv|exact H].
Qed.

(** No input of a session changes the connection settings of the shell:
    host, port, socket, timeout and the TLS settings stay as they were
    given; only the credentials, the database context and the precision can
    change. *)
Theorem session_keeps_connection (T : core.Terminal) (inputs : list string)
    (cl cl' : core.CommandLine) :
  core.session T inputs cl = core.Returned cl' ->
  sameConnection (core.config cl) (core.config cl').
Proof.
  revert cl. induction inputs as [|input rest IH]; intros cl; cbn [core.session].
  - intros [= <-]. apply sameConnection_refl.
  - destruct (core.executor T input cl) as [cl1|out] eqn:E; [|discriminate].
    apply executor_keeps in E as [Hc _]. intros H.
    apply (sameConnection_trans _ (core.config cl1)); [exact Hc|apply IH, H].
Qed.

(** An input that is no statement of the shell is not sent anywhere, and
    neither is an insert: the clock is read twice, the elapsed time is
    printed, and nothing else happens.  No error is reported. *)
Theorem executor_sends_nothing (T : core.Terminal) (input : string) (cl : core.CommandLine) :
  input <> "" -> input ∉ quitWords ->
  (exists e, core.Parse T input = inl e)
  \/ core.Parse T input = inr core.InsertStatement
  \/ core.Parse T input = inr core.ChunkedStatement
  \/ core.Parse T input = inr core.ChunkSizeStatement ->
  exists cl',
    core.executor T input cl = core.Returned cl'
    /\ core.config cl' = core.config cl /\ sameFlags cl cl'
    /\ core.console cl'
       = (core.console cl
          ++ [core.ClockRead; core.ClockRead;
              core.Printed
                ("Elapsed: "
                 ++ core.Duration_String T
                      (core.time_Now T (core.console cl ++ [core.ClockRead])%list
                       - core.time_Now T (core.console cl))
                 ++ LF)])%list.
Proof.
  intros Hne Hq Hp. unfold core.executor.
  apply String.eqb_neq in Hne. rewrite Hne.
  assert (Hquit : String.eqb input "quit" || String.eqb input "exit"
                  || String.eqb input "\q" = false).
  { apply not_true_is_false. intros H. apply Hq.
    unfold quitWords. rewrite !orb_true_iff, !String.eqb_eq in H.
    rewrite !elem_of_cons. tauto. }
  rewrite Hquit.
  destruct Hp as [[e ->] | [-> | [-> | ->]]];
    cbn [core.executeOnLocal core.executeOnRemote];
    (eexists; split; [reflexivity|]; split; [reflexivity|]; split; [repeat split|];
     unfold core.elapse, core.Printf, core.happen, core.with_executeAt;
     cbn [core.console core.executeAt]; rewrite <- !app_assoc; reflexivity).
Qed.

(** Each of the three switches is a toggle: the same input given twice
    leaves the flags and the configuration as they were. *)
Theorem switch_twice (T : core.Terminal) (input : string) (stmt : core.Statement)
    (cl : core.CommandLine) :
  input <> "" -> input ∉ quitWords ->
  core.Parse T input = inr stmt ->
  stmt = core.TimerStatement \/ stmt = core.DebugStatement \/ stmt = core.PromptStatement ->
  exists cl1 cl2,
    core.executor T input cl = core.Returned cl1
    /\ core.session T [input; input] cl = core.Returned cl2
    /\ ~ sameFlags cl cl1
    /\ sameFlags cl cl2 /\ core.config cl2 = core.config cl.
Proof.
  intros Hne Hq Hp Hs. cbn [core.session]. unfold core.executor.
  apply String.eqb_neq in Hne. rewrite Hne.
  assert (Hquit : String.eqb input "quit" || String.eqb input "exit"
                  || String.eqb input "\q" = false).
  { apply not_true_is_false. intros H. apply Hq.
    unfold quitWords. rewrite !orb_true_iff, !String.eqb_eq in H.
    rewrite !elem_of_cons. tauto. }
  rewrite Hquit, Hp.
  destruct Hs as [-> | [-> | ->]]; cbn [core.executeOnLocal];
    unfold core.executeTimer, core.executeDebug, core.executePrompt;
    eexists _, _; (split; [reflexivity|]); (split; [reflexivity|]);
    unfold sameFlags; cbn;
    (split; [|split; [|reflexivity]]).
  - intros (H & _ & _). destruct (core.timer cl); discriminate.
  - rewrite negb_involutive. repeat split.
  - intros (_ & H & _). destruct (core.debug cl); discriminate.
  - rewrite negb_involutive. repeat split.
  - intros (_ & _ & H). destruct (core.suggest cl); discriminate.
  - rewrite negb_involutive. repeat split.
Qed.

Lemma executor_exits (T : core.Terminal) (input : string) (cl : core.CommandLine) :
  (input ∈ quitWords ->
   core.executor T input cl
   = core.Exited (core.console cl
                  ++ (if core.windows T then [] else [core.SttyReset])
                  ++ [core.OsExit 0])%list)
  /\ (input ∉ quitWords -> exists cl', core.executor T input cl = core.Returned cl').
Proof.
  unfold core.executor, quitWords. rewrite !elem_of_cons, elem_of_nil. split.
  - intros [-> | [-> | [-> | []]]]; reflexivity.
  - intros Hq. destruct (String.eqb input ""); [eauto|].
    destruct (_ || _) eqn:E.
    { exfalso. apply Hq. rewrite !orb_true_iff, !String.eqb_eq in E. tauto. }
    destruct (core.Parse T input) as [pe|stmt].
    + cbn. eauto.
    + destruct (core.executeOnLocal T stmt _) as [err cl1]. eauto.
Qed.

(** A session ends the process exactly when one of its inputs is [quit],
    [exit] or [\q]; the inputs after the first of them are not looked at,
    and the exit status is 0. *)
Theorem session_exits_iff (T : core.Terminal) (inputs : list string) (cl : core.CommandLine) :
  ((exists out, core.session T inputs cl = core.Exited out)
   <-> exists input, input ∈ inputs /\ input ∈ quitWords)
  /\ (forall before word after,
        inputs = (before ++ word :: after)%list ->
        word ∈ quitWords -> Forall (fun i => i ∉ quitWords) before ->
        core.session T inputs cl = core.session T (before ++ [word])%list cl
        /\ exists earlier,
             core.session T inputs cl = core.Exited (earlier ++ [core.OsExit 0])%list).
Proof.
  split.
  - revert cl. induction inputs as [|input rest IH]; intros cl; cbn [core.session].
    + split; [intros [? [=]]|intros (? & []%elem_of_nil & _)].
    + destruct (decide (input ∈ quitWords)) as [Hq|Hq].
      * rewrite (proj1 (executor_exits T input cl) Hq). split; [|eauto].
        intros _. exists input. split; [left|exact Hq].
      * destruct (proj2 (executor_exits T input cl) Hq) as [cl1 ->].
        rewrite IH. split.
        -- intros (i & Hin & Hiq). exists i. split; [right; exact Hin|exact Hiq].
        -- intros (i & [->|Hin]%elem_of_cons & Hiq); [contradiction|eauto].
  - intros before word after -> Hw Hb. revert cl.
    induction Hb as [|i before Hi Hb IH]; intros cl; cbn [app core.session].
    + rewrite (proj1 (executor_exits T word cl) Hw). split; [reflexivity|].
      exists (core.console cl ++ (if core.windows T then [] else [core.SttyReset]))%list.
      rewrite <- app_assoc. reflexivity.
    + destruct (proj2 (executor_exits T i cl) Hi) as [cl1 ->]. apply IH.
Qed.

(** A statement that fails changes nothing.  Only two statements fail: a
    precision that is not accepted, and a statement the shell has no case
    for. *)
Theorem executeOnLocal_errors (T : core.Terminal) (stmt : core.Statement)
    (cl cl' : core.CommandLine) (e : error) :
  core.executeOnLocal T stmt cl = (Some e, cl') ->
  cl' = cl
  /\ ((exists p, stmt = core.PrecisionStatement p
                 /\ core.ToLower T p <> "" /\ (core.ToLower T p ∉ validPrecisions)
                 /\ e = errorString ("unknown precision " ++ core.Quote T (core.ToLower T p)
                                     ++ ". precision must be rfc3339, h, m, s, ms, u or ns"))
      \/ (exists text, stmt = core.otherStatement text
                       /\ e = errorString ("unsupport stmt " ++ text))).
Proof.
  destruct stmt as [DB RP|p| | | | | | | | |text]; cbn [core.executeOnLocal];
    try discriminate.
  - unfold core.executePrecision.
    destruct (String.eqb (core.ToLower T p) "") eqn:E0; [discriminate|].
    apply String.eqb_neq in E0.
    destruct (_ || _) eqn:Eacc; [discriminate|].
    intros [= <- <-]. split; [reflexivity|].
    left. exists p. repeat split; auto.
    intros Hv%accepted_precision. congruence.
  - intros [= <- <-]. split; [reflexivity|]. right. eauto.
Qed.

(** The shell always ends with exit status 0, whatever was typed and
    whatever failed; the terminal is reset just before, except on Windows. *)
Theorem PromptRun_exit_status (T : core.Terminal) (Version : string) (inputs : list string)
    (cl : core.CommandLine) :
  exists earlier,
    PromptRun T Version inputs cl
    = core.Exited (earlier ++ (if core.windows T then [] else [core.SttyReset])
                   ++ [core.OsExit 0])%list.
Proof.
  unfold PromptRun.
  generalize (core.Printf
                ("Please use `quit`, `exit` or `Ctrl-D` to exit this program." ++ LF)
                (core.Printf ("openGemini CLI " ++ Version ++ " (rev-" ++ "revision" ++ ")" ++ LF)
                   cl)).
  induction inputs as [|input rest IH]; intros cl0; cbn [core.session].
  - eexists. reflexivity.
  - destruct (decide (input ∈ quitWords)) as [Hq|Hq].
    + rewrite (proj1 (executor_exits T input cl0) Hq). eexists. reflexivity.
    + destruct (proj2 (executor_exits T input cl0) Hq) as [cl1 ->]. apply IH.
Qed.

(** ** The set-up and the shell on concrete inputs *)

(** In the shell, [precision MS] stores [ms]. *)
Example precision_MS :
  core.executePrecision DemoShell.terminal "MS" DemoShell.start
  = (None, core.with_config (core.set_precision "ms") DemoShell.start).
Proof. reflexivity. Qed.

Lemma NewCertificateManager_made_witness :
  exists cm events,
    core.NewCertificateManager DemoSetup.platform "ca.pem" "client.pem" ""
    = (inr cm, events)
    /\ core.CAPool cm = Some "PEM" /\ core.Certificate cm = None
    /\ events = [ReadFile "ca.pem"].
Proof.
  eexists _, _. split; [reflexivity|].
  destruct (NewCertificateManager_made DemoSetup.platform "ca.pem" "client.pem" ""
              _ _ eq_refl) as (_ & _ & H3 & _ & H5).
  split; [reflexivity|]. split; [apply H3; right; reflexivity|exact H5].
Defined.

Lemma NewCertificateManager_failure_witness :
  exists err events,
    core.NewCertificateManager DemoSetup.platform "missing.pem" "client.pem" "client.key"
    = (inl err, events)
    /\ events = [ReadFile "missing.pem"].
Proof.
  eexists _, _. split; [reflexivity|].
  destruct (NewCertificateManager_failure DemoSetup.platform "missing.pem" "client.pem"
              "client.key" _ _ eq_refl) as [(_ & He & _)|(_ & _ & Hload & _)].
  - exact He.
  - discriminate Hload.
Defined.

Lemma NewHttpClient_client_witness :
  exists client events,
    core.NewHttpClient DemoSetup.platform
      (DemoSetup.conn true "ca.pem" "client.pem" "client.key") = (inr client, events)
    /\ client = {| core.client_Timeout := 5000000000; core.client_Transport := None |}.
Proof.
  eexists _, _. split; [reflexivity|].
  apply (NewHttpClient_client DemoSetup.platform
           (DemoSetup.conn true "ca.pem" "client.pem" "client.key") _ _ eq_refl).
  cbn. lia.
Defined.


Lemma Run_errors_witness :
  match Run DemoSetup.platform DemoSetup.library (inl DemoWorlds.refused)
          (DemoSetup.conn false "" "" "") (Demo.config "" false 10)
          (inr Demo.scenario1) initialWorld with
  | (Done (Some e, w'), events) =>
      e = DemoWorlds.refused /\ events = [] /\ fsm w' = fsm initialWorld
  | _ => True
  end.
Proof.
  destruct (Run _ _ _ _ _ _ _) as [[[[e|] w']|] events] eqn:H; try exact I.
  destruct (Run_errors _ _ _ _ _ _ _ _ _ _ H)
    as [(He & Hev & Hw)|[(Hc & _)|[(Ho & _)|(Hf & _)]]].
  - injection He as <-. rewrite Hw. auto.
  - discriminate Hc.
  - discriminate Ho.
  - contradiction Hf. reflexivity.
Defined.

Lemma Run_dial_target_witness :
  exists target options,
    GrpcNewClient target options
      ∈ snd (Run DemoSetup.platform DemoSetup.library (inr DemoSetup.httpClient)
               (DemoSetup.conn false "" "" "")
               (with_ColumnWritePort 0 (Demo.config "" false 10))
               (inr Demo.scenario1) initialWorld)
    /\ target = "localhost:8035".
Proof.
  assert (Hin : GrpcNewClient "localhost:8035"
                  (baseDialOptions ++ [WithTransportCredentials InsecureCredentials])%list
                ∈ snd (Run DemoSetup.platform DemoSetup.library (inr DemoSetup.httpClient)
                         (DemoSetup.conn false "" "" "")
                         (with_ColumnWritePort 0 (Demo.config "" false 10))
                         (inr Demo.scenario1) initialWorld)).
  { left. }
  eexists _, _. split; [exact Hin|].
  destruct (Run_dial_target _ _ _ _ _ _ _ _ _ Hin) as (_ & H0 & _).
  apply H0. reflexivity.
Defined.

Lemma session_precision_valid_witness :
  exists cl',
    core.session DemoShell.terminal ["precision MS"; "precision fortnight"] DemoShell.start
    = core.Returned cl'
    /\ core.precision (core.config cl') ∈ validPrecisions.
Proof.
  eexists. split; [reflexivity|].
  apply (session_precision_valid DemoShell.terminal
           ["precision MS"; "precision fortnight"] DemoShell.start _).
  - unfold validPrecisions. cbn. repeat constructor.
  - reflexivity.
Defined.

Lemma session_keeps_connection_witness :
  exists cl',
    core.session DemoShell.terminal ["use db1"; "auth"; "precision MS"] DemoShell.start
    = core.Returned cl'
    /\ sameConnection (core.config DemoShell.start) (core.config cl').
Proof.
  eexists. split; [reflexivity|].
  apply (session_keeps_connection DemoShell.terminal
           ["use db1"; "auth"; "precision MS"] DemoShell.start _ eq_refl).
Defined.

Lemma executor_sends_nothing_witness :
  exists cl',
    core.executor DemoShell.terminal "select * from cpu" DemoShell.start = core.Returned cl'
    /\ core.config cl' = core.config DemoShell.start
    /\ length (core.console cl') = 3%nat.
Proof.
  assert (Hq : "select * from cpu" ∉ quitWords).
  { unfold quitWords. rewrite !elem_of_cons, elem_of_nil.
    intros [H|[H|[H|[]]]]; discriminate H. }
  destruct (executor_sends_nothing DemoShell.terminal "select * from cpu" DemoShell.start
              ltac:(discriminate) Hq (or_introl (ex_intro _ _ eq_refl)))
    as (cl' & He & Hc & _ & Hcon).
  exists cl'. split; [exact He|]. split; [exact Hc|]. rewrite Hcon. reflexivity.
Defined.

Lemma switch_twice_witness :
  exists cl1 cl2,
    core.executor DemoShell.terminal "timer" DemoShell.start = core.Returned cl1
    /\ core.session DemoShell.terminal ["timer"; "timer"] DemoShell.start
       = core.Returned cl2
    /\ core.timer cl1 = true /\ core.timer cl2 = false.
Proof.
  assert (Hq : "timer" ∉ quitWords).
  { unfold quitWords. rewrite !elem_of_cons, elem_of_nil.
    intros [H|[H|[H|[]]]]; discriminate H. }
  destruct (switch_twice DemoShell.terminal "timer" core.TimerStatement DemoShell.start
              ltac:(discriminate) Hq eq_refl (or_introl eq_refl))
    as (cl1 & cl2 & H1 & H2 & _ & (Ht & _) & _).
  exists cl1, cl2. split; [exact H1|]. split; [exact H2|].
  split; [|exact Ht]. injection H1 as <-. reflexivity.
Defined.

Lemma executeOnLocal_errors_witness :
  exists e cl',
    core.executeOnLocal DemoShell.terminal (core.PrecisionStatement "fortnight")
      DemoShell.start = (Some e, cl')
    /\ cl' = DemoShell.start.
Proof.
  eexists _, _. split; [reflexivity|].
  apply (executeOnLocal_errors DemoShell.terminal (core.PrecisionStatement "fortnight")
           DemoShell.start _ _ eq_refl).
Defined.
